(** * Obsidian Tasks (nested-task fork): index, query interpreter, ordering

    A shallow embedding of [Cache.ts], [Query.ts] and [Sort.ts] and the
    properties their specification states about them.

    Conventions of the embedding:
    - a JavaScript string is a [string] of code units below 256;
    - a JavaScript number that the sources only compare, subtract, add one
      to or negate is a [Z];
    - an expression that can raise (reading a property of [undefined]) is a
      computation in the [Result] monad;
    - an array that is shared with a caller lives in a store ([gmap]) and is
      passed by location. *)

From Stdlib Require Import ZArith List Bool Ascii String Lia Permutation.
From Stdlib Require Import Sorted.
From Stdlib Require Import DecimalString DecimalNat.
From stdpp Require Import base option list gmap.

Import ListNotations.
Open Scope string_scope.
Open Scope Z_scope.

(** ** JavaScript run-time values *)

Module JS.

(** The only exception the modelled code can raise by itself. *)
Inductive Error : Type :=
| TypeError.

Inductive Result (A : Type) : Type :=
| Ok (a : A)
| Throw (e : Error).

Arguments Ok {A} a.
Arguments Throw {A} e.

Definition bind {A B : Type} (m : Result A) (k : A -> Result B) : Result B :=
  match m with
  | Ok a => k a
  | Throw e => Throw e
  end.

(** [arr[i]]: [undefined] outside [0 .. length - 1], negative indices
    included. *)
Definition index {A : Type} (arr : list A) (i : Z) : option A :=
  if i <? 0 then None else arr !! Z.to_nat i.

(** [o.f] where [o] may be [undefined]. *)
Definition prop {A B : Type} (o : option A) (f : A -> B) : Result B :=
  match o with
  | Some a => Ok (f a)
  | None => Throw TypeError
  end.

(** Truthiness of a string: every string but the empty one. *)
Definition truthy (s : string) : bool :=
  negb (s =? "")%string.

(** [a < b] and [a > b] on strings: order of the code units. *)
Definition str_lt (a b : string) : bool := String.ltb a b.
Definition str_gt (a b : string) : bool := String.ltb b a.

(** [a.localeCompare(b)], by code units: exact on the strings of one digit
    that the priorities are. On other strings the collation of the host can
    differ (it puts [a] before [B], the code units do not); nothing proved
    below depends on how two descriptions compare, and what is proved of
    [Sort.by] is stated for criteria other than [description]. *)
Definition localeCompare (a b : string) : Z :=
  match String.compare a b with
  | Lt => -1
  | Eq => 0
  | Gt => 1
  end.

(** *** Strings *)

(** [s] without its prefix [p], when it starts with [p]. *)
Fixpoint stripPrefix (p s : string) : option string :=
  match p, s with
  | EmptyString, _ => Some s
  | String c p', String d s' =>
      if Ascii.eqb c d then stripPrefix p' s' else None
  | String _ _, EmptyString => None
  end.

Definition startsWith (p s : string) : bool :=
  match stripPrefix p s with
  | Some _ => true
  | None => false
  end.

Definition code (c : ascii) : N := N_of_ascii c.

(** Line terminators below 256: LF and CR. A regular expression's [.] stops
    at them. *)
Definition isLineTerminator (c : ascii) : bool :=
  (code c =? 10)%N || (code c =? 13)%N.

(** What [trim] removes: white space and line terminators. *)
Definition isWhiteSpace (c : ascii) : bool :=
  (code c =? 9)%N || (code c =? 10)%N || (code c =? 11)%N ||
  (code c =? 12)%N || (code c =? 13)%N || (code c =? 32)%N ||
  (code c =? 160)%N.

Fixpoint trimStart (s : string) : string :=
  match s with
  | EmptyString => EmptyString
  | String c s' => if isWhiteSpace c then trimStart s' else s
  end.

Fixpoint trimEnd (s : string) : string :=
  match s with
  | EmptyString => EmptyString
  | String c s' =>
      match trimEnd s' with
      | EmptyString => if isWhiteSpace c then EmptyString else String c EmptyString
      | r => String c r
      end
  end.

Definition trim (s : string) : string := trimEnd (trimStart s).

(** [s.split('\n')]. *)
Fixpoint splitLines (s : string) : list string :=
  match s with
  | EmptyString => [EmptyString]
  | String c s' =>
      if (code c =? 10)%N then EmptyString :: splitLines s'
      else match splitLines s' with
           | l :: ls => String c l :: ls
           | [] => [String c EmptyString]
           end
  end.

(** [haystack.includes(needle)]. *)
Fixpoint includes (haystack needle : string) : bool :=
  startsWith needle haystack ||
  match haystack with
  | EmptyString => false
  | String _ h' => includes h' needle
  end.

(** The lower-case form of a letter below 256: A to Z, and the accented
    capitals but the multiplication sign at 215. *)
Definition lowerChar (c : ascii) : ascii :=
  if ((65 <=? code c)%N && (code c <=? 90)%N)
     || ((192 <=? code c)%N && (code c <=? 222)%N && negb (code c =? 215)%N)
  then ascii_of_N (code c + 32)
  else c.

(** [s.toLocaleLowerCase()]. *)
Fixpoint toLocaleLowerCase (s : string) : string :=
  match s with
  | EmptyString => EmptyString
  | String c s' => String (lowerChar c) (toLocaleLowerCase s')
  end.

(** [s.replace(pat, repl)] for a string pattern: the first occurrence. *)
Fixpoint replaceFirst (pat repl s : string) : string :=
  match stripPrefix pat s with
  | Some rest => repl ++ rest
  | None =>
      match s with
      | EmptyString => EmptyString
      | String c s' => String c (replaceFirst pat repl s')
      end
  end.

(** [s.indexOf(c)] for a one-character [c]; [-1] when absent. *)
Fixpoint indexOfChar (c : ascii) (s : string) : Z :=
  match s with
  | EmptyString => -1
  | String d s' =>
      if Ascii.eqb c d then 0
      else let i := indexOfChar c s' in if i <? 0 then -1 else i + 1
  end.

Fixpoint dropChars (n : nat) (s : string) : string :=
  match n, s with
  | O, _ => s
  | S n', String _ s' => dropChars n' s'
  | S _, EmptyString => EmptyString
  end.

(** [s.substring(i)]: a negative start counts as 0. *)
Definition substringFrom (i : Z) (s : string) : string :=
  dropChars (Z.to_nat i) s.

(** The longest prefix a regular expression's [.*] takes, and the rest. *)
Fixpoint dotStar (s : string) : string :=
  match s with
  | EmptyString => EmptyString
  | String c s' => if isLineTerminator c then EmptyString else String c (dotStar s')
  end.

Definition isDigit (c : ascii) : bool :=
  (48 <=? code c)%N && (code c <=? 57)%N.

(** The digits [\d+] takes (all of the leading ones), and the rest. *)
Fixpoint spanDigits (s : string) : string * string :=
  match s with
  | EmptyString => (EmptyString, EmptyString)
  | String c s' =>
      if isDigit c
      then let '(ds, rest) := spanDigits s' in (String c ds, rest)
      else (EmptyString, s)
  end.

(** [Number.parseInt(ds, 10)] on a string of digits: the integer the digits
    write. A JavaScript number holds every integer up to 2^53 exactly, and
    rounds above; the function is the code's up to 2^53, and what is proved
    with it is stated up to there. *)
Definition parseInt (ds : string) : Z :=
  fold_left (fun acc c => 10 * acc + (Z.of_N (code c) - 48))
            (list_ascii_of_string ds) 0.

End JS.

Import JS.

#[export] Instance result_ret : MRet Result := @Ok.
#[export] Instance result_bind : MBind Result :=
  fun A B k m => JS.bind m k.

(** ** Dates (moment.js values) *)

Module Moment.

(** A moment is a time stamp in milliseconds, or the invalid moment that
    [moment(null)] and a failed parse give. *)
Inductive t : Type :=
| Valid (ms : Z)
| Invalid.

Definition isValid (m : t) : bool :=
  match m with
  | Valid _ => true
  | Invalid => false
  end.

(** Every comparison that involves the invalid moment is [false]. *)
Definition isBefore (a b : t) : bool :=
  match a, b with
  | Valid x, Valid y => x <? y
  | _, _ => false
  end.

Definition isAfter (a b : t) : bool :=
  match a, b with
  | Valid x, Valid y => x >? y
  | _, _ => false
  end.

Definition isSame (a b : t) : bool :=
  match a, b with
  | Valid x, Valid y => x =? y
  | _, _ => false
  end.

Definition msPerDay : Z := 86400000.

(** [m.startOf('day')], with days counted in UTC. *)
Definition startOfDay (m : t) : t :=
  match m with
  | Valid x => Valid (x - x mod msPerDay)
  | Invalid => Invalid
  end.

(** [moment(d)] for a [Date] or [null]. *)
Definition ofDate (d : option Z) : t :=
  match d with
  | Some x => Valid x
  | None => Invalid
  end.

End Moment.

(** ** The task model ([Task.ts])

    [Task.ts] is not among the sources; its types are taken from the data
    model of the specification and from the fields the sources read. *)

(** Modelled from the spec: the enumeration [Status] of [Task.ts]. *)
Inductive Status : Type :=
| Todo
| Done
| Blocked
| InProgress.

#[export] Instance Status_eq_dec : EqDecision Status.
Proof. solve_decision. Defined.

Definition Status_eqb (a b : Status) : bool := bool_decide (a = b).

(** Modelled from the spec: the enumeration [Priority] of [Task.ts], which is
    not among the sources. The specification ranks High > Medium > Low >
    None, "compared lexicographically on the enumeration's string form";
    the string forms below make the smaller string the higher rank, which is
    the sense in which [Query.ts] and [Sort.ts] read [localeCompare]. *)
Inductive Priority : Type :=
| High
| Medium
| Low
| NoPriority.

Definition Priority_value (p : Priority) : string :=
  match p with
  | High => "1"
  | Medium => "2"
  | Low => "3"
  | NoPriority => "4"
  end.

(** A recurrence rule; the sources only test whether a task has one. *)
Inductive Recurrence : Type :=
| Rule (text : string).

(** Modelled from the spec: the class [Task] of [Task.ts], with the fields
    the specification lists and the sources read. *)
Record Task : Type := mkTask {
  status : Status;
  description : string;
  path : string;
  indentation : string;
  sectionStart : Z;
  sectionIndex : Z;
  id : Z;
  parent : Z;
  precedingHeader : option string;
  priority : Priority;
  startDate : option Moment.t;
  scheduledDate : option Moment.t;
  dueDate : option Moment.t;
  doneDate : option Moment.t;
  recurrence : option Recurrence;
  (* computed by Task.ts from priority and dates; only compared here *)
  urgency : Z
}.

(** [new Task({ ...task, path: p })]. *)
Definition Task_with_path (task : Task) (p : string) : Task :=
  mkTask (status task) (description task) p (indentation task)
         (sectionStart task) (sectionIndex task) (id task) (parent task)
         (precedingHeader task) (priority task) (startDate task)
         (scheduledDate task) (dueDate task) (doneDate task)
         (recurrence task) (urgency task).

(** Modelled from the spec: the class [TaskBlock] of [Task.ts], an ordered
    sequence of tasks. *)
Record TaskBlock : Type := mkTaskBlock {
  tasks : list Task
}.

(** [new TaskBlock()]. *)
Definition TaskBlock_new : TaskBlock := mkTaskBlock [].

(** [block.tasks.push(task)]. *)
Definition TaskBlock_push (block : TaskBlock) (task : Task) : TaskBlock :=
  mkTaskBlock (tasks block ++ [task]).

(** ** What the host supplies

    The date parser (chrono), the plugin settings and the line parser of
    [Task.ts] are not part of the modelled sources. *)

Class Host : Type := {
  (** [chrono.parseDate(text)]: a time stamp, or [null]. *)
  chrono_parseDate : string -> option Z;
  (** [getSettings().globalFilter]. *)
  globalFilter : string;
  (** [Task.fromLine({ line, path, sectionStart, sectionIndex,
      precedingHeader, id, parent })]: [null] when the line is not a task. *)
  Task_fromLine :
    option string -> string -> Z -> Z -> option string -> Z -> Z ->
    Result (option Task)
}.

Definition orElse {A : Type} (a b : option A) : option A :=
  match a with
  | Some _ => a
  | None => b
  end.

(** The characters a greedy negated class [[^c]*] takes, and the rest. *)
Fixpoint spanNot (c : ascii) (s : string) : string * string :=
  match s with
  | EmptyString => (EmptyString, EmptyString)
  | String d s' =>
      if Ascii.eqb c d then (EmptyString, s)
      else let '(run, rest) := spanNot c s' in (String d run, rest)
  end.

(** [[^c]*] followed by the literal [close]: the class's text and what
    follows the literal. A shorter run of the class leaves a character of the
    class before [close], so only the longest run can match. *)
Definition classThen (c : ascii) (close : string) (s : string)
  : option (string * string) :=
  let '(run, rest) := spanNot c s in
  match stripPrefix close rest with
  | Some after => Some (run, after)
  | None => None
  end.

(** [open], then optionally [open] again (tried first), then [[^c]*], then
    [close]. *)
Definition matchDecoration (open : string) (c : ascii) (close : string)
    (s : string) : option (string * string) :=
  match stripPrefix open s with
  | None => None
  | Some r =>
      orElse (match stripPrefix open r with
              | Some r1 => classThen c close r1
              | None => None
              end)
             (classThen c close r)
  end.

(** ** The ordering engine ([Sort.ts]) *)

Module Sort.

Inductive SortingProperty : Type :=
| urgency_
| status_
| priority_
| start_
| scheduled_
| due_
| done_
| path_
| description_.

Record Sorting : Type := mkSorting {
  property : SortingProperty;
  reverse : bool
}.

Definition Comparator : Type := TaskBlock -> TaskBlock -> Result Z.

(** [Array.prototype.sort(cmp)] as a stable insertion sort: [x] goes before
    the first element it does not compare greater than. The language fixes
    the outcome of [sort] (ascending, elements that compare equal in their
    former order) for a consistent comparator, and this is that outcome; for
    another comparator the order is left to the implementation, and this is
    one of the orders it can give. *)
Fixpoint insertBy {A : Type} (cmp : A -> A -> Z) (x : A) (l : list A)
  : list A :=
  match l with
  | [] => [x]
  | y :: l' => if cmp x y <=? 0 then x :: l else y :: insertBy cmp x l'
  end.

Fixpoint sortBy {A : Type} (cmp : A -> A -> Z) (l : list A) : list A :=
  match l with
  | [] => []
  | x :: l' => insertBy cmp x (sortBy cmp l')
  end.

(** The same sort for a comparator that can raise; the exception leaves the
    sort. *)
Fixpoint insertByM {A : Type} (cmp : A -> A -> Result Z) (x : A) (l : list A)
  : Result (list A) :=
  match l with
  | [] => Ok [x]
  | y :: l' =>
      c ← cmp x y;
      if c <=? 0 then Ok (x :: l)
      else r ← insertByM cmp x l'; Ok (y :: r)
  end.

Fixpoint sortByM {A : Type} (cmp : A -> A -> Result Z) (l : list A)
  : Result (list A) :=
  match l with
  | [] => Ok []
  | x :: l' => s ← sortByM cmp l'; insertByM cmp x s
  end.

(** A task-level function applied to two array elements, either of which
    may be [undefined]: reading its field raises. *)
Definition onTasks {B : Type} (f : Task -> Task -> B) (x y : option Task)
  : Result B :=
  a ← prop x (fun t => t);
  b ← prop y (fun t => t);
  Ok (f a b).

Definition makeReversedComparator (comparator : Comparator) : Comparator :=
  fun a b => r ← comparator a b; Ok (r * -1).

Fixpoint makeCompositeComparator (comparators : list Comparator)
  : Comparator :=
  fun a b =>
    match comparators with
    | [] => Ok 0
    | comparator :: rest =>
        result ← comparator a b;
        if negb (result =? 0) then Ok result
        else makeCompositeComparator rest a b
    end.

(** [compareByUrgency] also writes both sorted arrays to the console, and
    that is all it does with the console. *)
Definition compareByUrgency : Comparator := fun a b =>
  let compareTask (at_ bt : Task) : Z := urgency bt - urgency at_ in
  if (length (tasks a) <? 1)%nat then Ok (-1)
  else if (length (tasks b) <? 1)%nat then Ok 1
  else
    let a_sorted := sortBy compareTask (tasks a) in
    let b_sorted := sortBy compareTask (tasks b) in
    onTasks compareTask (index a_sorted 0) (index b_sorted 0).

Definition getScore (arr : list Status) : bool :=
  let totalTasks := Z.of_nat (length arr) in
  let initial :=
    fold_left (fun acc s => acc + (if Status_eqb s Done then 1 else 0)) arr 0 in
  initial =? totalTasks.

Definition compareByStatus : Comparator := fun a b =>
  let a_score := getScore (map status (tasks a)) in
  let b_score := getScore (map status (tasks b)) in
  Ok (if negb a_score && b_score then -1
      else if a_score && negb b_score then 1 else 0).

Definition compareByPriority : Comparator := fun a b =>
  let compareTask (at_ bt : Task) : Z :=
    localeCompare (Priority_value (priority at_)) (Priority_value (priority bt)) in
  let a_sorted := sortBy compareTask (tasks a) in
  let b_sorted := sortBy compareTask (tasks b) in
  onTasks compareTask (index a_sorted 0) (index b_sorted 0).

Definition compareByDate (a b : option Moment.t) : Z :=
  match a, b with
  | Some _, None => -1
  | None, Some _ => 1
  | Some x, Some y =>
      if Moment.isAfter x y then 1
      else if Moment.isBefore x y then -1
      else 0
  | None, None => 0
  end.

Definition compareByStartDate : Comparator := fun a b =>
  let compareTask (at_ bt : Task) : Z :=
    compareByDate (startDate at_) (startDate bt) in
  let a_sorted := sortBy compareTask (tasks a) in
  let b_sorted := sortBy compareTask (tasks b) in
  onTasks compareTask (index a_sorted 0) (index b_sorted 0).

Definition compareByScheduledDate : Comparator := fun a b =>
  let compareTask (at_ bt : Task) : Z :=
    compareByDate (scheduledDate at_) (scheduledDate bt) in
  let a_sorted := sortBy compareTask (tasks a) in
  let b_sorted := sortBy compareTask (tasks b) in
  onTasks compareTask (index a_sorted 0) (index b_sorted 0).

Definition compareByDueDate : Comparator := fun a b =>
  let compareTask (at_ bt : Task) : Z :=
    compareByDate (dueDate at_) (dueDate bt) in
  let a_sorted := sortBy compareTask (tasks a) in
  let b_sorted := sortBy compareTask (tasks b) in
  onTasks compareTask (index a_sorted 0) (index b_sorted 0).

(** The source reads [a_sorted[-1]] and [b_sorted[-1]]. *)
Definition compareByDoneDate : Comparator := fun a b =>
  let compareTask (at_ bt : Task) : Z :=
    compareByDate (doneDate at_) (doneDate bt) in
  let a_sorted := sortBy compareTask (tasks a) in
  let b_sorted := sortBy compareTask (tasks b) in
  onTasks compareTask (index a_sorted (-1)) (index b_sorted (-1)).

Definition compareByPath : Comparator := fun a b =>
  match tasks a, tasks b with
  | ta :: _, tb :: _ =>
      if str_lt (path ta) (path tb) then Ok (-1)
      else if str_gt (path ta) (path tb) then Ok 1
      else Ok 0
  | _, _ => Ok 0
  end.

Section WithHost.
Context `{Host}.

(** [description.replace(startsWithLinkRegex, '')]. *)
Definition removeLeadingLink (description : string) : string :=
  match matchDecoration "[" "]"%char "]" description with
  | Some (_, rest) => rest
  | None => description
  end.

Definition cleanDescription (description : string) : string :=
  let description := trim (replaceFirst globalFilter "" description) in
  let description :=
    match matchDecoration "[" "]"%char "]" description with
    | Some (innerLinkText, rest) =>
        substringFrom (indexOfChar "|"%char innerLinkText + 1) innerLinkText
        ++ rest
    | None => description
    end in
  let description :=
    match matchDecoration "*" "*"%char "*" description with
    | Some (innerItalicBoldText, _) =>
        innerItalicBoldText ++ removeLeadingLink description
    | None => description
    end in
  let description :=
    match matchDecoration "=" "="%char "==" description with
    | Some (innerHighlightsText, rest) => innerHighlightsText ++ rest
    | None => description
    end in
  description.

Definition compareByDescription : Comparator := fun a b =>
  onTasks
    (fun ta tb =>
       localeCompare (cleanDescription (description ta))
                     (cleanDescription (description tb)))
    (index (tasks a) 0) (index (tasks b) 0).

Definition comparators (p : SortingProperty) : Comparator :=
  match p with
  | urgency_ => compareByUrgency
  | description_ => compareByDescription
  | priority_ => compareByPriority
  | start_ => compareByStartDate
  | scheduled_ => compareByScheduledDate
  | due_ => compareByDueDate
  | done_ => compareByDoneDate
  | path_ => compareByPath
  | status_ => compareByStatus
  end.

Definition defaultComparators : list Comparator :=
  [ compareByUrgency; compareByStatus; compareByDueDate;
    compareByPriority; compareByPath ].

Definition userComparators (sorting : list Sorting) : list Comparator :=
  map (fun s =>
         let comparator := comparators (property s) in
         if reverse s then makeReversedComparator comparator else comparator)
      sorting.

(** The comparator [Sort.by] hands to [sort]:
    [makeCompositeComparator([...userComparators, ...defaultComparators])]. *)
Definition comparatorOf (sorting : list Sorting) : Comparator :=
  makeCompositeComparator (userComparators sorting ++ defaultComparators).

(** The order [Sort.by] computes on the contents of the array. *)
Definition sorted (sorting : list Sorting) (taskBlocks : list TaskBlock)
  : Result (list TaskBlock) :=
  sortByM (comparatorOf sorting) taskBlocks.

(** The arrays of task blocks of the program, by location. *)
Definition Store : Type := gmap nat (list TaskBlock).

(** [Sort.by(query, taskBlocks)]: [taskBlocks.sort(...)] sorts the caller's
    array where it is and returns that array. A location that holds no array
    is not a call the program can make. *)
Definition by_ (sorting : list Sorting) (taskBlocks : nat) (store : Store)
  : option (Result (nat * Store)) :=
  match store !! taskBlocks with
  | None => None
  | Some elements =>
      Some (s ← sorted sorting elements;
            Ok (taskBlocks, <[taskBlocks := s]> store))
  end.

End WithHost.

End Sort.

(** ** The query interpreter ([Query.ts]) *)

Module Query.

(** Modelled from the spec: the class [LayoutOptions] (not among the
    sources), the display toggles a query sets, all off at first. *)
Record LayoutOptions : Type := mkLayoutOptions {
  hideTaskCount : bool;
  hideBacklinks : bool;
  hidePriority : bool;
  hideStartDate : bool;
  hideScheduledDate : bool;
  hideDueDate : bool;
  hideDoneDate : bool;
  hideRecurrenceRule : bool;
  hideEditButton : bool;
  shortMode : bool
}.

Definition LayoutOptions_new : LayoutOptions :=
  mkLayoutOptions false false false false false false false false false false.

Definition Filter : Type := TaskBlock -> Result bool.

Record t : Type := mk {
  _limit : option Z;
  _layoutOptions : LayoutOptions;
  _filters : list Filter;
  _error : option string;
  _sorting : list Sort.Sorting
}.

Definition initial : t := mk None LayoutOptions_new [] None [].

(** The public accessors. *)
Definition limit (q : t) : option Z := _limit q.
Definition layoutOptions (q : t) : LayoutOptions := _layoutOptions q.
Definition filters (q : t) : list Filter := _filters q.
Definition sorting (q : t) : list Sort.Sorting := _sorting q.
Definition error (q : t) : option string := _error q.

(** [this._filters.push(f)], [this._error = e], and the like. *)
Definition pushFilter (f : Filter) (q : t) : t :=
  mk (_limit q) (_layoutOptions q) (_filters q ++ [f]) (_error q) (_sorting q).

Definition setError (e : string) (q : t) : t :=
  mk (_limit q) (_layoutOptions q) (_filters q) (Some e) (_sorting q).

Definition setLimit (n : Z) (q : t) : t :=
  mk (Some n) (_layoutOptions q) (_filters q) (_error q) (_sorting q).

Definition pushSorting (s : Sort.Sorting) (q : t) : t :=
  mk (_limit q) (_layoutOptions q) (_filters q) (_error q) (_sorting q ++ [s]).

Definition setLayoutOptions (o : LayoutOptions) (q : t) : t :=
  mk (_limit q) o (_filters q) (_error q) (_sorting q).

(** *** The regular expressions

    Each matcher returns the capture groups the parser reads, [None] when
    the expression does not match. *)

(** The first of [words] that [s] starts with, and what follows it. *)
Fixpoint firstWord (words : list string) (s : string)
  : option (string * string) :=
  match words with
  | [] => None
  | w :: ws =>
      match stripPrefix w s with
      | Some rest => Some (w, rest)
      | None => firstWord ws s
      end
  end.

(** [( word1 | word2 | ... )?]: the group, [undefined] when skipped. *)
Definition optionalWord (words : list string) (s : string)
  : option string * string :=
  match firstWord words s with
  | Some (w, rest) => (Some w, rest)
  | None => (None, s)
  end.

(** [ ?]. *)
Definition optionalSpace (s : string) : string :=
  match stripPrefix " " s with
  | Some rest => rest
  | None => s
  end.

(** [/^<keyword> (before|after|on)? ?(rest)/] where [rest] is [.*] in the
    source; groups 1 and 2. Nothing after the keyword can fail, so the greedy
    choices stand. *)
Definition matchDate (keyword line : string) : option (option string * string) :=
  match stripPrefix keyword line with
  | None => None
  | Some r =>
      let '(mode, r1) := optionalWord ["before"; "after"; "on"] r in
      Some (mode, dotStar (optionalSpace r1))
  end.

Definition happensRegexp := matchDate "happens ".
Definition startRegexp := matchDate "starts ".
Definition scheduledRegexp := matchDate "scheduled ".
Definition dueRegexp := matchDate "due ".
Definition doneRegexp := matchDate "done ".

Definition priorityWords : list string := ["low"; "none"; "medium"; "high"].

(** [/^priority (is )?(above|below)? ?(low|none|medium|high)/]; groups 2
    and 3. The priority word has to follow, so each optional part is tried
    taken first and skipped next, in the order of a backtracking matcher. *)
Definition priorityWord (g2 : option string) (s : string)
  : option (option string * string) :=
  match firstWord priorityWords s with
  | Some (w, _) => Some (g2, w)
  | None => None
  end.

Definition prioritySpace (g2 : option string) (s : string)
  : option (option string * string) :=
  orElse (match stripPrefix " " s with
          | Some s' => priorityWord g2 s'
          | None => None
          end)
         (priorityWord g2 s).

Definition priorityQualifier (s : string) : option (option string * string) :=
  orElse (match firstWord ["above"; "below"] s with
          | Some (w, s') => prioritySpace (Some w) s'
          | None => None
          end)
         (prioritySpace None s).

Definition priorityRegexp (line : string) : option (option string * string) :=
  match stripPrefix "priority " line with
  | None => None
  | Some r =>
      orElse (match stripPrefix "is " r with
              | Some r' => priorityQualifier r'
              | None => None
              end)
             (priorityQualifier r)
  end.

(** [/^<keyword> (includes|does not include) (rest)/] where [rest] is [.*]
    in the source; groups 1 and 2. *)
Definition matchIncludes (keyword line : string) : option (string * string) :=
  match stripPrefix keyword line with
  | None => None
  | Some r =>
      match firstWord ["includes"; "does not include"] r with
      | None => None
      | Some (method, r1) =>
          match stripPrefix " " r1 with
          | Some r2 => Some (method, dotStar r2)
          | None => None
          end
      end
  end.

Definition pathRegexp := matchIncludes "path ".
Definition descriptionRegexp := matchIncludes "description ".
Definition headingRegexp := matchIncludes "heading ".

(** [/^sort by (urgency|...|description)( reverse)?/]; group 1 and whether
    group 2 took part. *)
Definition sortByRegexp (line : string) : option (string * bool) :=
  match stripPrefix "sort by " line with
  | None => None
  | Some r =>
      match firstWord ["urgency"; "status"; "priority"; "start"; "scheduled";
                       "due"; "done"; "path"; "description"] r with
      | None => None
      | Some (w, r1) => Some (w, startsWith " reverse" r1)
      end
  end.

(** [/^hide (task count|...|edit button)/]; group 1. *)
Definition hideOptionsRegexp (line : string) : option string :=
  match stripPrefix "hide " line with
  | None => None
  | Some r =>
      match firstWord ["task count"; "backlink"; "priority"; "start date";
                       "scheduled date"; "done date"; "due date";
                       "recurrence rule"; "edit button"] r with
      | None => None
      | Some (w, _) => Some w
      end
  end.

Definition shortModeRegexp (line : string) : bool := startsWith "short" line.

(** [/^limit (to )?(\\d+)( tasks?)?/]; group 2. *)
Definition limitRegexp (line : string) : option string :=
  let digits (s : string) :=
    let '(ds, _) := spanDigits s in
    if (ds =? "")%string then None else Some ds in
  match stripPrefix "limit " line with
  | None => None
  | Some r =>
      orElse (match stripPrefix "to " r with
              | Some r' => digits r'
              | None => None
              end)
             (digits r)
  end.

Definition commentRegexp (line : string) : bool := startsWith "#" line.

(** *** The compiled filters *)

Definition stringIncludesCaseInsensitive (haystack needle : string) : bool :=
  includes (toLocaleLowerCase haystack) (toLocaleLowerCase needle).

(** The moment method the qualifier selects: [isBefore] for ['before'],
    [isAfter] for ['after'], [isSame] otherwise (['on'] or no qualifier). *)
Definition dateTest (mode : option string) : Moment.t -> Moment.t -> bool :=
  match mode with
  | Some m =>
      if (m =? "before")%string then Moment.isBefore
      else if (m =? "after")%string then Moment.isAfter
      else Moment.isSame
  | None => Moment.isSame
  end.

Definition doneFilter : Filter := fun tb =>
  Ok (forallb (fun task => Status_eqb (status task) Done) (tasks tb)).

Definition notDoneFilter : Filter := fun tb =>
  Ok (existsb (fun task => negb (Status_eqb (status task) Done)) (tasks tb)).

Definition recurringFilter : Filter := fun tb =>
  Ok (match tasks tb with
      | task :: _ => match recurrence task with Some _ => true | None => false end
      | [] => false
      end).

Definition notRecurringFilter : Filter := fun tb =>
  Ok (match tasks tb with
      | task :: _ => match recurrence task with Some _ => false | None => true end
      | [] => false
      end).

Definition excludeSubItemsFilter : Filter := fun tb =>
  Ok (match tasks tb with
      | task :: _ => (indentation task =? "")%string
      | [] => false
      end).

Definition hasDate (d : option Moment.t) : bool :=
  match d with
  | Some _ => true
  | None => false
  end.

Definition noStartFilter : Filter := fun tb =>
  Ok (forallb (fun task => hasDate (startDate task)) (tasks tb)).

Definition noScheduledFilter : Filter := fun tb =>
  Ok (forallb (fun task => hasDate (scheduledDate task)) (tasks tb)).

Definition noDueFilter : Filter := fun tb =>
  Ok (forallb (fun task => hasDate (dueDate task)) (tasks tb)).

(** [task.priority ? task.priority.localeCompare(filterPriority) < 0 : false] *)
Definition outranks (filterPriority : Priority) (task : Task) : bool :=
  if truthy (Priority_value (priority task))
  then localeCompare (Priority_value (priority task))
                     (Priority_value filterPriority) <? 0
  else false.

Definition priorityAboveFilter (filterPriority : Priority) : Filter :=
  fun tb => Ok (existsb (outranks filterPriority) (tasks tb)).

Definition priorityBelowFilter (filterPriority : Priority) : Filter :=
  fun tb => Ok (negb (existsb (outranks filterPriority) (tasks tb))).

Definition priorityIsFilter (filterPriority : Priority) : Filter :=
  fun tb =>
    Ok (forallb
          (fun task =>
             if truthy (Priority_value (priority task))
             then (Priority_value (priority task) =?
                   Priority_value filterPriority)%string
                  || (localeCompare (Priority_value (priority task))
                                    (Priority_value filterPriority) <? 0)
             else false)
          (tasks tb)).

Definition happensFilter (mode : option string) (filterDate : Moment.t)
  : Filter :=
  fun tb =>
    Ok (existsb
          (fun date =>
             match date with
             | Some d => dateTest mode d filterDate
             | None => false
             end)
          (flat_map
             (fun task => [startDate task; scheduledDate task; dueDate task])
             (tasks tb))).

Definition startFilter (mode : option string) (filterDate : Moment.t)
  : Filter :=
  fun tb =>
    Ok (existsb
          (fun task =>
             match startDate task with
             | Some d => dateTest mode d filterDate
             | None => true
             end)
          (tasks tb)).

Definition scheduledFilter (mode : option string) (filterDate : Moment.t)
  : Filter :=
  fun tb =>
    Ok (existsb
          (fun task =>
             match scheduledDate task with
             | Some d => dateTest mode d filterDate
             | None => false
             end)
          (tasks tb)).

Definition dueFilter (mode : option string) (filterDate : Moment.t)
  : Filter :=
  fun tb =>
    Ok (existsb
          (fun task =>
             match dueDate task with
             | Some d => dateTest mode d filterDate
             | None => false
             end)
          (tasks tb)).

Definition doneDateFilter (mode : option string) (filterDate : Moment.t)
  : Filter :=
  fun tb =>
    Ok (forallb
          (fun task =>
             match doneDate task with
             | Some d => dateTest mode d filterDate
             | None => false
             end)
          (tasks tb)).

Definition pathIncludesFilter (text : string) : Filter := fun tb =>
  Ok (match tasks tb with
      | task :: _ => stringIncludesCaseInsensitive (path task) text
      | [] => false
      end).

(** [!this.stringIncludesCaseInsensitive(tb.tasks[0].path, text)] *)
Definition pathDoesNotIncludeFilter (text : string) : Filter := fun tb =>
  p ← prop (index (tasks tb) 0) path;
  Ok (negb (stringIncludesCaseInsensitive p text)).

Definition headingMatches (text : string) (task : Task) : bool :=
  match precedingHeader task with
  | Some h => stringIncludesCaseInsensitive h text
  | None => false
  end.

Definition headingIncludesFilter (text : string) : Filter := fun tb =>
  Ok (existsb (headingMatches text) (tasks tb)).

Definition headingDoesNotIncludeFilter (text : string) : Filter := fun tb =>
  Ok (negb (existsb (headingMatches text) (tasks tb))).

Section WithHost.
Context `{Host}.

Definition descriptionMatches (text : string) (task : Task) : bool :=
  stringIncludesCaseInsensitive
    (trim (replaceFirst globalFilter "" (description task))) text.

Definition descriptionIncludesFilter (text : string) : Filter := fun tb =>
  Ok (existsb (descriptionMatches text) (tasks tb)).

Definition descriptionDoesNotIncludeFilter (text : string) : Filter :=
  fun tb => Ok (negb (existsb (descriptionMatches text) (tasks tb))).

(** [window.moment(chrono.parseDate(input)).startOf('day')] *)
Definition parseDate (input : string) : Moment.t :=
  Moment.startOfDay (Moment.ofDate (chrono_parseDate input)).

(** *** The parsers of the lines *)

Definition parseHideOptions (line : string) (q : t) : t :=
  match hideOptionsRegexp line with
  | None => q
  | Some g1 =>
      let option := toLocaleLowerCase (trim g1) in
      let o := _layoutOptions q in
      let set (o' : LayoutOptions) := setLayoutOptions o' q in
      if (option =? "task count")%string then
        set (mkLayoutOptions true (hideBacklinks o) (hidePriority o)
               (hideStartDate o) (hideScheduledDate o) (hideDueDate o)
               (hideDoneDate o) (hideRecurrenceRule o) (hideEditButton o)
               (shortMode o))
      else if (option =? "backlink")%string then
        set (mkLayoutOptions (hideTaskCount o) true (hidePriority o)
               (hideStartDate o) (hideScheduledDate o) (hideDueDate o)
               (hideDoneDate o) (hideRecurrenceRule o) (hideEditButton o)
               (shortMode o))
      else if (option =? "priority")%string then
        set (mkLayoutOptions (hideTaskCount o) (hideBacklinks o) true
               (hideStartDate o) (hideScheduledDate o) (hideDueDate o)
               (hideDoneDate o) (hideRecurrenceRule o) (hideEditButton o)
               (shortMode o))
      else if (option =? "start date")%string then
        set (mkLayoutOptions (hideTaskCount o) (hideBacklinks o)
               (hidePriority o) true (hideScheduledDate o) (hideDueDate o)
               (hideDoneDate o) (hideRecurrenceRule o) (hideEditButton o)
               (shortMode o))
      else if (option =? "scheduled date")%string then
        set (mkLayoutOptions (hideTaskCount o) (hideBacklinks o)
               (hidePriority o) (hideStartDate o) true (hideDueDate o)
               (hideDoneDate o) (hideRecurrenceRule o) (hideEditButton o)
               (shortMode o))
      else if (option =? "due date")%string then
        set (mkLayoutOptions (hideTaskCount o) (hideBacklinks o)
               (hidePriority o) (hideStartDate o) (hideScheduledDate o) true
               (hideDoneDate o) (hideRecurrenceRule o) (hideEditButton o)
               (shortMode o))
      else if (option =? "done date")%string then
        set (mkLayoutOptions (hideTaskCount o) (hideBacklinks o)
               (hidePriority o) (hideStartDate o) (hideScheduledDate o)
               (hideDueDate o) true (hideRecurrenceRule o) (hideEditButton o)
               (shortMode o))
      else if (option =? "recurrence rule")%string then
        set (mkLayoutOptions (hideTaskCount o) (hideBacklinks o)
               (hidePriority o) (hideStartDate o) (hideScheduledDate o)
               (hideDueDate o) (hideDoneDate o) true (hideEditButton o)
               (shortMode o))
      else if (option =? "edit button")%string then
        set (mkLayoutOptions (hideTaskCount o) (hideBacklinks o)
               (hidePriority o) (hideStartDate o) (hideScheduledDate o)
               (hideDueDate o) (hideDoneDate o) (hideRecurrenceRule o) true
               (shortMode o))
      else setError "do not understand hide option" q
  end.

Definition setShortMode (q : t) : t :=
  let o := _layoutOptions q in
  setLayoutOptions
    (mkLayoutOptions (hideTaskCount o) (hideBacklinks o) (hidePriority o)
       (hideStartDate o) (hideScheduledDate o) (hideDueDate o)
       (hideDoneDate o) (hideRecurrenceRule o) (hideEditButton o) true) q.

(** The [switch] over the captured priority word. *)
Definition priorityOfWord (filterPriorityString : string) : option Priority :=
  if (filterPriorityString =? "low")%string then Some Low
  else if (filterPriorityString =? "none")%string then Some NoPriority
  else if (filterPriorityString =? "medium")%string then Some Medium
  else if (filterPriorityString =? "high")%string then Some High
  else None.

Definition parsePriorityFilter (line : string) (q : t) : t :=
  match priorityRegexp line with
  | Some (g2, g3) =>
      match priorityOfWord g3 with
      | None => setError "do not understand priority" q
      | Some filterPriority =>
          let filter :=
            if bool_decide (g2 = Some "above")
            then priorityAboveFilter filterPriority
            else if bool_decide (g2 = Some "below")
            then priorityBelowFilter filterPriority
            else priorityIsFilter filterPriority in
          pushFilter filter q
      end
  | None => setError "do not understand query filter (priority date)" q
  end.

Definition parseHappensFilter (line : string) (q : t) : t :=
  match happensRegexp line with
  | Some (g1, g2) =>
      let filterDate := parseDate g2 in
      if negb (Moment.isValid filterDate)
      then setError "do not understand happens date" q
      else pushFilter (happensFilter g1 filterDate) q
  | None => setError "do not understand query filter (happens date)" q
  end.

Definition parseStartFilter (line : string) (q : t) : t :=
  match startRegexp line with
  | Some (g1, g2) =>
      let filterDate := parseDate g2 in
      if negb (Moment.isValid filterDate)
      then setError "do not understand start date" q
      else pushFilter (startFilter g1 filterDate) q
  | None => setError "do not understand query filter (start date)" q
  end.

(** No [return] follows the error here: the filter is pushed all the same. *)
Definition parseScheduledFilter (line : string) (q : t) : t :=
  match scheduledRegexp line with
  | Some (g1, g2) =>
      let filterDate := parseDate g2 in
      let q :=
        if negb (Moment.isValid filterDate)
        then setError "do not understand scheduled date" q
        else q in
      pushFilter (scheduledFilter g1 filterDate) q
  | None => setError "do not understand query filter (scheduled date)" q
  end.

Definition parseDueFilter (line : string) (q : t) : t :=
  match dueRegexp line with
  | Some (g1, g2) =>
      let filterDate := parseDate g2 in
      if negb (Moment.isValid filterDate)
      then setError "do not understand due date" q
      else pushFilter (dueFilter g1 filterDate) q
  | None => setError "do not understand query filter (due date)" q
  end.

Definition parseDoneFilter (line : string) (q : t) : t :=
  match doneRegexp line with
  | Some (g1, g2) =>
      let filterDate := parseDate g2 in
      if negb (Moment.isValid filterDate)
      then setError "do not understand done date" q
      else pushFilter (doneDateFilter g1 filterDate) q
  | None => q
  end.

Definition parsePathFilter (line : string) (q : t) : t :=
  match pathRegexp line with
  | Some (g1, g2) =>
      if (g1 =? "includes")%string
      then pushFilter (pathIncludesFilter g2) q
      else if (g1 =? "does not include")%string
      then pushFilter (pathDoesNotIncludeFilter g2) q
      else setError "do not understand query filter (path)" q
  | None => setError "do not understand query filter (path)" q
  end.

Definition parseDescriptionFilter (line : string) (q : t) : t :=
  match descriptionRegexp line with
  | Some (g1, g2) =>
      if (g1 =? "includes")%string
      then pushFilter (descriptionIncludesFilter g2) q
      else if (g1 =? "does not include")%string
      then pushFilter (descriptionDoesNotIncludeFilter g2) q
      else setError "do not understand query filter (description)" q
  | None => setError "do not understand query filter (description)" q
  end.

Definition parseHeadingFilter (line : string) (q : t) : t :=
  match headingRegexp line with
  | Some (g1, g2) =>
      if (toLocaleLowerCase g1 =? "includes")%string
      then pushFilter (headingIncludesFilter g2) q
      else if (g1 =? "does not include")%string
      then pushFilter (headingDoesNotIncludeFilter g2) q
      else setError "do not understand query filter (heading)" q
  | None => setError "do not understand query filter (heading)" q
  end.

Definition parseLimit (line : string) (q : t) : t :=
  match limitRegexp line with
  | Some g2 => setLimit (parseInt g2) q
  | None => setError "do not understand query limit" q
  end.

(** [fieldMatch[1] as SortingProperty]: the expression allows these nine
    words only. *)
Definition propertyOfWord (w : string) : Sort.SortingProperty :=
  if (w =? "urgency")%string then Sort.urgency_
  else if (w =? "status")%string then Sort.status_
  else if (w =? "priority")%string then Sort.priority_
  else if (w =? "start")%string then Sort.start_
  else if (w =? "scheduled")%string then Sort.scheduled_
  else if (w =? "due")%string then Sort.due_
  else if (w =? "done")%string then Sort.done_
  else if (w =? "path")%string then Sort.path_
  else Sort.description_.

Definition parseSortBy (line : string) (q : t) : t :=
  match sortByRegexp line with
  | Some (g1, g2) => pushSorting (Sort.mkSorting (propertyOfWord g1) g2) q
  | None => setError "do not understand query sorting" q
  end.

Definition isSome {A : Type} (o : option A) : bool :=
  match o with
  | Some _ => true
  | None => false
  end.

(** One turn of the constructor's [forEach]: the [switch (true)] takes the
    first case that holds. *)
Definition processLine (q : t) (line : string) : t :=
  if (line =? "")%string then q
  else if (line =? "done")%string then pushFilter doneFilter q
  else if (line =? "not done")%string then pushFilter notDoneFilter q
  else if (line =? "is recurring")%string then pushFilter recurringFilter q
  else if (line =? "is not recurring")%string
  then pushFilter notRecurringFilter q
  else if (line =? "exclude sub-items")%string
  then pushFilter excludeSubItemsFilter q
  else if (line =? "no start date")%string then pushFilter noStartFilter q
  else if (line =? "no scheduled date")%string
  then pushFilter noScheduledFilter q
  else if (line =? "no due date")%string then pushFilter noDueFilter q
  else if shortModeRegexp line then setShortMode q
  else if isSome (priorityRegexp line) then parsePriorityFilter line q
  else if isSome (happensRegexp line) then parseHappensFilter line q
  else if isSome (startRegexp line) then parseStartFilter line q
  else if isSome (scheduledRegexp line) then parseScheduledFilter line q
  else if isSome (dueRegexp line) then parseDueFilter line q
  else if isSome (doneRegexp line) then parseDoneFilter line q
  else if isSome (pathRegexp line) then parsePathFilter line q
  else if isSome (descriptionRegexp line) then parseDescriptionFilter line q
  else if isSome (headingRegexp line) then parseHeadingFilter line q
  else if isSome (limitRegexp line) then parseLimit line q
  else if isSome (sortByRegexp line) then parseSortBy line q
  else if isSome (hideOptionsRegexp line) then parseHideOptions line q
  else if commentRegexp line then q
  else setError "do not understand query" q.

(** [new Query({ source })]. *)
Definition new (source : string) : t :=
  fold_left processLine (map trim (splitLines source)) initial.

End WithHost.

End Query.

(** ** The incremental indexer ([Cache.ts]) *)

Module Cache.

Inductive State : Type :=
| Cold
| Initializing
| Warm.

(** What the metadata cache of the host says of a document: sections and
    list items, with the lines of their positions. *)
Record SectionCache : Type := mkSection {
  section_type : string;
  section_start : Z;
  section_end : Z
}.

Record ListItemCache : Type := mkListItem {
  (* the character in the check box; [undefined] for a plain list item *)
  item_task : option string;
  item_line : Z;
  item_parent : Z
}.

Record CachedMetadata : Type := mkMetadata {
  listItems : option (list ListItemCache);
  sections : option (list SectionCache)
}.

(** A document as the indexer reads it when it handles a notification:
    its path, what [metadataCache.getFileCache] returns for it and what
    [vault.cachedRead] returns for it. *)
Record TFile : Type := mkFile {
  file_path : string;
  file_cache : option CachedMetadata;
  file_content : string
}.

Inductive TAbstractFile : Type :=
| File (file : TFile)
| Folder (folder_path : string).

Definition getSection (lineNumberTask : Z) (sections : option (list SectionCache))
  : option SectionCache :=
  match sections with
  | None => None
  | Some sections =>
      List.find
        (fun section =>
           (section_type section =? "list")%string
           && (section_start section <=? lineNumberTask)
           && (section_end section >=? lineNumberTask))
        sections
  end.

(** The loop of [getPrecedingHeader], which leaves at the first heading
    below the task. *)
Fixpoint precedingHeaderSection (lineNumberTask : Z)
    (sections : list SectionCache) (found : option SectionCache)
  : option SectionCache :=
  match sections with
  | [] => found
  | section :: rest =>
      if (section_type section =? "heading")%string
      then if section_start section >? lineNumberTask
           then found
           else precedingHeaderSection lineNumberTask rest (Some section)
      else precedingHeaderSection lineNumberTask rest found
  end.

Fixpoint spanChar (c : ascii) (s : string) : string * string :=
  match s with
  | EmptyString => (EmptyString, EmptyString)
  | String d s' =>
      if Ascii.eqb c d
      then let '(run, rest) := spanChar c s' in (String d run, rest)
      else (EmptyString, s)
  end.

(** [/^#+ +(rest)/u], [rest] being [.*]; group 1. *)
Definition headerRegex (line : string) : option string :=
  let '(hashes, r) := spanChar "#"%char line in
  let '(spaces, r') := spanChar " "%char r in
  if (hashes =? "")%string || (spaces =? "")%string
  then None
  else Some (dotStar r').

Definition getPrecedingHeader (lineNumberTask : Z)
    (sections : option (list SectionCache)) (fileLines : list string)
  : Result (option string) :=
  match sections with
  | None => Ok None
  | Some sections =>
      match precedingHeaderSection lineNumberTask sections None with
      | None => Ok None
      | Some section =>
          headerMatch ← prop (index fileLines (section_start section)) headerRegex;
          Ok headerMatch
      end
  end.

(** The test of the removal filter of [delete] and of [indexFile]: the
    blocks it returns [true] for stay. *)
Definition keepsBlock (filePath : string) (taskBlock : TaskBlock) : bool :=
  match tasks taskBlock with
  | task0 :: _ => negb (path task0 =? filePath)%string
  | [] => false
  end.

Definition removeFile (filePath : string) (taskblocks : list TaskBlock)
  : list TaskBlock :=
  List.filter (keepsBlock filePath) taskblocks.

(** The function the rename handler maps over the index. It builds
    [newTaskBlock] and returns [taskBlock]. *)
Definition renameBlock (newPath oldPath : string) (taskBlock : TaskBlock)
  : TaskBlock :=
  match tasks taskBlock with
  | task0 :: _ =>
      if (path task0 =? oldPath)%string
      then
        let newTaskBlock :=
          fold_left
            (fun block task => TaskBlock_push block (Task_with_path task newPath))
            (tasks taskBlock) TaskBlock_new in
        taskBlock
      else taskBlock
  | [] => taskBlock
  end.

Definition renameFile (newPath oldPath : string) (taskblocks : list TaskBlock)
  : list TaskBlock :=
  map (renameBlock newPath oldPath) taskblocks.

(** *** The grouping loop of [indexFile]

    [this.taskblocks.push(newTaskBlock)] stores the object, not a copy: as
    long as the variable [newTaskBlock] is not given a new object, a later
    [newTaskBlock.tasks.push] is seen through the stored entry too. An entry
    of the index under construction is therefore either a block nothing
    writes to any more, or the object [newTaskBlock] currently names. *)
Inductive Entry : Type :=
| Settled (block : TaskBlock)
| Current.

Definition settle (current : TaskBlock) (e : Entry) : TaskBlock :=
  match e with
  | Settled block => block
  | Current => current
  end.

Record Scan : Type := mkScan {
  currentSection : option SectionCache;
  scan_sectionIndex : Z;
  currentID : Z;
  newTaskBlock : TaskBlock;
  first : bool;
  entries : list Entry
}.

(** The index once the scan has ended: every entry read through. *)
Definition scanned (s : Scan) : list TaskBlock :=
  map (settle (newTaskBlock s)) (entries s).

(** We went past the current section (or this is the first task): find the
    section of this task, and start counting again. *)
Definition enterSection (metadata : CachedMetadata) (listItem : ListItemCache)
    (s : Scan) : Scan :=
  let leftSection :=
    match currentSection s with
    | None => true
    | Some section => section_end section <? item_line listItem
    end in
  if leftSection
  then mkScan (getSection (item_line listItem) (sections metadata))
              0 0 (newTaskBlock s) true (entries s)
  else s.

(** [this.taskblocks.push(newTaskBlock)]. *)
Definition pushCurrent (s : Scan) : Scan :=
  mkScan (currentSection s) (scan_sectionIndex s) (currentID s)
         (newTaskBlock s) (first s) (entries s ++ [Current]).

(** [newTaskBlock = new TaskBlock()]: what was stored under the old name is
    written to no more. *)
Definition renewBlock (s : Scan) : Scan :=
  mkScan (currentSection s) (scan_sectionIndex s) (currentID s)
         TaskBlock_new (first s)
         (map (fun e => Settled (settle (newTaskBlock s) e)) (entries s)).

(** [newTaskBlock.tasks.push(task)]. *)
Definition pushTask (task : Task) (s : Scan) : Scan :=
  mkScan (currentSection s) (scan_sectionIndex s) (currentID s)
         (TaskBlock_push (newTaskBlock s) task) (first s) (entries s).

(** The body of [if (task !== null)]. *)
Definition groupTask (listItem : ListItemCache) (isLast : bool) (task : Task)
    (s : Scan) : Scan :=
  let s := mkScan (currentSection s) (scan_sectionIndex s + 1) (currentID s)
                  (newTaskBlock s) (first s) (entries s) in
  let s :=
    if (item_parent listItem =? -1) && negb (first s)
    then pushTask task (renewBlock (pushCurrent s))
    else pushTask task s in
  if isLast then pushCurrent s else s.

(** [first = false; currentID += 1]. *)
Definition nextItem (s : Scan) : Scan :=
  mkScan (currentSection s) (scan_sectionIndex s) (currentID s + 1)
         (newTaskBlock s) false (entries s).

(** How a run of code ended, and the state it left. *)
Inductive Outcome (S : Type) : Type :=
| Completed (s : S)
| Aborted (s : S) (e : Error).

Arguments Completed {S} s.
Arguments Aborted {S} s e.

Definition outcome_state {S : Type} (o : Outcome S) : S :=
  match o with
  | Completed s => s
  | Aborted s _ => s
  end.

Definition completed {S : Type} (o : Outcome S) : bool :=
  match o with
  | Completed _ => true
  | Aborted _ _ => false
  end.

Section WithHost.
Context `{Host}.

(** One turn of the loop over [listItems]; [isLast] is
    [listItem == listItems[listItems.length - 1]]. *)
Definition scanItem (file : TFile) (metadata : CachedMetadata)
    (fileLines : list string) (s : Scan) (listItem : ListItemCache)
    (isLast : bool) : Result Scan :=
  match item_task listItem with
  | None => Ok s
  | Some _ =>
      let s := enterSection metadata listItem s in
      match currentSection s with
      | None =>
          (* save the block and go on to the next item *)
          Ok (pushCurrent s)
      | Some section =>
          let line := index fileLines (item_line listItem) in
          header ← getPrecedingHeader (item_line listItem) (sections metadata)
                                      fileLines;
          task ← Task_fromLine line (file_path file) (section_start section)
                               (scan_sectionIndex s) header (currentID s)
                               (item_parent listItem);
          let s :=
            match task with
            | Some task => groupTask listItem isLast task s
            | None => s
            end in
          Ok (nextItem s)
      end
  end.

(** The loop. An exception ends it where it is; what earlier turns pushed
    stays pushed. *)
Fixpoint scanItems (file : TFile) (metadata : CachedMetadata)
    (fileLines : list string) (items : list ListItemCache) (s : Scan)
  : Outcome Scan :=
  match items with
  | [] => Completed s
  | listItem :: rest =>
      let isLast := match rest with [] => true | _ => false end in
      match scanItem file metadata fileLines s listItem isLast with
      | Ok s' => scanItems file metadata fileLines rest s'
      | Throw e => Aborted s e
      end
  end.

Definition startScan (taskblocks : list TaskBlock) : Scan :=
  mkScan None 0 0 TaskBlock_new true (map Settled taskblocks).

(** *** The state of the indexer and what it publishes *)

Record t : Type := mk {
  state : State;
  taskblocks : list TaskBlock;
  loadedAfterFirstResolve : bool
}.

(** What can be seen of a handler from outside: an assignment to
    [this.state], and a [triggerCacheUpdate] (or the answer to a request)
    with its payload. *)
Inductive Observation : Type :=
| StateSet (s : State)
| CacheUpdate (taskBlocks : list TaskBlock) (s : State).

Definition notifySubscribers (c : t) : list Observation :=
  [CacheUpdate (taskblocks c) (state c)].

(** [indexFile(file)]. *)
Definition indexFile (file : TFile) (c : t) : Outcome t * list Observation :=
  match file_cache file with
  | None => (Completed c, [])
  | Some fileCache =>
      let listItems :=
        match listItems fileCache with
        | Some items => items
        | None => []
        end in
      let fileLines := splitLines (file_content file) in
      let kept := removeFile (file_path file) (taskblocks c) in
      match scanItems file fileCache fileLines listItems (startScan kept) with
      | Completed s =>
          let c := mk (state c) (scanned s) (loadedAfterFirstResolve c) in
          (Completed c, notifySubscribers c)
      | Aborted s e =>
          (Aborted (mk (state c) (scanned s) (loadedAfterFirstResolve c)) e, [])
      end
  end.

(** The documents of a load, one [indexFile] after the other, in the order
    in which their reads come back. The calls are started together; one
    that raises rejects the [Promise.all] and the others still run. The
    result tells whether all of them completed. *)
Fixpoint indexFiles (files : list TFile) (c : t)
  : t * list Observation * bool :=
  match files with
  | [] => (c, [], true)
  | file :: rest =>
      let '(o, seen) := indexFile file c in
      let '(c', seen', all) := indexFiles rest (outcome_state o) in
      (c', (seen ++ seen')%list, completed o && all)
  end.

(** [loadVault()], with the result of [vault.getMarkdownFiles()]. The
    assignment of [Warm] and the notification follow the [await]: they are
    not reached when it rejects. *)
Definition loadVault (markdownFiles : list TFile) (c : t)
  : t * list Observation :=
  let c := mk Initializing (taskblocks c) (loadedAfterFirstResolve c) in
  let '(c, seen, all) := indexFiles markdownFiles c in
  if all
  then
    let c := mk Warm (taskblocks c) (loadedAfterFirstResolve c) in
    (c, ([StateSet Initializing] ++ seen ++ [StateSet Warm]
         ++ notifySubscribers c)%list)
  else (c, ([StateSet Initializing] ++ seen)%list).

(** [new Cache(...)]: the fields, the subscriptions, and a first
    [loadVault()]. *)
Definition new (markdownFiles : list TFile) : t * list Observation :=
  loadVault markdownFiles (mk Cold [] false).

(** The notifications of the host. Each carries what its handler reads from
    the host while it runs. *)
Inductive Event : Type :=
| resolved (markdownFiles : list TFile)
| changed (file : TFile)
| create (file : TAbstractFile)
| delete (file : TAbstractFile)
| rename (file : TAbstractFile) (oldPath : string)
| requestCacheUpdate.

(** The handlers. What a handler does to the index happens in one piece:
    nothing is awaited after the read of a document, and the mutex keeps
    loads, deletions and renamings apart. The notifications are taken in the
    order in which they take effect. *)
Definition handle (c : t) (ev : Event) : t * list Observation :=
  match ev with
  | resolved markdownFiles =>
      if negb (loadedAfterFirstResolve c)
      then loadVault markdownFiles (mk (state c) (taskblocks c) true)
      else (c, [])
  | changed file =>
      let '(o, seen) := indexFile file c in (outcome_state o, seen)
  | create (File file) =>
      let '(o, seen) := indexFile file c in (outcome_state o, seen)
  | create (Folder _) => (c, [])
  | delete (File file) =>
      let c := mk (state c) (removeFile (file_path file) (taskblocks c))
                  (loadedAfterFirstResolve c) in
      (c, notifySubscribers c)
  | delete (Folder _) => (c, [])
  | rename (File file) oldPath =>
      let c := mk (state c) (renameFile (file_path file) oldPath (taskblocks c))
                  (loadedAfterFirstResolve c) in
      (c, notifySubscribers c)
  | rename (Folder _) _ => (c, [])
  | requestCacheUpdate => (c, notifySubscribers c)
  end.

Fixpoint run (c : t) (events : list Event) : t * list Observation :=
  match events with
  | [] => (c, [])
  | ev :: rest =>
      let '(c', seen) := handle c ev in
      let '(c'', seen') := run c' rest in
      (c'', (seen ++ seen')%list)
  end.

(** The indexer from its construction on. The load the constructor starts is
    taken to end before the first notification is handled: the code queues
    it under the lock that the handlers of the notifications take, so they
    run after it. *)
Definition life (markdownFiles : list TFile) (events : list Event)
  : t * list Observation :=
  let '(c, seen) := new markdownFiles in
  let '(c', seen') := run c events in
  (c', (seen ++ seen')%list).

(** The values assigned to [this.state], in order. *)
Definition stateWrites (seen : list Observation) : list State :=
  flat_map (fun o => match o with
                     | StateSet s => [s]
                     | CacheUpdate _ _ => []
                     end) seen.

(** The values [this.state] takes, in order, [Cold] first. *)
Definition stateHistory (seen : list Observation) : list State :=
  Cold :: stateWrites seen.

Definition isResolved (ev : Event) : bool :=
  match ev with
  | resolved _ => true
  | _ => false
  end.

(** The states a load goes through: [Warm] is reached when no [indexFile]
    of the load raised. *)
Definition loadStates (allIndexed : bool) : list State :=
  Initializing :: (if allIndexed then [Warm] else []).

(** Whether a load that starts in [c] on [markdownFiles] indexes them all. *)
Definition loadCompletes (markdownFiles : list TFile) (c : t) : bool :=
  snd (indexFiles markdownFiles
         (mk Initializing (taskblocks c) (loadedAfterFirstResolve c))).

End WithHost.

End Cache.

(** ** A host to run the model on

    Dates are read in the form YYYY-MM-DD only, the global filter is empty,
    and a line is a task when it starts with a check box after optional
    indentation. *)

Definition isoDigits (s : string) : option Z :=
  let '(ds, rest) := spanDigits s in
  if (rest =? "")%string && negb (ds =? "")%string
  then Some (parseInt ds) else None.

(** Days from 1970-01-01 to the given civil date. *)
Definition daysFromCivil (y m d : Z) : Z :=
  let y' := if m <=? 2 then y - 1 else y in
  let era := y' / 400 in
  let yoe := y' - era * 400 in
  let doy := (153 * (if m >? 2 then m - 3 else m + 9) + 2) / 5 + d - 1 in
  let doe := yoe * 365 + yoe / 4 - yoe / 100 + doy in
  era * 146097 + doe - 719468.

Definition isoDate (text : string) : option Z :=
  match isoDigits (substring 0 4 text), isoDigits (substring 5 2 text),
        isoDigits (substring 8 2 text) with
  | Some y, Some m, Some d =>
      if (String.length text =? 10)%nat
         && (substring 4 1 text =? "-")%string
         && (substring 7 1 text =? "-")%string
         && (1 <=? m) && (m <=? 12) && (1 <=? d) && (d <=? 31)
      then Some (daysFromCivil y m d * Moment.msPerDay)
      else None
  | _, _, _ => None
  end.

Definition checkboxLine (line : string) : option (string * Status * string) :=
  let '(indent, r) := Cache.spanChar " "%char line in
  match stripPrefix "- [" r with
  | Some (String c r') =>
      match stripPrefix "] " r' with
      | Some body =>
          Some (indent,
                if Ascii.eqb c "x"%char then Done
                else if Ascii.eqb c "b"%char then Blocked
                else if Ascii.eqb c "/"%char then InProgress
                else Todo,
                body)
      | None => None
      end
  | _ => None
  end.

Definition plainHost : Host := {|
  chrono_parseDate := isoDate;
  globalFilter := "";
  Task_fromLine := fun line path sectionStart sectionIndex precedingHeader id parent =>
    l ← prop line (fun l => l);
    Ok (match checkboxLine l with
        | Some (indent, st, body) =>
            Some (mkTask st body path indent sectionStart sectionIndex id parent
                         precedingHeader NoPriority None None None None None 0)
        | None => None
        end)
|}.

(** ** Sample data *)

Definition taskIn (p : string) : Task :=
  mkTask Todo "task" p "" 0 0 0 (-1) None NoPriority None None None None None 0.

Definition taskWithPriority (p : Priority) : Task :=
  mkTask Todo "task" "a.md" "" 0 0 0 (-1) None p None None None None None 0.

Definition taskWithUrgency (u : Z) : Task :=
  mkTask Todo "task" "a.md" "" 0 0 0 (-1) None NoPriority None None None None None u.

Definition taskDoneOn (d : Z) : Task :=
  mkTask Done "task" "a.md" "" 0 0 0 (-1) None NoPriority None None None
         (Some (Moment.Valid (d * Moment.msPerDay))) None 0.

Definition emptyFile (p : string) : Cache.TFile :=
  Cache.mkFile p (Some (Cache.mkMetadata None None)) "".

(** ** Notions the properties are stated with *)

(** The index under construction still starts with the blocks [kept]. *)
Definition extends (kept : list TaskBlock) (s : Cache.Scan) : Prop :=
  exists es, Cache.entries s = (map Cache.Settled kept ++ es)%list.


(** *** What stays after the removal of a document, in the words of the
    claim *)

(** The block is not empty and its first task is in another document. *)
Definition firstTaskElsewhere (filePath : string) (tb : TaskBlock) : Prop :=
  exists task0 rest, tasks tb = task0 :: rest /\ path task0 <> filePath.

(** [kept] is what stays of [index]: the blocks that are not empty and whose
    first task is in another document, each as often as it was there and in
    the order they were in. *)
Inductive staysAfterRemoval (filePath : string)
  : list TaskBlock -> list TaskBlock -> Prop :=
| stays_nil : staysAfterRemoval filePath [] []
| stays_keep (tb : TaskBlock) (index kept : list TaskBlock) :
    firstTaskElsewhere filePath tb ->
    staysAfterRemoval filePath index kept ->
    staysAfterRemoval filePath (tb :: index) (tb :: kept)
| stays_drop (tb : TaskBlock) (index kept : list TaskBlock) :
    ~ firstTaskElsewhere filePath tb ->
    staysAfterRemoval filePath index kept ->
    staysAfterRemoval filePath (tb :: index) kept.

(** *** Consistent comparators and sorted arrays *)

(** The sign of the answer of a comparator, when it answers. *)
Definition signOf {A : Type} (cmp : A -> A -> Result Z) (a b : A)
  : option comparison :=
  match cmp a b with
  | Ok v => Some (v ?= 0)
  | Throw _ => None
  end.

Definition hasSign (s : comparison) (o : option comparison) : bool :=
  match o, s with
  | Some Lt, Lt | Some Eq, Eq | Some Gt, Gt => true
  | _, _ => false
  end.

(** The conditions the language puts on a consistent comparator, at three
    values: the call returns; a value compares equal to itself; comparing
    equal is symmetric and transitive; comparing less is transitive, and so
    is comparing greater. *)
Definition consistentAt {A : Type} (cmp : A -> A -> Result Z) (a b c : A)
  : bool :=
  let sign s x y := hasSign s (signOf cmp x y) in
  (sign Lt a b || sign Eq a b || sign Gt a b)
  && sign Eq a a
  && implb (sign Eq a b) (sign Eq b a)
  && implb (sign Eq a b && sign Eq b c) (sign Eq a c)
  && implb (sign Lt a b && sign Lt b c) (sign Lt a c)
  && implb (sign Gt a b && sign Gt b c) (sign Gt a c).

(** The comparator is a consistent comparator for the values of [l]. *)
Definition consistentOn {A : Type} (cmp : A -> A -> Result Z) (l : list A)
  : bool :=
  forallb (fun a =>
    forallb (fun b => forallb (fun c => consistentAt cmp a b c) l) l) l.





(** A task that is due on day [d], or has no due date. *)
Definition taskDue (d : option Z) : Task :=
  mkTask Todo "task" "a.md" "" 0 0 0 (-1) None NoPriority None None
         (option_map (fun d => Moment.Valid (d * Moment.msPerDay)) d)
         None None 0.

Definition blockOfUrgency (u : Z) : TaskBlock :=
  mkTaskBlock [taskWithUrgency u].



(** The ranking in the words of the specification: High > Medium > Low >
    None. *)
Definition rank (p : Priority) : nat :=
  match p with
  | High => 3
  | Medium => 2
  | Low => 1
  | NoPriority => 0
  end.

Definition ranksAbove (p threshold : Priority) : Prop :=
  (rank threshold < rank p)%nat.


(** A date "compares as specified" with the date of the query: before it,
    after it, or at the same instant when the qualifier is [on] or is left
    out. An invalid moment compares in no way. *)
Definition compares (mode : option string) (d filterDate : Moment.t) : Prop :=
  match d, filterDate with
  | Moment.Valid x, Moment.Valid y =>
      if decide (mode = Some "before") then x < y
      else if decide (mode = Some "after") then x > y
      else x = y
  | _, _ => False
  end.

(** The four date lines whose filter asks for some task. *)
Inductive DateLine : Type :=
| StartsLine
| ScheduledLine
| DueLine
| HappensLine.

Definition keywordOf (l : DateLine) : string :=
  match l with
  | StartsLine => "starts "
  | ScheduledLine => "scheduled "
  | DueLine => "due "
  | HappensLine => "happens "
  end.

(** What a task has to satisfy under each of them: for [starts] a task
    without start date counts; for the others only a date that is there
    and compares counts, for [happens] any of the three dates. *)
Definition taskMatches (l : DateLine) (mode : option string)
    (filterDate : Moment.t) (task : Task) : Prop :=
  match l with
  | StartsLine =>
      match startDate task with
      | Some d => compares mode d filterDate
      | None => True
      end
  | ScheduledLine =>
      match scheduledDate task with
      | Some d => compares mode d filterDate
      | None => False
      end
  | DueLine =>
      match dueDate task with
      | Some d => compares mode d filterDate
      | None => False
      end
  | HappensLine =>
      exists d,
        (startDate task = Some d \/ scheduledDate task = Some d
         \/ dueDate task = Some d)
        /\ compares mode d filterDate
  end.

(** The constructor, at [line], appends one filter, which returns on every
    block and answers [true] exactly on the blocks with [P]. *)
Definition appendsFilter `{Host} (q : Query.t) (line : string)
    (P : TaskBlock -> Prop) : Prop :=
  exists f,
    Query.processLine q line = Query.pushFilter f q
    /\ forall tb, exists matches, f tb = Ok matches /\ (matches = true <-> P tb).


(** Three documents of two lines, one list section each: two top-level
    tasks; a task and its indented child; a task and a plain list item. *)
Definition oneListSection : option (list Cache.SectionCache) :=
  Some [Cache.mkSection "list" 0 1].

Definition twoTasksFile : Cache.TFile :=
  Cache.mkFile "a.md"
    (Some (Cache.mkMetadata
             (Some [Cache.mkListItem (Some " ") 0 (-1);
                    Cache.mkListItem (Some " ") 1 (-1)])
             oneListSection))
    "- [ ] task A
- [ ] task B".

Definition parentChildFile : Cache.TFile :=
  Cache.mkFile "a.md"
    (Some (Cache.mkMetadata
             (Some [Cache.mkListItem (Some " ") 0 (-1);
                    Cache.mkListItem (Some " ") 1 0])
             oneListSection))
    "- [ ] parent
  - [ ] child".

Definition trailingNoteFile : Cache.TFile :=
  Cache.mkFile "a.md"
    (Some (Cache.mkMetadata
             (Some [Cache.mkListItem (Some " ") 0 (-1);
                    Cache.mkListItem None 1 (-1)])
             oneListSection))
    "- [ ] task A
- note".

Definition emptyIndex : Cache.t := Cache.mk Cache.Warm [] true.


(** A document whose only task lies in no section. *)
Definition noSectionFile : Cache.TFile :=
  Cache.mkFile "a.md"
    (Some (Cache.mkMetadata (Some [Cache.mkListItem (Some " ") 0 (-1)]) None))
    "- [ ] task A".


(** The grouping rule in the words of the specification, on the tasks of a
    section, each with whether its item is top level: a top-level item
    after the first starts a new block, any other joins the current block,
    and the last block is stored at the end. *)
Fixpoint groupFrom (current : list Task) (rest : list (bool * Task))
  : list TaskBlock :=
  match rest with
  | [] => [mkTaskBlock current]
  | (topLevel, task) :: rest' =>
      if topLevel then mkTaskBlock current :: groupFrom [task] rest'
      else groupFrom (current ++ [task]) rest'
  end.

Definition grouped (items : list (bool * Task)) : list TaskBlock :=
  match items with
  | [] => []
  | (_, task) :: rest => groupFrom [task] rest
  end.

(** The list items [items], counted from [offset], are all check-list items
    of the list section [section], and the line parser makes the [i]-th of
    them the task [parsed i]. *)
Definition parsesInSection `{Host} (file : Cache.TFile)
    (metadata : Cache.CachedMetadata) (section : Cache.SectionCache)
    (headerOf : Cache.ListItemCache -> option string) (parsed : nat -> Task)
    (offset : nat) (items : list Cache.ListItemCache) : Prop :=
  forall i item,
    items !! i = Some item ->
    Cache.item_task item <> None
    /\ Cache.getSection (Cache.item_line item) (Cache.sections metadata)
       = Some section
    /\ Cache.getPrecedingHeader (Cache.item_line item) (Cache.sections metadata)
         (splitLines (Cache.file_content file)) = Ok (headerOf item)
    /\ Task_fromLine
         (index (splitLines (Cache.file_content file)) (Cache.item_line item))
         (Cache.file_path file) (Cache.section_start section)
         (Z.of_nat (offset + i)) (headerOf item) (Z.of_nat (offset + i))
         (Cache.item_parent item)
       = Ok (Some (parsed (offset + i)%nat)).

(** The tasks of the items, each with whether the item has no parent. *)
Definition flaggedTasks (parsed : nat -> Task) (offset : nat)
    (items : list Cache.ListItemCache) : list (bool * Task) :=
  imap (fun i item => (Cache.item_parent item =? -1, parsed (offset + i)%nat))
       items.


(** ** Notions for the comparators *)

(** [h] is an element of [l] that the comparator puts after none. *)
Definition leastBy {A : Type} (cmp : A -> A -> Z) (h : A) (l : list A) : Prop :=
  In h l /\ forall y, In y l -> cmp h y <= 0.

(** The highest value of [key] among [t] and the tasks of [l]. *)
Fixpoint highest (key : Task -> Z) (t : Task) (l : list Task) : Z :=
  match l with
  | [] => key t
  | t' :: l' => Z.max (key t) (highest key t' l')
  end.

Definition rankOf (t : Task) : Z := Z.of_nat (rank (priority t)).

(** Every task of the block is done (so it is for a block without tasks). *)
Definition fullyDone (tb : TaskBlock) : bool :=
  forallb (fun t => Status_eqb (status t) Done) (tasks tb).

(** No task of the block has an invalid moment as its [date]. *)
Definition datesValid (date : Task -> option Moment.t) (tb : TaskBlock) : Prop :=
  forall t, In t (tasks tb) -> date t <> Some Moment.Invalid.


(** ** Notions for the lines of a query *)

(** The word of a sort criterion in a [sort by] line. *)
Definition wordOfProperty (p : Sort.SortingProperty) : string :=
  match p with
  | Sort.urgency_ => "urgency"
  | Sort.status_ => "status"
  | Sort.priority_ => "priority"
  | Sort.start_ => "start"
  | Sort.scheduled_ => "scheduled"
  | Sort.due_ => "due"
  | Sort.done_ => "done"
  | Sort.path_ => "path"
  | Sort.description_ => "description"
  end.

(** The nine things a [hide] line can hide, their words, and their flags
    in the layout options. *)
Inductive HideOption : Type :=
| HideTaskCount
| HideBacklink
| HidePriority
| HideStartDate
| HideScheduledDate
| HideDoneDate
| HideDueDate
| HideRecurrenceRule
| HideEditButton.

Definition hideWord (o : HideOption) : string :=
  match o with
  | HideTaskCount => "task count"
  | HideBacklink => "backlink"
  | HidePriority => "priority"
  | HideStartDate => "start date"
  | HideScheduledDate => "scheduled date"
  | HideDoneDate => "done date"
  | HideDueDate => "due date"
  | HideRecurrenceRule => "recurrence rule"
  | HideEditButton => "edit button"
  end.

Definition hidden (o : HideOption) (l : Query.LayoutOptions) : bool :=
  match o with
  | HideTaskCount => Query.hideTaskCount l
  | HideBacklink => Query.hideBacklinks l
  | HidePriority => Query.hidePriority l
  | HideStartDate => Query.hideStartDate l
  | HideScheduledDate => Query.hideScheduledDate l
  | HideDoneDate => Query.hideDoneDate l
  | HideDueDate => Query.hideDueDate l
  | HideRecurrenceRule => Query.hideRecurrenceRule l
  | HideEditButton => Query.hideEditButton l
  end.

#[export] Instance HideOption_eq_dec : EqDecision HideOption.
Proof. solve_decision. Defined.


(** The decimal digits of a number, as a user writes it in a [limit]
    line. *)
Definition showNat (n : nat) : string :=
  NilEmpty.string_of_uint (Nat.to_uint n).

Definition startsWithDigit (s : string) : bool :=
  match s with
  | String c _ => isDigit c
  | EmptyString => false
  end.


(** The line is one of the productions of the query language: it passes one
    of the tests of the constructor. *)
Definition recognised (line : string) : bool :=
  (line =? "")%string || (line =? "done")%string
  || (line =? "not done")%string || (line =? "is recurring")%string
  || (line =? "is not recurring")%string
  || (line =? "exclude sub-items")%string
  || (line =? "no start date")%string
  || (line =? "no scheduled date")%string
  || (line =? "no due date")%string
  || Query.shortModeRegexp line
  || Query.isSome (Query.priorityRegexp line)
  || Query.isSome (Query.happensRegexp line)
  || Query.isSome (Query.startRegexp line)
  || Query.isSome (Query.scheduledRegexp line)
  || Query.isSome (Query.dueRegexp line)
  || Query.isSome (Query.doneRegexp line)
  || Query.isSome (Query.pathRegexp line)
  || Query.isSome (Query.descriptionRegexp line)
  || Query.isSome (Query.headingRegexp line)
  || Query.isSome (Query.limitRegexp line)
  || Query.isSome (Query.sortByRegexp line)
  || Query.isSome (Query.hideOptionsRegexp line)
  || Query.commentRegexp line.


(** ** Notions for the indexer *)

(** The line parser gives a task the path it was asked to give it. *)
Definition parserKeepsPath `{Host} : Prop :=
  forall line p sectionStart sectionIndex header id parent task,
    Task_fromLine line p sectionStart sectionIndex header id parent
    = Ok (Some task) ->
    path task = p.

(** All tasks of the block have the path [p]. *)
Definition tasksOf (p : string) (tb : TaskBlock) : Prop :=
  forall t, In t (tasks tb) -> path t = p.

(** All tasks of the block are of one document. *)
Definition uniform (tb : TaskBlock) : Prop :=
  forall t t', In t (tasks tb) -> In t' (tasks tb) -> path t = path t'.

(** Every block of the index is of one document. *)
Definition allUniform (c : Cache.t) : Prop :=
  forall tb, In tb (Cache.taskblocks c) -> uniform tb.

(** The scan state [s] with the blocks [kept] stored before its entries. *)
Definition prepend (kept : list TaskBlock) (s : Cache.Scan) : Cache.Scan :=
  Cache.mkScan (Cache.currentSection s) (Cache.scan_sectionIndex s)
               (Cache.currentID s) (Cache.newTaskBlock s) (Cache.first s)
               (map Cache.Settled kept ++ Cache.entries s).

(** The block being accumulated and the blocks already settled hold tasks
    of the document [p] only. *)
Definition scansOf (p : string) (s : Cache.Scan) : Prop :=
  tasksOf p (Cache.newTaskBlock s)
  /\ forall block, In (Cache.Settled block) (Cache.entries s) -> tasksOf p block.


(** The section is a list section that contains the line. *)
Definition coversLine (line : Z) (s : Cache.SectionCache) : Prop :=
  Cache.section_type s = "list"
  /\ Cache.section_start s <= line <= Cache.section_end s.

(** [n] times the character [c]. *)
Fixpoint replicateChar (n : nat) (c : ascii) : string :=
  match n with
  | O => EmptyString
  | S n' => String c (replicateChar n' c)
  end.


(** The character [c] does not occur in [s]. *)
Fixpoint lacks (c : ascii) (s : string) : bool :=
  match s with
  | EmptyString => true
  | String d s' => negb (Ascii.eqb c d) && lacks c s'
  end.

(** ** The editing form ([ui/EditTask.svelte]) *)

Module EditTask.

(** The fields of the form, [editableTask]; all of them are strings. *)
Module Editable.
Record t : Type := mk {
  description : string;
  status : string;
  priority : string;
  recurrenceRule : string;
  startDate : string;
  scheduledDate : string;
  dueDate : string;
  doneDate : string
}.
End Editable.

(** The fields [_onSubmit] hands to [new Task] on top of the task's own
    ([...task]). *)
Module Updated.
Record t : Type := mk {
  description : string;
  status : Status;
  priority : Priority;
  recurrence : option Recurrence;
  startDate : option Moment.t;
  scheduledDate : option Moment.t;
  dueDate : option Moment.t;
  doneDate : option Moment.t
}.
End Updated.

(** What the form takes from its libraries; none of it is part of the
    modelled sources. *)
Class Form : Type := {
  (** The time stamp of [window.moment()], the present moment. *)
  now : Z;
  (** [chrono.parseDate(text, new Date(), { forwardDate: true })]. *)
  chrono_parseDate_forward : string -> option Z;
  (** [window.moment(text, 'YYYY-MM-DD')] for a string. *)
  moment_ofText : string -> Moment.t;
  (** [m.format('YYYY-MM-DD')]. *)
  moment_format : Moment.t -> string;
  (** [recurrence.toText()]. *)
  Recurrence_toText : Recurrence -> string;
  (** [Recurrence.fromText({ recurrenceRuleText, startDate, scheduledDate,
      dueDate })]. *)
  Recurrence_fromText :
    string -> option Moment.t -> option Moment.t -> option Moment.t ->
    option Recurrence
}.

Section WithForm.
Context `{Host} `{Form}.

(** [date ? date.format('YYYY-MM-DD') : '']. *)
Definition formatted (date : option Moment.t) : string :=
  match date with
  | Some m => moment_format m
  | None => ""
  end.

Definition onMount (task : Task) : Editable.t :=
  let description :=
    trim (replaceFirst "  " " "
            (replaceFirst globalFilter "" (description task))) in
  let priority :=
    match priority task with
    | Low => "low"
    | Medium => "medium"
    | High => "high"
    | NoPriority => "none"
    end in
  let status :=
    match status task with
    | Todo => "to do"
    | Done => "done"
    | Blocked => "blocked"
    | InProgress => "in progress"
    end in
  Editable.mk description status priority
    (match recurrence task with
     | Some rule => Recurrence_toText rule
     | None => ""
     end)
    (formatted (startDate task)) (formatted (scheduledDate task))
    (formatted (dueDate task)) (formatted (doneDate task)).

(** [chrono.parseDate(text, new Date(), { forwardDate: true })], wrapped in
    a moment when it is not [null]. *)
Definition parsedDate (text : string) : option Moment.t :=
  match chrono_parseDate_forward text with
  | Some date => Some (Moment.ofDate (Some date))
  | None => None
  end.

(** [window.moment(m, 'YYYY-MM-DD')] for a moment [m]: a copy of it. *)
Definition moment_clone (m : Moment.t) : Moment.t := m.

Definition _onSubmit (editableTask : Editable.t) : Updated.t :=
  let description := trim (Editable.description editableTask) in
  let description :=
    if negb (includes description globalFilter)
    then globalFilter ++ " " ++ description
    else description in
  let startDate := parsedDate (Editable.startDate editableTask) in
  let scheduledDate := parsedDate (Editable.scheduledDate editableTask) in
  let dueDate := parsedDate (Editable.dueDate editableTask) in
  let recurrence :=
    if (Editable.recurrenceRule editableTask =? "")%string
    then None
    else Recurrence_fromText (Editable.recurrenceRule editableTask)
           startDate scheduledDate dueDate in
  let parsedPriority :=
    if (Editable.priority editableTask =? "low")%string then Low
    else if (Editable.priority editableTask =? "medium")%string then Medium
    else if (Editable.priority editableTask =? "high")%string then High
    else NoPriority in
  let '(parsedStatus, newDoneDate) :=
    if (Editable.status editableTask =? "to do")%string then (Todo, None)
    else if (Editable.status editableTask =? "done")%string
         then (Done, Some (Moment.Valid now))
    else if (Editable.status editableTask =? "blocked")%string
         then (Blocked, None)
    else if (Editable.status editableTask =? "in progress")%string
         then (InProgress, None)
    else (Todo, None) in
  let doneDate :=
    match newDoneDate with
    | None => None
    | Some newDoneDate =>
        if Moment.isValid (moment_clone newDoneDate)
        then Some (moment_clone newDoneDate)
        else if Moment.isValid
                  (moment_ofText (Editable.doneDate editableTask))
             then Some (moment_ofText (Editable.doneDate editableTask))
             else None
    end in
  Updated.mk description parsedStatus parsedPriority recurrence
    startDate scheduledDate dueDate doneDate.

End WithForm.

End EditTask.


(** * Properties *)

(** ** Strings *)

Lemma stripPrefix_Some (p s r : string) :
  stripPrefix p s = Some r -> s = (p ++ r)%string.
Proof.
  revert s; induction p as [|c p IH]; intros s Hs; simpl in *.
  - injection Hs as ->. reflexivity.
  - destruct s as [|d s]; [discriminate|].
    destruct (Ascii.eqb_spec c d); [|discriminate].
    subst. rewrite (IH _ Hs) at 1. reflexivity.
Qed.

(** ** Rename and delete *)

Lemma renameBlock_returns_argument (newPath oldPath : string) (tb : TaskBlock) :
  Cache.renameBlock newPath oldPath tb = tb.
Proof.
  unfold Cache.renameBlock.
  destruct (tasks tb) as [|task0 rest]; [reflexivity|].
  destruct (path task0 =? oldPath)%string; reflexivity.
Qed.

Lemma renameFile_returns_argument (newPath oldPath : string)
    (taskblocks : list TaskBlock) :
  Cache.renameFile newPath oldPath taskblocks = taskblocks.
Proof.
  unfold Cache.renameFile.
  induction taskblocks as [|tb tbs IH]; simpl; [reflexivity|].
  rewrite renameBlock_returns_argument. now f_equal.
Qed.

(** C1. The rename handler leaves the index as it was: the block it builds
    with the new path is dropped and the old block is returned, so no path
    of any task changes, whatever the old and the new path are. *)
Theorem rename_leaves_index_unchanged `{Host} (c : Cache.t)
    (file : Cache.TFile) (oldPath : string) :
  Cache.taskblocks (fst (Cache.handle c (Cache.rename (Cache.File file) oldPath)))
  = Cache.taskblocks c.
Proof.
  simpl. apply renameFile_returns_argument.
Qed.

Lemma keepsBlock_spec (filePath : string) (tb : TaskBlock) :
  Cache.keepsBlock filePath tb = true <->
  exists task0 rest, tasks tb = task0 :: rest /\ path task0 <> filePath.
Proof.
  unfold Cache.keepsBlock.
  destruct (tasks tb) as [|task0 rest].
  - split; [discriminate|]. intros (? & ? & ? & _). discriminate.
  - rewrite negb_true_iff, String.eqb_neq. split.
    + intros Hne. eauto.
    + intros (? & ? & [= <- <-] & Hne). exact Hne.
Qed.

Lemma removeFile_spec (filePath : string) (taskblocks : list TaskBlock)
    (tb : TaskBlock) :
  In tb (Cache.removeFile filePath taskblocks) <->
  In tb taskblocks /\
  exists task0 rest, tasks tb = task0 :: rest /\ path task0 <> filePath.
Proof.
  unfold Cache.removeFile. rewrite filter_In, keepsBlock_spec. reflexivity.
Qed.

(** ** The removal step and the scan of [indexFile] *)

Lemma bind_Ok {A B : Type} (m : Result A) (k : A -> Result B) (b : B) :
  (x ← m; k x) = Ok b -> exists a, m = Ok a /\ k a = Ok b.
Proof. destruct m; simpl; [eauto|discriminate]. Qed.

Lemma extends_enterSection kept metadata listItem s :
  extends kept s -> extends kept (Cache.enterSection metadata listItem s).
Proof.
  unfold Cache.enterSection.
  intros Hs. destruct (match Cache.currentSection s with
                       | Some _ => _ | None => _ end); assumption.
Qed.

Lemma extends_pushCurrent kept s :
  extends kept s -> extends kept (Cache.pushCurrent s).
Proof.
  intros [es Hes]. exists (es ++ [Cache.Current])%list.
  simpl. rewrite Hes, <- app_assoc. reflexivity.
Qed.

Lemma extends_renewBlock kept s :
  extends kept s -> extends kept (Cache.renewBlock s).
Proof.
  intros [es Hes]. unfold extends. simpl.
  rewrite Hes, map_app, map_map. simpl. eauto.
Qed.

Lemma extends_pushTask kept task s :
  extends kept s -> extends kept (Cache.pushTask task s).
Proof. intros Hs. exact Hs. Qed.

Lemma extends_groupTask kept listItem isLast task s :
  extends kept s -> extends kept (Cache.groupTask listItem isLast task s).
Proof.
  intros Hs. unfold Cache.groupTask.
  set (s1 := Cache.mkScan _ _ _ _ _ _).
  assert (extends kept s1) as H1 by exact Hs.
  destruct isLast, ((Cache.item_parent listItem =? -1) && negb (Cache.first s1));
    auto using extends_pushCurrent, extends_renewBlock, extends_pushTask.
Qed.

Lemma extends_scanItem `{Host} kept file metadata fileLines s listItem isLast s' :
  Cache.scanItem file metadata fileLines s listItem isLast = Ok s' ->
  extends kept s -> extends kept s'.
Proof.
  unfold Cache.scanItem. intros Hs Hext.
  destruct (Cache.item_task listItem); [|injection Hs as <-; exact Hext].
  apply (extends_enterSection kept metadata listItem) in Hext.
  destruct (Cache.currentSection (Cache.enterSection metadata listItem s)).
  - apply bind_Ok in Hs as (header & _ & Hs).
    apply bind_Ok in Hs as (task & _ & Hs).
    injection Hs as <-.
    destruct task; [apply extends_groupTask|]; exact Hext.
  - injection Hs as <-. now apply extends_pushCurrent.
Qed.

Lemma extends_scanItems `{Host} kept file metadata fileLines items s :
  extends kept s ->
  extends kept
    (Cache.outcome_state (Cache.scanItems file metadata fileLines items s)).
Proof.
  revert s. induction items as [|listItem rest IH]; intros s Hext; simpl.
  - exact Hext.
  - destruct (Cache.scanItem _ _ _ _ _ _) eqn:Hstep; simpl.
    + apply IH. eapply extends_scanItem; eauto.
    + exact Hext.
Qed.

Lemma scanned_extends kept s :
  extends kept s -> exists added, Cache.scanned s = (kept ++ added)%list.
Proof.
  intros [es Hes]. unfold Cache.scanned.
  rewrite Hes, map_app, map_map. simpl. rewrite map_id. eauto.
Qed.

Lemma indexFile_keeps_what_removal_kept `{Host} (file : Cache.TFile)
    (metadata : Cache.CachedMetadata) (c : Cache.t) :
  Cache.file_cache file = Some metadata ->
  exists added,
    Cache.taskblocks (Cache.outcome_state (fst (Cache.indexFile file c)))
    = (Cache.removeFile (Cache.file_path file) (Cache.taskblocks c) ++ added)%list.
Proof.
  intros Hmd. unfold Cache.indexFile. rewrite Hmd.
  set (kept := Cache.removeFile _ _).
  pose proof (extends_scanItems kept file metadata
                (splitLines (Cache.file_content file))
                (match Cache.listItems metadata with
                 | Some items => items | None => [] end)
                (Cache.startScan kept)) as Hext.
  destruct (Cache.scanItems _ _ _ _ _) as [s|s e]; simpl in *;
    apply scanned_extends, Hext; exists []; simpl; now rewrite app_nil_r.
Qed.

Lemma keepsBlock_firstTaskElsewhere (filePath : string) (tb : TaskBlock) :
  Cache.keepsBlock filePath tb = true <-> firstTaskElsewhere filePath tb.
Proof.
  unfold Cache.keepsBlock, firstTaskElsewhere.
  destruct (tasks tb) as [|task0 rest].
  - split; [discriminate|]. intros (? & ? & [=] & _).
  - rewrite negb_true_iff, String.eqb_neq. split.
    + intros Hne. now exists task0, rest.
    + intros (? & ? & [= <- _] & Hne). exact Hne.
Qed.

Lemma removeFile_stays (filePath : string) (index : list TaskBlock) :
  staysAfterRemoval filePath index (Cache.removeFile filePath index).
Proof.
  unfold Cache.removeFile.
  induction index as [|tb index IH]; simpl; [constructor|].
  destruct (Cache.keepsBlock filePath tb) eqn:Hkeep.
  - apply stays_keep; [|exact IH]. now apply keepsBlock_firstTaskElsewhere.
  - apply stays_drop; [|exact IH].
    intros Helse. apply keepsBlock_firstTaskElsewhere in Helse. congruence.
Qed.

Lemma staysAfterRemoval_functional (filePath : string)
    (index kept kept' : list TaskBlock) :
  staysAfterRemoval filePath index kept ->
  staysAfterRemoval filePath index kept' ->
  kept' = kept.
Proof.
  intros Hkept. revert kept'.
  induction Hkept as [|tb index kept Helse _ IH|tb index kept Hnot _ IH];
    intros kept' Hkept'; inversion Hkept'; subst;
    try reflexivity; try contradiction.
  - f_equal. now apply IH.
  - now apply IH.
Qed.

(** C4, as the code has it. The path comparison of the delete handler and of
    the removal step of [indexFile] answers [false] for a block without
    tasks, and the filter drops what it answers [false] for: what stays is
    exactly the non-empty blocks whose first task is in another document,
    each as often as it was in the index and in the order of the index, and
    there is one such list only. The delete handler leaves that list;
    [indexFile], for a document with metadata, goes on from that list and
    only appends to it. *)
Theorem removal_drops_empty_blocks `{Host} (c : Cache.t) (file : Cache.TFile) :
  exists kept,
    staysAfterRemoval (Cache.file_path file) (Cache.taskblocks c) kept
    /\ (forall kept',
          staysAfterRemoval (Cache.file_path file) (Cache.taskblocks c) kept' ->
          kept' = kept)
    /\ Cache.taskblocks (fst (Cache.handle c (Cache.delete (Cache.File file))))
       = kept
    /\ match Cache.file_cache file with
       | Some _ =>
           exists added,
             Cache.taskblocks
               (Cache.outcome_state (fst (Cache.indexFile file c)))
             = (kept ++ added)%list
       | None =>
           Cache.taskblocks (Cache.outcome_state (fst (Cache.indexFile file c)))
           = Cache.taskblocks c
       end
    /\ Forall (fun tb => tasks tb <> []) kept.
Proof.
  exists (Cache.removeFile (Cache.file_path file) (Cache.taskblocks c)).
  pose proof (removeFile_stays (Cache.file_path file) (Cache.taskblocks c))
    as Hstays.
  split; [exact Hstays|]. split; [|split; [reflexivity|split]].
  - intros kept' Hkept'.
    exact (staysAfterRemoval_functional _ _ _ _ Hstays Hkept').
  - destruct (Cache.file_cache file) as [metadata|] eqn:Hmd.
    + now apply indexFile_keeps_what_removal_kept with (metadata := metadata).
    + unfold Cache.indexFile. rewrite Hmd. reflexivity.
  - apply List.Forall_forall. intros tb Htb.
    apply removeFile_spec in Htb as (_ & task0 & rest & Htasks & _).
    rewrite Htasks. discriminate.
Qed.

(** C4, as stated, fails: an index that holds an empty block loses it when
    a document is deleted, and when a document (here one without list
    items) is indexed. *)
Lemma empty_block_is_removed :
  let c := Cache.mk Cache.Warm [TaskBlock_new] true in
  let file := emptyFile "a.md" in
  In TaskBlock_new (Cache.taskblocks c)
  /\ ~ In TaskBlock_new
       (Cache.taskblocks
          (fst (Cache.handle (H := plainHost) c (Cache.delete (Cache.File file)))))
  /\ ~ In TaskBlock_new
       (Cache.taskblocks
          (Cache.outcome_state (fst (Cache.indexFile (H := plainHost) file c)))).
Proof.
  simpl. split; [now left|]. split; intros [].
Qed.

(** ** The comparators *)

(** C3. [compareByDoneDate] reads the element at index [-1] of both sorted
    arrays; an array has none, and reading [doneDate] of [undefined] raises:
    the comparator returns for no pair of blocks. *)
Theorem compareByDoneDate_raises (a b : TaskBlock) :
  Sort.compareByDoneDate a b = Throw TypeError.
Proof. reflexivity. Qed.

(** So it does for a block done on the first of January 2024 and one done
    the day after, which the latest done dates would order. *)
Lemma compareByDoneDate_two_days :
  Sort.compareByDoneDate (mkTaskBlock [taskDoneOn 19723])
                         (mkTaskBlock [taskDoneOn 19724]) = Throw TypeError
  /\ Sort.compareByDate (doneDate (taskDoneOn 19723))
                        (doneDate (taskDoneOn 19724)) = -1.
Proof. split; reflexivity. Qed.

(** What [compareByDate] itself does: a date before no date, whichever side
    it is on, and equal time stamps equal. *)
Lemma compareByDate_present_absent (x : Moment.t) :
  Sort.compareByDate (Some x) None = -1 /\ Sort.compareByDate None (Some x) = 1.
Proof. split; reflexivity. Qed.

Lemma compareByDate_same_day (ms : Z) :
  Sort.compareByDate (Some (Moment.Valid ms)) (Some (Moment.Valid ms)) = 0.
Proof.
  unfold Sort.compareByDate, Moment.isAfter, Moment.isBefore.
  rewrite Z.gtb_ltb, Z.ltb_irrefl. reflexivity.
Qed.

(** C6. On a block without tasks the compiled [path does not include]
    filter and the priority comparator raise: both read a field of
    [tasks[0]], which is [undefined]. *)
Theorem empty_block_raises `{Host} (text : string) (b : TaskBlock) :
  Query.pathDoesNotIncludeFilter text TaskBlock_new = Throw TypeError
  /\ (exists f,
        Query.filters (Query.new "path does not include x") = [f]
        /\ f TaskBlock_new = Throw TypeError)
  /\ Sort.compareByPriority TaskBlock_new b = Throw TypeError
  /\ Sort.compareByPriority b TaskBlock_new = Throw TypeError.
Proof.
  split; [reflexivity|]. split; [eexists; split; reflexivity|].
  split; [reflexivity|].
  unfold Sort.compareByPriority, Sort.onTasks. simpl.
  destruct (index _ 0); reflexivity.
Qed.

(** Blocks without tasks do get into the index: a task that lies in no
    section makes [indexFile] store the block it is accumulating, empty. *)
Lemma indexFile_stores_empty_block `{Host} :
  Cache.indexFile noSectionFile emptyIndex
  = (Cache.Completed (Cache.mk Cache.Warm [TaskBlock_new] true),
     [Cache.CacheUpdate [TaskBlock_new] Cache.Warm]).
Proof. reflexivity. Qed.

(** The filter of the sibling line [path includes] guards the read. *)
Lemma pathIncludesFilter_empty (text : string) :
  Query.pathIncludesFilter text TaskBlock_new = Ok false.
Proof. reflexivity. Qed.

(** ** [Sort.by] and the caller's array *)





Lemma insertBy_not_nil {A : Type} (cmp : A -> A -> Z) (x : A) (l : list A) :
  Sort.insertBy cmp x l <> [].
Proof. destruct l; simpl; [|destruct (_ <=? _)]; discriminate. Qed.

(** The first element of an array a sort has put something in is there. *)
Lemma insertBy_first {A : Type} (cmp : A -> A -> Z) (x : A) (l : list A) :
  exists y, index (Sort.insertBy cmp x l) 0 = Some y.
Proof.
  pose proof (insertBy_not_nil cmp x l) as Hne.
  destruct (Sort.insertBy cmp x l) as [|y r]; [easy|].
  exists y. reflexivity.
Qed.








Section Consistent.
Context {A : Type} (cmp : A -> A -> Result Z) (values : list A).
Hypothesis Hconsistent : consistentOn cmp values = true.

Lemma consistentOn_at (a b c : A) :
  In a values -> In b values -> In c values -> consistentAt cmp a b c = true.
Proof.
  intros Ha Hb Hc. unfold consistentOn in Hconsistent.
  rewrite List.forallb_forall in Hconsistent.
  specialize (Hconsistent a Ha). rewrite List.forallb_forall in Hconsistent.
  specialize (Hconsistent b Hb). rewrite List.forallb_forall in Hconsistent.
  exact (Hconsistent c Hc).
Qed.

Lemma consistent_conditions (a b c : A) :
  In a values -> In b values -> In c values ->
  signOf cmp a b <> None
  /\ signOf cmp a a = Some Eq
  /\ (signOf cmp a b = Some Eq -> signOf cmp b a = Some Eq)
  /\ (signOf cmp a b = Some Eq -> signOf cmp b c = Some Eq ->
      signOf cmp a c = Some Eq)
  /\ (signOf cmp a b = Some Lt -> signOf cmp b c = Some Lt ->
      signOf cmp a c = Some Lt)
  /\ (signOf cmp a b = Some Gt -> signOf cmp b c = Some Gt ->
      signOf cmp a c = Some Gt).
Proof.
  intros Ha Hb Hc. pose proof (consistentOn_at a b c Ha Hb Hc) as Hat.
  unfold consistentAt in Hat.
  repeat (apply andb_true_iff in Hat as [Hat ?]).
  repeat split.
  - destruct (signOf cmp a b) as [[]|]; [discriminate..|discriminate Hat].
  - destruct (signOf cmp a a) as [[]|]; try discriminate; reflexivity.
  - intros Hab. rewrite Hab in *.
    destruct (signOf cmp b a) as [[]|]; try discriminate; reflexivity.
  - intros Hab Hbc. rewrite Hab, Hbc in *.
    destruct (signOf cmp a c) as [[]|]; try discriminate; reflexivity.
  - intros Hab Hbc. rewrite Hab, Hbc in *.
    destruct (signOf cmp a c) as [[]|]; try discriminate; reflexivity.
  - intros Hab Hbc. rewrite Hab, Hbc in *.
    destruct (signOf cmp a c) as [[]|]; try discriminate; reflexivity.
Qed.



Lemma consistent_less_greater (a b : A) :
  In a values -> In b values ->
  signOf cmp a b = Some Lt -> signOf cmp b a = Some Gt.
Proof.
  intros Ha Hb Hab.
  destruct (consistent_conditions a b a Ha Hb Ha)
    as (_ & Hrefl & _ & _ & Hlt & _).
  destruct (consistent_conditions b a a Hb Ha Ha) as (Hret & _ & Hsym & _).
  destruct (signOf cmp b a) as [[]|] eqn:Hba; try easy.
  - rewrite (Hsym eq_refl) in Hab. discriminate.
  - rewrite (Hlt Hab eq_refl) in Hrefl. discriminate.
Qed.









End Consistent.



(** Of what the host supplies, [Sort.by] reads the global filter of the
    settings, and only for the criterion [description]. *)
Lemma by_reads_settings_for_description_only (host host' : Host)
    (sorting : list Sort.Sorting) (taskBlocks : nat) (store : Sort.Store) :
  (forall s, In s sorting -> Sort.property s <> Sort.description_) ->
  Sort.by_ (H := host) sorting taskBlocks store
  = Sort.by_ (H := host') sorting taskBlocks store.
Proof.
  intros Hnone. unfold Sort.by_, Sort.sorted, Sort.comparatorOf.
  assert (Sort.userComparators (H := host) sorting
          = Sort.userComparators (H := host') sorting) as ->; [|reflexivity].
  unfold Sort.userComparators. apply map_ext_in. intros s Hs.
  specialize (Hnone s Hs). destruct (Sort.property s); easy.
Qed.


(** ** The lines of a query *)

Lemma firstWord_In (words : list string) (s w rest : string) :
  Query.firstWord words s = Some (w, rest) ->
  In w words /\ stripPrefix w s = Some rest.
Proof.
  induction words as [|w' ws IH]; simpl; [discriminate|].
  destruct (stripPrefix w' s) eqn:Hw.
  - intros [= <- <-]. auto.
  - intros Hf. destruct (IH Hf). auto.
Qed.

Lemma orElse_Some {A : Type} (a b : option A) (x : A) :
  orElse a b = Some x -> a = Some x \/ b = Some x.
Proof. destruct a; simpl; auto. Qed.

Lemma priorityWord_groups g2 s g w :
  Query.priorityWord g2 s = Some (g, w) -> g = g2 /\ In w Query.priorityWords.
Proof.
  unfold Query.priorityWord.
  destruct (Query.firstWord _ s) as [[w' r]|] eqn:Hf; [|discriminate].
  intros [= <- <-]. apply firstWord_In in Hf as [Hin _]. auto.
Qed.

Lemma prioritySpace_groups g2 s g w :
  Query.prioritySpace g2 s = Some (g, w) -> g = g2 /\ In w Query.priorityWords.
Proof.
  unfold Query.prioritySpace. intros Ho.
  apply orElse_Some in Ho as [Ho|Ho].
  - destruct (stripPrefix " " s); [|discriminate].
    eapply priorityWord_groups; eauto.
  - eapply priorityWord_groups; eauto.
Qed.

Lemma priorityQualifier_groups s g w :
  Query.priorityQualifier s = Some (g, w) ->
  (g = None \/ g = Some "above" \/ g = Some "below")
  /\ In w Query.priorityWords.
Proof.
  unfold Query.priorityQualifier. intros Ho.
  apply orElse_Some in Ho as [Ho|Ho].
  - destruct (Query.firstWord _ s) as [[q s']|] eqn:Hf; [|discriminate].
    apply firstWord_In in Hf as [Hin _].
    apply prioritySpace_groups in Ho as [-> Hw]. split; [|exact Hw].
    simpl in Hin. destruct Hin as [<-|[<-|[]]]; auto.
  - apply prioritySpace_groups in Ho as [-> Hw]. auto.
Qed.

Lemma priorityRegexp_groups line g w :
  Query.priorityRegexp line = Some (g, w) ->
  (g = None \/ g = Some "above" \/ g = Some "below")
  /\ In w Query.priorityWords
  /\ exists r, line = ("priority " ++ r)%string.
Proof.
  unfold Query.priorityRegexp.
  destruct (stripPrefix "priority " line) as [r|] eqn:Hp; [|discriminate].
  apply stripPrefix_Some in Hp. intros Ho.
  assert (Query.priorityQualifier r = Some (g, w)
          \/ exists r', Query.priorityQualifier r' = Some (g, w)) as Hq.
  { apply orElse_Some in Ho as [Ho|Ho]; [|auto].
    destruct (stripPrefix "is " r); [eauto|discriminate]. }
  destruct Hq as [Hq|[r' Hq]];
    apply priorityQualifier_groups in Hq as [Hg Hw]; eauto.
Qed.

(** The [switch] of the constructor, for a line that starts with a keyword:
    the tests before the keyword's own are decided by the first characters
    of the line. *)
Ltac dispatch_step :=
  match goal with
  | |- context [if ?b then _ else _] =>
      first [ replace b with false by (subst; reflexivity)
            | replace b with true by (subst; reflexivity) ];
      cbv iota
  end.

Lemma matchDate_keyword (keyword line : string) g :
  Query.matchDate keyword line = Some g ->
  exists r, line = (keyword ++ r)%string.
Proof.
  unfold Query.matchDate.
  destruct (stripPrefix keyword line) as [r|] eqn:Hp; [|discriminate].
  apply stripPrefix_Some in Hp. eauto.
Qed.

Lemma processLine_priority `{Host} q line g :
  Query.priorityRegexp line = Some g ->
  Query.processLine q line = Query.parsePriorityFilter line q.
Proof.
  intros Hm. destruct g as [g w].
  destruct (priorityRegexp_groups _ _ _ Hm) as (_ & _ & r & Hr).
  unfold Query.processLine. do 10 dispatch_step.
  rewrite Hm. reflexivity.
Qed.

Lemma processLine_happens `{Host} q line g :
  Query.happensRegexp line = Some g ->
  Query.processLine q line = Query.parseHappensFilter line q.
Proof.
  intros Hm. destruct (matchDate_keyword _ _ _ Hm) as [r Hr].
  unfold Query.processLine. do 11 dispatch_step.
  rewrite Hm. reflexivity.
Qed.

Lemma processLine_starts `{Host} q line g :
  Query.startRegexp line = Some g ->
  Query.processLine q line = Query.parseStartFilter line q.
Proof.
  intros Hm. destruct (matchDate_keyword _ _ _ Hm) as [r Hr].
  unfold Query.processLine. do 12 dispatch_step.
  rewrite Hm. reflexivity.
Qed.

Lemma processLine_scheduled `{Host} q line g :
  Query.scheduledRegexp line = Some g ->
  Query.processLine q line = Query.parseScheduledFilter line q.
Proof.
  intros Hm. destruct (matchDate_keyword _ _ _ Hm) as [r Hr].
  unfold Query.processLine. do 13 dispatch_step.
  rewrite Hm. reflexivity.
Qed.

Lemma processLine_due `{Host} q line g :
  Query.dueRegexp line = Some g ->
  Query.processLine q line = Query.parseDueFilter line q.
Proof.
  intros Hm. destruct (matchDate_keyword _ _ _ Hm) as [r Hr].
  unfold Query.processLine. do 14 dispatch_step.
  rewrite Hm. reflexivity.
Qed.

Lemma processLine_done `{Host} q line g :
  Query.doneRegexp line = Some g ->
  Query.processLine q line = Query.parseDoneFilter line q.
Proof.
  intros Hm. destruct (matchDate_keyword _ _ _ Hm) as [r Hr].
  unfold Query.processLine. do 15 dispatch_step.
  rewrite Hm. reflexivity.
Qed.

(** ** The priority filter *)

(** The comparison of the code, [localeCompare(...) < 0] on the string
    forms, is the ranking of the specification. *)
Lemma outranks_rank (threshold : Priority) (task : Task) :
  Query.outranks threshold task = true <-> ranksAbove (priority task) threshold.
Proof.
  unfold Query.outranks, ranksAbove.
  destruct (priority task), threshold; simpl; split;
    first [reflexivity | discriminate | lia].
Qed.

Lemma priority_is_test (threshold : Priority) (task : Task) :
  (if truthy (Priority_value (priority task))
   then (Priority_value (priority task) =? Priority_value threshold)%string
        || (localeCompare (Priority_value (priority task))
                          (Priority_value threshold) <? 0)
   else false) = true
  <-> priority task = threshold \/ ranksAbove (priority task) threshold.
Proof.
  unfold ranksAbove.
  destruct (priority task), threshold; simpl; split;
    first [ reflexivity | discriminate | (intros _; auto; right; lia)
          | (intros [|]; [discriminate|lia]) ].
Qed.

Lemma priorityOfWord_defined (w : string) :
  In w Query.priorityWords -> exists p, Query.priorityOfWord w = Some p.
Proof.
  simpl. intros [<-|[<-|[<-|[<-|[]]]]]; eexists; reflexivity.
Qed.

(** C2, as the code has it. For a line the priority expression matches, the
    constructor appends one filter, which returns on every block. With
    [above] it matches iff some task outranks the threshold; with [below]
    iff no task outranks it; with neither iff every task has the threshold
    priority or outranks it. *)
Theorem priority_filter_modes `{Host} (q : Query.t) (line : string)
    (qualifier : option string) (word : string) :
  Query.priorityRegexp line = Some (qualifier, word) ->
  exists threshold f,
    Query.priorityOfWord word = Some threshold
    /\ Query.processLine q line = Query.pushFilter f q
    /\ forall tb, exists matches,
         f tb = Ok matches
         /\ (qualifier = Some "above" ->
             (matches = true <->
              exists task, In task (tasks tb)
                           /\ ranksAbove (priority task) threshold))
         /\ (qualifier = Some "below" ->
             (matches = true <->
              forall task, In task (tasks tb) ->
                           ~ ranksAbove (priority task) threshold))
         /\ (qualifier = None ->
             (matches = true <->
              forall task, In task (tasks tb) ->
                           priority task = threshold
                           \/ ranksAbove (priority task) threshold)).
Proof.
  intros Hm.
  destruct (priorityRegexp_groups _ _ _ Hm) as (Hq & Hw & _).
  destruct (priorityOfWord_defined _ Hw) as [threshold Hth].
  exists threshold.
  rewrite (processLine_priority q line _ Hm).
  unfold Query.parsePriorityFilter. rewrite Hm, Hth.
  eexists. split; [reflexivity|]. split; [reflexivity|].
  intros tb. destruct Hq as [-> | [-> | ->] ]; simpl;
    eexists; (split; [reflexivity|]);
    (split; [|split]); intros Hmode; try discriminate.
  - rewrite forallb_forall. split; intros Hall task Hin.
    + apply priority_is_test. now apply Hall.
    + apply priority_is_test. now apply Hall.
  - rewrite existsb_exists. split; intros (task & Hin & Ht); exists task;
      (split; [exact Hin|]); now apply outranks_rank.
  - rewrite negb_true_iff. split.
    + intros Hex task Hin Hr. apply outranks_rank in Hr.
      assert (existsb (Query.outranks threshold) (tasks tb) = true) as Hc
        by (apply existsb_exists; eauto).
      congruence.
    + intros Hall. destruct (existsb _ _) eqn:Hex; [|reflexivity].
      apply existsb_exists in Hex as (task & Hin & Ht).
      apply outranks_rank in Ht. now destruct (Hall task Hin).
Qed.

Lemma priority_filter_modes_witness :
  exists threshold f,
    Query.priorityOfWord "medium" = Some threshold
    /\ Query.processLine (H := plainHost) Query.initial "priority below medium"
       = Query.pushFilter f Query.initial
    /\ forall tb, exists matches,
         f tb = Ok matches
         /\ (Some "below" = Some "above" ->
             (matches = true <->
              exists task, In task (tasks tb)
                           /\ ranksAbove (priority task) threshold))
         /\ (Some "below" = Some "below" ->
             (matches = true <->
              forall task, In task (tasks tb) ->
                           ~ ranksAbove (priority task) threshold))
         /\ (Some "below" = None ->
             (matches = true <->
              forall task, In task (tasks tb) ->
                           priority task = threshold
                           \/ ranksAbove (priority task) threshold)).
Proof.
  apply (priority_filter_modes (H := plainHost) Query.initial
           "priority below medium" (Some "below") "medium").
  reflexivity.
Defined.

(** C2, as stated, fails without a qualifier: [priority medium] takes a
    block whose task is High, which is neither Medium nor ranked lower, and
    refuses a block whose task is Low, which is ranked lower. *)
Lemma priority_is_takes_higher_ranks :
  exists f,
    Query.filters (Query.new (H := plainHost) "priority medium") = [f]
    /\ f (mkTaskBlock [taskWithPriority High]) = Ok true
    /\ ~ (forall task, In task [taskWithPriority High] ->
                       (rank (priority task) <= rank Medium)%nat)
    /\ f (mkTaskBlock [taskWithPriority Low]) = Ok false
    /\ (forall task, In task [taskWithPriority Low] ->
                     (rank (priority task) <= rank Medium)%nat).
Proof.
  eexists. split; [reflexivity|]. split; [reflexivity|]. split; [|split].
  - intros Hall. specialize (Hall _ (or_introl eq_refl)). simpl in Hall. lia.
  - reflexivity.
  - intros task [<-|[]]. simpl. lia.
Qed.

(** ** The date filters *)

Lemma matchDate_mode keyword line mode text :
  Query.matchDate keyword line = Some (mode, text) ->
  mode = None \/ mode = Some "before" \/ mode = Some "after"
  \/ mode = Some "on".
Proof.
  unfold Query.matchDate, Query.optionalWord.
  destruct (stripPrefix keyword line) as [r|]; [|discriminate].
  destruct (Query.firstWord _ r) as [[w rest]|] eqn:Hf; intros [= <- _].
  - apply firstWord_In in Hf as [Hin _]. simpl in Hin.
    destruct Hin as [<-|[<-|[<-|[]]]]; auto.
  - auto.
Qed.

Lemma dateTest_compares mode d filterDate :
  mode = None \/ mode = Some "before" \/ mode = Some "after"
  \/ mode = Some "on" ->
  Query.dateTest mode d filterDate = true <-> compares mode d filterDate.
Proof.
  intros Hmode. unfold compares.
  destruct d as [x|], filterDate as [y|];
    destruct Hmode as [-> | [-> | [-> | ->] ] ]; simpl;
    try (split; [discriminate|contradiction]).
  - apply Z.eqb_eq.
  - apply Z.ltb_lt.
  - rewrite Z.gtb_ltb, Z.ltb_lt. lia.
  - apply Z.eqb_eq.
Qed.

Lemma someTask_existsb (test : Task -> bool) (P : Task -> Prop)
    (l : list Task) :
  (forall task, test task = true <-> P task) ->
  existsb test l = true <-> exists task, In task l /\ P task.
Proof.
  intros Htest. rewrite existsb_exists.
  split; intros (task & Hin & Ht); exists task; (split; [exact Hin|]);
    now apply Htest.
Qed.

(** C8, as the code has it. For a [starts], [scheduled], [due] or [happens]
    line with a date that parses, the constructor appends one filter; a
    block matches iff some task of it matches, where a task without start
    date matches under [starts], and under [scheduled], [due] and [happens]
    only a date that is there and compares as the line says makes a task
    match. *)
Theorem date_filters `{Host} (kind : DateLine) (q : Query.t) (line : string)
    (mode : option string) (text : string) :
  Query.matchDate (keywordOf kind) line = Some (mode, text) ->
  Moment.isValid (Query.parseDate text) = true ->
  appendsFilter q line
    (fun tb => exists task,
         In task (tasks tb)
         /\ taskMatches kind mode (Query.parseDate text) task).
Proof.
  intros Hm Hvalid. pose proof (matchDate_mode _ _ _ _ Hm) as Hmode.
  unfold appendsFilter.
  destruct kind; simpl in Hm.
  - rewrite (processLine_starts q line _ Hm).
    unfold Query.parseStartFilter, Query.startRegexp. rewrite Hm, Hvalid. simpl.
    eexists. split; [reflexivity|]. intros tb. eexists. split; [reflexivity|].
    apply someTask_existsb. intros task. simpl.
    destruct (startDate task); [now apply dateTest_compares|tauto].
  - rewrite (processLine_scheduled q line _ Hm).
    unfold Query.parseScheduledFilter, Query.scheduledRegexp.
    rewrite Hm, Hvalid. simpl.
    eexists. split; [reflexivity|]. intros tb. eexists. split; [reflexivity|].
    apply someTask_existsb. intros task. simpl.
    destruct (scheduledDate task); [now apply dateTest_compares|easy].
  - rewrite (processLine_due q line _ Hm).
    unfold Query.parseDueFilter, Query.dueRegexp. rewrite Hm, Hvalid. simpl.
    eexists. split; [reflexivity|]. intros tb. eexists. split; [reflexivity|].
    apply someTask_existsb. intros task. simpl.
    destruct (dueDate task); [now apply dateTest_compares|easy].
  - rewrite (processLine_happens q line _ Hm).
    unfold Query.parseHappensFilter, Query.happensRegexp.
    rewrite Hm, Hvalid. simpl.
    eexists. split; [reflexivity|]. intros tb. eexists. split; [reflexivity|].
    rewrite existsb_exists. split.
    + intros (date & Hin & Ht). apply in_flat_map in Hin as (task & Hin & Hd).
      exists task. split; [exact Hin|]. simpl.
      destruct date as [d|]; [|discriminate]. exists d.
      apply dateTest_compares in Ht; [|exact Hmode]. split; [|exact Ht].
      simpl in Hd. destruct Hd as [Hd|[Hd|[Hd|[]]]]; auto.
    + intros (task & Hin & d & Hd & Ht). exists (Some d). split.
      * apply in_flat_map. exists task. split; [exact Hin|]. simpl.
        destruct Hd as [-> | [-> | ->] ]; auto.
      * now apply dateTest_compares.
Qed.

Lemma date_filters_witness :
  appendsFilter (H := plainHost) Query.initial "happens before 2024-01-05"
    (fun tb => exists task,
         In task (tasks tb)
         /\ taskMatches HappensLine (Some "before")
                        (Query.parseDate (H := plainHost) "2024-01-05") task).
Proof.
  apply (date_filters (H := plainHost) HappensLine Query.initial
           "happens before 2024-01-05" (Some "before") "2024-01-05");
    reflexivity.
Defined.

(** C8, as stated, fails for [happens]: a block whose only task has none of
    the three dates does not match, while the same block matches the
    [starts] line. *)
Lemma happens_skips_missing_dates :
  exists f g,
    Query.filters (Query.new (H := plainHost) "happens on 2024-01-05") = [f]
    /\ Query.filters (Query.new (H := plainHost) "starts on 2024-01-05") = [g]
    /\ startDate (taskIn "a.md") = None
    /\ scheduledDate (taskIn "a.md") = None
    /\ dueDate (taskIn "a.md") = None
    /\ f (mkTaskBlock [taskIn "a.md"]) = Ok false
    /\ g (mkTaskBlock [taskIn "a.md"]) = Ok true.
Proof.
  do 2 eexists. repeat split; reflexivity.
Qed.

(** ** Errors of the constructor *)

(** No line takes a filter away, and no line clears the error. *)
Lemma processLine_grows `{Host} (q : Query.t) (line : string) :
  (exists more, Query.filters (Query.processLine q line)
                = (Query.filters q ++ more)%list)
  /\ (Query.error q <> None -> Query.error (Query.processLine q line) <> None).
Proof.
  unfold Query.processLine, Query.parsePriorityFilter, Query.parseHappensFilter,
    Query.parseStartFilter, Query.parseScheduledFilter, Query.parseDueFilter,
    Query.parseDoneFilter, Query.parsePathFilter, Query.parseDescriptionFilter,
    Query.parseHeadingFilter, Query.parseLimit, Query.parseSortBy,
    Query.parseHideOptions, Query.setShortMode, Query.filters, Query.error.
  repeat case_match; simpl; (split; [|try discriminate; auto]).
  all: try (by exists []; rewrite app_nil_r).
  all: eexists; reflexivity.
Qed.

Lemma processLines_grow `{Host} (lines : list string) (q : Query.t) :
  (exists more, Query.filters (fold_left Query.processLine lines q)
                = (Query.filters q ++ more)%list)
  /\ (Query.error q <> None ->
      Query.error (fold_left Query.processLine lines q) <> None).
Proof.
  revert q. induction lines as [|line lines IH]; intros q; simpl.
  - split; [exists []; now rewrite app_nil_r|auto].
  - destruct (IH (Query.processLine q line)) as ([more Hmore] & Herr).
    destruct (processLine_grows q line) as ([more' Hmore'] & Herr').
    split; [|auto].
    exists (more' ++ more)%list. rewrite Hmore, Hmore', <- app_assoc. reflexivity.
Qed.

Lemma invalid_moment (m : Moment.t) :
  Moment.isValid m = false -> m = Moment.Invalid.
Proof. destruct m; [discriminate|reflexivity]. Qed.

(** C10. A query with a [scheduled] line whose date does not parse has an
    error and has, among its filters, the scheduled filter built from the
    invalid date. A [starts], [due], [done] or [happens] line whose date does
    not parse sets the error and leaves the filters as they were. *)
Theorem scheduled_error_still_filters `{Host} (source : string)
    (before after : list string) (line : string) (mode : option string)
    (text : string) :
  splitLines source = (before ++ line :: after)%list ->
  Query.scheduledRegexp (trim line) = Some (mode, text) ->
  Moment.isValid (Query.parseDate text) = false ->
  Query.error (Query.new source) <> None
  /\ In (Query.scheduledFilter mode Moment.Invalid)
        (Query.filters (Query.new source))
  /\ forall q l m t,
       Moment.isValid (Query.parseDate t) = false ->
       Query.startRegexp l = Some (m, t) \/ Query.dueRegexp l = Some (m, t)
       \/ Query.doneRegexp l = Some (m, t)
       \/ Query.happensRegexp l = Some (m, t) ->
       Query.error (Query.processLine q l) <> None
       /\ Query.filters (Query.processLine q l) = Query.filters q.
Proof.
  intros Hlines Hm Hinvalid. split; [|split].
  - unfold Query.new. rewrite Hlines, map_app, fold_left_app. simpl.
    apply processLines_grow.
    rewrite (processLine_scheduled _ _ _ Hm).
    unfold Query.parseScheduledFilter. rewrite Hm, Hinvalid. discriminate.
  - unfold Query.new. rewrite Hlines, map_app, fold_left_app. simpl.
    set (q := fold_left _ (map trim before) _).
    destruct (processLines_grow (map trim after)
                (Query.processLine q (trim line))) as ([more ->] & _).
    rewrite (processLine_scheduled _ _ _ Hm).
    unfold Query.parseScheduledFilter.
    rewrite Hm, Hinvalid, (invalid_moment _ Hinvalid). simpl.
    apply in_or_app. left. apply in_or_app. right. now left.
  - intros q l m t Ht [Hl|[Hl|[Hl|Hl]]].
    + rewrite (processLine_starts _ _ _ Hl).
      unfold Query.parseStartFilter. rewrite Hl, Ht. split; [discriminate|reflexivity].
    + rewrite (processLine_due _ _ _ Hl).
      unfold Query.parseDueFilter. rewrite Hl, Ht. split; [discriminate|reflexivity].
    + rewrite (processLine_done _ _ _ Hl).
      unfold Query.parseDoneFilter. rewrite Hl, Ht. split; [discriminate|reflexivity].
    + rewrite (processLine_happens _ _ _ Hl).
      unfold Query.parseHappensFilter. rewrite Hl, Ht. split; [discriminate|reflexivity].
Qed.

Lemma scheduled_error_still_filters_witness :
  Query.error (Query.new (H := plainHost) "not done
  scheduled after someday
limit 3") <> None
  /\ In (Query.scheduledFilter (Some "after") Moment.Invalid)
        (Query.filters (Query.new (H := plainHost) "not done
  scheduled after someday
limit 3"))
  /\ forall q l m t,
       Moment.isValid (Query.parseDate (H := plainHost) t) = false ->
       Query.startRegexp l = Some (m, t) \/ Query.dueRegexp l = Some (m, t)
       \/ Query.doneRegexp l = Some (m, t)
       \/ Query.happensRegexp l = Some (m, t) ->
       Query.error (Query.processLine (H := plainHost) q l) <> None
       /\ Query.filters (Query.processLine (H := plainHost) q l)
          = Query.filters q.
Proof.
  apply (scheduled_error_still_filters (H := plainHost) _
           ["not done"] ["limit 3"] "  scheduled after someday"
           (Some "after") "someday"); reflexivity.
Defined.

(** ** The life cycle of the indexer *)

Lemma stateWrites_app (l l' : list Cache.Observation) :
  Cache.stateWrites (l ++ l') = (Cache.stateWrites l ++ Cache.stateWrites l')%list.
Proof. apply flat_map_app. Qed.

(** Indexing a document assigns nothing to [state] and leaves the flag. *)
Lemma indexFile_quiet `{Host} (file : Cache.TFile) (c : Cache.t) :
  Cache.stateWrites (snd (Cache.indexFile file c)) = []
  /\ Cache.loadedAfterFirstResolve (Cache.outcome_state (fst (Cache.indexFile file c)))
     = Cache.loadedAfterFirstResolve c
  /\ Cache.state (Cache.outcome_state (fst (Cache.indexFile file c)))
     = Cache.state c.
Proof.
  unfold Cache.indexFile.
  destruct (Cache.file_cache file); [|auto].
  destruct (Cache.scanItems _ _ _ _ _); auto.
Qed.

Lemma indexFiles_quiet `{Host} (files : list Cache.TFile) (c : Cache.t) :
  Cache.stateWrites (snd (fst (Cache.indexFiles files c))) = []
  /\ Cache.loadedAfterFirstResolve (fst (fst (Cache.indexFiles files c)))
     = Cache.loadedAfterFirstResolve c.
Proof.
  revert c. induction files as [|file files IH]; intros c; simpl; [auto|].
  destruct (indexFile_quiet file c) as (Hw & Hflag & _).
  destruct (Cache.indexFile file c) as [o seen]. simpl in *.
  specialize (IH (Cache.outcome_state o)).
  destruct (Cache.indexFiles files (Cache.outcome_state o)) as [[c' seen'] all].
  simpl in *. rewrite stateWrites_app, Hw. destruct IH as [-> ->]. auto.
Qed.

Lemma loadVault_states `{Host} (files : list Cache.TFile) (c : Cache.t) :
  Cache.stateWrites (snd (Cache.loadVault files c))
  = Cache.loadStates (Cache.loadCompletes files c)
  /\ Cache.loadedAfterFirstResolve (fst (Cache.loadVault files c))
     = Cache.loadedAfterFirstResolve c.
Proof.
  unfold Cache.loadVault, Cache.loadCompletes, Cache.loadStates.
  destruct (indexFiles_quiet files
              (Cache.mk Cache.Initializing (Cache.taskblocks c)
                        (Cache.loadedAfterFirstResolve c))) as [Hw Hflag].
  destruct (Cache.indexFiles files _) as [[c' seen] all]. simpl in *.
  destruct all; simpl; rewrite ?stateWrites_app, Hw; auto.
Qed.

Lemma handle_quiet `{Host} (c : Cache.t) (ev : Cache.Event) :
  Cache.isResolved ev = false ->
  Cache.stateWrites (snd (Cache.handle c ev)) = []
  /\ Cache.loadedAfterFirstResolve (fst (Cache.handle c ev))
     = Cache.loadedAfterFirstResolve c.
Proof.
  destruct ev as [files|file|[file|]|[file|]|[file|] oldPath|];
    simpl; try discriminate; intros _; auto.
  all: destruct (indexFile_quiet file c) as (Hw & Hflag & _);
    destruct (Cache.indexFile file c); auto.
Qed.

(** Once the flag is set, no notification assigns to [state] any more. *)
Lemma run_after_first_resolve `{Host} (events : list Cache.Event) (c : Cache.t) :
  Cache.loadedAfterFirstResolve c = true ->
  Cache.stateWrites (snd (Cache.run c events)) = [].
Proof.
  revert c. induction events as [|ev events IH]; intros c Hflag; simpl; [auto|].
  assert (Cache.stateWrites (snd (Cache.handle c ev)) = []
          /\ Cache.loadedAfterFirstResolve (fst (Cache.handle c ev)) = true)
    as [Hw Hflag'].
  { destruct (Cache.isResolved ev) eqn:Hres.
    - destruct ev; try discriminate. simpl. rewrite Hflag. auto.
    - destruct (handle_quiet c ev Hres) as [? ->]. auto. }
  destruct (Cache.handle c ev) as [c' seen]. simpl in *.
  specialize (IH c' Hflag').
  destruct (Cache.run c' events) as [c'' seen']. simpl in *.
  now rewrite stateWrites_app, Hw, IH.
Qed.

(** Before the first [resolved], the handlers assign nothing to [state]
    either. *)
Lemma run_before_resolve `{Host} (events : list Cache.Event) (c : Cache.t) :
  forallb (fun ev => negb (Cache.isResolved ev)) events = true ->
  Cache.stateWrites (snd (Cache.run c events)) = []
  /\ Cache.loadedAfterFirstResolve (fst (Cache.run c events))
     = Cache.loadedAfterFirstResolve c.
Proof.
  revert c. induction events as [|ev events IH]; intros c Hall; simpl; [auto|].
  simpl in Hall. apply andb_true_iff in Hall as [Hev Hall].
  apply negb_true_iff in Hev.
  destruct (handle_quiet c ev Hev) as [Hw Hflag].
  destruct (Cache.handle c ev) as [c' seen]. simpl in *.
  destruct (IH c' Hall) as [Hw' Hflag'].
  destruct (Cache.run c' events) as [c'' seen']. simpl in *.
  rewrite stateWrites_app, Hw, Hw'. split; [reflexivity|congruence].
Qed.

Lemma run_app `{Host} (events events' : list Cache.Event) (c : Cache.t) :
  Cache.run c (events ++ events')
  = (fst (Cache.run (fst (Cache.run c events)) events'),
     (snd (Cache.run c events)
      ++ snd (Cache.run (fst (Cache.run c events)) events'))%list).
Proof.
  revert c. induction events as [|ev events IH]; intros c; simpl.
  - now destruct (Cache.run c events').
  - destruct (Cache.handle c ev) as [c' seen]. rewrite IH.
    destruct (Cache.run c' events) as [c'' seen']. simpl.
    now rewrite app_assoc.
Qed.

(** C7, as the code has it. [state] is [Cold] at first. A load of the whole
    vault runs at construction and once more at the first [resolved], and at
    no other time; each load assigns [Initializing] and, when all its
    documents were indexed, [Warm]. Up to the first [resolved] the history is
    that of the first load; from the first [resolved] on it is that of the
    two loads, whatever follows, later [resolved] included. *)
Theorem lifecycle `{Host} (markdownFiles : list Cache.TFile)
    (pre : list Cache.Event) (files : list Cache.TFile)
    (post : list Cache.Event) :
  forallb (fun ev => negb (Cache.isResolved ev)) pre = true ->
  let c0 := Cache.mk Cache.Cold [] false in
  let c := fst (Cache.life markdownFiles pre) in
  Cache.stateHistory (snd (Cache.life markdownFiles pre))
  = Cache.Cold :: Cache.loadStates (Cache.loadCompletes markdownFiles c0)
  /\ Cache.stateHistory
       (snd (Cache.life markdownFiles (pre ++ Cache.resolved files :: post)))
     = (Cache.Cold :: Cache.loadStates (Cache.loadCompletes markdownFiles c0)
        ++ Cache.loadStates
             (Cache.loadCompletes files
                (Cache.mk (Cache.state c) (Cache.taskblocks c) true)))%list.
Proof.
  intros Hpre c0 c. subst c. unfold Cache.life, Cache.stateHistory, Cache.new.
  fold c0.
  destruct (loadVault_states markdownFiles c0) as [Hw0 Hflag0].
  destruct (Cache.loadVault markdownFiles c0) as [c1 seen1]. simpl in *.
  destruct (run_before_resolve pre c1 Hpre) as [Hw1 Hflag1].
  rewrite run_app.
  destruct (Cache.run c1 pre) as [c2 seen2]. simpl in *.
  rewrite stateWrites_app, Hw0, Hw1, app_nil_r. split; [reflexivity|].
  assert (Cache.loadedAfterFirstResolve c2 = false) as Hflag2 by congruence.
  rewrite Hflag2. simpl.
  set (c2' := Cache.mk (Cache.state c2) (Cache.taskblocks c2) true).
  destruct (loadVault_states files c2') as [Hw2 Hflag3].
  destruct (Cache.loadVault files c2') as [c3 seen3]. simpl in *.
  pose proof (run_after_first_resolve post c3 Hflag3) as Hw3.
  destruct (Cache.run c3 post) as [c4 seen4]. simpl in *.
  rewrite !stateWrites_app, Hw0, Hw1, Hw2, Hw3, app_nil_r. reflexivity.
Qed.

Lemma lifecycle_witness :
  Cache.stateHistory
    (snd (Cache.life (H := plainHost) [] [Cache.requestCacheUpdate]))
  = [Cache.Cold; Cache.Initializing; Cache.Warm]
  /\ Cache.stateHistory
       (snd (Cache.life (H := plainHost) []
               [Cache.requestCacheUpdate; Cache.resolved [];
                Cache.resolved []; Cache.delete (Cache.File (emptyFile "a.md"))]))
     = [Cache.Cold; Cache.Initializing; Cache.Warm;
        Cache.Initializing; Cache.Warm].
Proof.
  apply (lifecycle (H := plainHost) [] [Cache.requestCacheUpdate] []
           [Cache.resolved []; Cache.delete (Cache.File (emptyFile "a.md"))]).
  reflexivity.
Defined.

(** C7, as stated, fails: the first [resolved] after the load of the
    construction takes [state] from [Warm] back to [Initializing]. *)
Lemma resolved_leaves_warm :
  Cache.stateHistory
    (snd (Cache.life (H := plainHost) [] [Cache.resolved []]))
  = [Cache.Cold; Cache.Initializing; Cache.Warm;
     Cache.Initializing; Cache.Warm].
Proof. reflexivity. Qed.

(** ** The grouping of [indexFile] *)

(** The two scenarios of the specification: two top-level tasks make two
    blocks of one task, a task and its child make one block of two. *)
Lemma two_top_level_tasks `{Host} (taskA taskB : Task) :
  Task_fromLine (Some "- [ ] task A") "a.md" 0 0 None 0 (-1) = Ok (Some taskA) ->
  Task_fromLine (Some "- [ ] task B") "a.md" 0 1 None 1 (-1) = Ok (Some taskB) ->
  Cache.taskblocks (Cache.outcome_state (fst (Cache.indexFile twoTasksFile emptyIndex)))
  = [mkTaskBlock [taskA]; mkTaskBlock [taskB]].
Proof.
  intros HA HB. unfold Cache.indexFile. simpl.
  unfold Cache.scanItem, index. simpl. rewrite HA. simpl.
  unfold Cache.scanItem, index. simpl. change (0 + 1) with 1.
  rewrite HB. reflexivity.
Qed.

Lemma parent_and_child `{Host} (parentTask childTask : Task) :
  Task_fromLine (Some "- [ ] parent") "a.md" 0 0 None 0 (-1) = Ok (Some parentTask) ->
  Task_fromLine (Some "  - [ ] child") "a.md" 0 1 None 1 0 = Ok (Some childTask) ->
  Cache.taskblocks (Cache.outcome_state (fst (Cache.indexFile parentChildFile emptyIndex)))
  = [mkTaskBlock [parentTask; childTask]].
Proof.
  intros HP HC. unfold Cache.indexFile. simpl.
  unfold Cache.scanItem, index. simpl. rewrite HP. simpl.
  unfold Cache.scanItem, index. simpl. change (0 + 1) with 1.
  rewrite HC. reflexivity.
Qed.

Lemma getSection_covers line sections section :
  Cache.getSection line sections = Some section ->
  (Cache.section_end section <? line) = false.
Proof.
  unfold Cache.getSection. destruct sections as [ss|]; [|discriminate].
  intros Hf. apply find_some in Hf as [_ Hc].
  apply andb_true_iff in Hc as [_ Hc]. apply Z.ltb_ge. apply Z.geb_le in Hc. lia.
Qed.

Lemma parsesInSection_tail `{Host} file md sec headerOf parsed offset item items :
  parsesInSection file md sec headerOf parsed offset (item :: items) ->
  parsesInSection file md sec headerOf parsed (S offset) items.
Proof.
  intros Hone i it Hi. specialize (Hone (S i) it Hi).
  replace (S offset + i)%nat with (offset + S i)%nat by lia. exact Hone.
Qed.

Lemma flaggedTasks_cons parsed offset item items :
  flaggedTasks parsed offset (item :: items)
  = (Cache.item_parent item =? -1, parsed offset) :: flaggedTasks parsed (S offset) items.
Proof.
  unfold flaggedTasks. simpl. rewrite Nat.add_0_r. f_equal.
  apply imap_ext. intros i x _. simpl. f_equal. f_equal. lia.
Qed.

Lemma enterSection_inside md item s sec :
  Cache.currentSection s = Some sec ->
  Cache.getSection (Cache.item_line item) (Cache.sections md) = Some sec ->
  Cache.enterSection md item s = s.
Proof.
  intros Hcur Hsec. unfold Cache.enterSection.
  rewrite Hcur, (getSection_covers _ _ _ Hsec). reflexivity.
Qed.

Lemma scanItem_task `{Host} file md lines s item isLast sec header task :
  Cache.item_task item <> None ->
  Cache.currentSection (Cache.enterSection md item s) = Some sec ->
  Cache.getPrecedingHeader (Cache.item_line item) (Cache.sections md) lines
  = Ok header ->
  Task_fromLine (index lines (Cache.item_line item)) (Cache.file_path file)
    (Cache.section_start sec)
    (Cache.scan_sectionIndex (Cache.enterSection md item s)) header
    (Cache.currentID (Cache.enterSection md item s)) (Cache.item_parent item)
  = Ok (Some task) ->
  Cache.scanItem file md lines s item isLast
  = Ok (Cache.nextItem
          (Cache.groupTask item isLast task (Cache.enterSection md item s))).
Proof.
  intros Htask Hcur Hhead Hparse. unfold Cache.scanItem.
  destruct (Cache.item_task item); [|easy].
  rewrite Hcur, Hhead. simpl. rewrite Hparse. reflexivity.
Qed.

Lemma nextItem_groupTask item isLast task sec (i : Z) current done :
  Cache.nextItem
    (Cache.groupTask item isLast task
       (Cache.mkScan (Some sec) i i (mkTaskBlock current) false
                     (map Cache.Settled done)))
  = Cache.mkScan (Some sec) (i + 1) (i + 1)
      (mkTaskBlock (if Cache.item_parent item =? -1
                    then [task] else current ++ [task])%list)
      false
      (map Cache.Settled
           (if Cache.item_parent item =? -1
            then done ++ [mkTaskBlock current] else done)
       ++ (if isLast then [Cache.Current] else []))%list.
Proof.
  unfold Cache.groupTask. simpl. rewrite andb_true_r.
  destruct (Cache.item_parent item =? -1), isLast;
    unfold Cache.nextItem, Cache.pushCurrent, Cache.pushTask, Cache.renewBlock;
    simpl; rewrite ?map_app, ?map_map, ?app_nil_r; reflexivity.
Qed.

Lemma scanItems_groups `{Host} file md sec headerOf parsed items :
  forall offset current done,
  items <> [] ->
  parsesInSection file md sec headerOf parsed offset items ->
  exists s,
    Cache.scanItems file md (splitLines (Cache.file_content file)) items
      (Cache.mkScan (Some sec) (Z.of_nat offset) (Z.of_nat offset)
                    (mkTaskBlock current) false (map Cache.Settled done))
    = Cache.Completed s
    /\ Cache.scanned s
       = (done ++ groupFrom current (flaggedTasks parsed offset items))%list.
Proof.
  induction items as [|item rest IH]; intros offset current done Hne Hone; [easy|].
  destruct (Hone 0%nat item eq_refl) as (Htask & Hsec & Hhead & Hparse).
  rewrite Nat.add_0_r in Hparse.
  rewrite flaggedTasks_cons. simpl Cache.scanItems.
  set (s0 := Cache.mkScan _ _ _ _ _ _).
  assert (Cache.enterSection md item s0 = s0) as Henter
    by now apply enterSection_inside with (sec := sec).
  rewrite (scanItem_task file md _ s0 item _ sec (headerOf item) (parsed offset));
    rewrite ?Henter; try assumption; try reflexivity.
  unfold s0. rewrite nextItem_groupTask.
  replace (Z.of_nat offset + 1) with (Z.of_nat (S offset)) by lia.
  destruct rest as [|item' rest'].
  - eexists. split; [reflexivity|].
    unfold Cache.scanned. simpl.
    rewrite map_app, map_map. simpl. rewrite map_id.
    destruct (Cache.item_parent item =? -1); simpl;
      rewrite <- ?app_assoc; reflexivity.
  - apply parsesInSection_tail in Hone. rewrite app_nil_r.
    destruct (Cache.item_parent item =? -1).
    + destruct (IH (S offset) [parsed offset] (done ++ [mkTaskBlock current])%list
                  ltac:(easy) Hone) as (s & Hs & Hscanned).
      exists s. split; [exact Hs|].
      rewrite Hscanned, <- app_assoc. reflexivity.
    + destruct (IH (S offset) (current ++ [parsed offset])%list done
                  ltac:(easy) Hone) as (s & Hs & Hscanned).
      exists s. split; [exact Hs|exact Hscanned].
Qed.

(** When the last list item is itself a task that parses, [indexFile] does
    group as the specification says: a document whose list items are all
    check-list items of one list section, each of which parses, leaves the
    blocks of the other documents followed by the groups of its tasks. *)
Lemma indexFile_groups `{Host} (file : Cache.TFile)
    (metadata : Cache.CachedMetadata) (items : list Cache.ListItemCache)
    (section : Cache.SectionCache)
    (headerOf : Cache.ListItemCache -> option string) (parsed : nat -> Task)
    (c : Cache.t) :
  Cache.file_cache file = Some metadata ->
  Cache.listItems metadata = Some items ->
  parsesInSection file metadata section headerOf parsed 0 items ->
  exists c',
    Cache.indexFile file c = (Cache.Completed c', Cache.notifySubscribers c')
    /\ Cache.state c' = Cache.state c
    /\ Cache.taskblocks c'
       = (Cache.removeFile (Cache.file_path file) (Cache.taskblocks c)
          ++ grouped (flaggedTasks parsed 0 items))%list.
Proof.
  intros Hmd Hitems Hone. unfold Cache.indexFile. rewrite Hmd, Hitems.
  set (kept := Cache.removeFile _ _).
  destruct items as [|item rest].
  - simpl. eexists. split; [reflexivity|]. split; [reflexivity|].
    unfold Cache.scanned. simpl. rewrite map_map. simpl.
    now rewrite map_id, app_nil_r.
  - destruct (Hone 0%nat item eq_refl) as (Htask & Hsec & Hhead & Hparse).
    simpl in Hparse. rewrite flaggedTasks_cons. simpl Cache.scanItems.
    assert (Cache.enterSection metadata item (Cache.startScan kept)
            = Cache.mkScan (Some section) 0 0 TaskBlock_new true
                           (map Cache.Settled kept)) as Henter.
    { unfold Cache.enterSection. simpl. now rewrite Hsec. }
    rewrite (scanItem_task file metadata _ _ item _ section (headerOf item)
               (parsed 0%nat));
      rewrite ?Henter; try assumption; try reflexivity.
    apply parsesInSection_tail in Hone.
    destruct rest as [|item' rest'].
    + simpl. eexists. split; [reflexivity|]. split; [reflexivity|].
      unfold Cache.scanned, Cache.groupTask. simpl. rewrite andb_false_r. simpl.
      rewrite map_app, map_map. simpl. now rewrite map_id.
    + assert (Cache.nextItem
                (Cache.groupTask item false (parsed 0%nat)
                   (Cache.mkScan (Some section) 0 0 TaskBlock_new true
                                 (map Cache.Settled kept)))
              = Cache.mkScan (Some section) (Z.of_nat 1) (Z.of_nat 1)
                             (mkTaskBlock [parsed 0%nat]) false
                             (map Cache.Settled kept)) as ->.
      { unfold Cache.groupTask. simpl. rewrite andb_false_r. reflexivity. }
      destruct (scanItems_groups file metadata section headerOf parsed
                  (item' :: rest') 1%nat [parsed 0%nat] kept ltac:(easy) Hone)
        as (s & -> & Hscanned).
      eexists. split; [reflexivity|]. split; [reflexivity|]. exact Hscanned.
Qed.

(** The lemma at work on the document of a task and its child. *)
Lemma indexFile_groups_parent_and_child :
  exists c',
    Cache.indexFile (H := plainHost) parentChildFile emptyIndex
    = (Cache.Completed c', Cache.notifySubscribers c')
    /\ length (Cache.taskblocks c') = 1%nat
    /\ map (fun block => map description (tasks block)) (Cache.taskblocks c')
       = [["parent"; "child"]].
Proof.
  destruct (indexFile_groups (H := plainHost) parentChildFile
              (Cache.mkMetadata
                 (Some [Cache.mkListItem (Some " ") 0 (-1);
                        Cache.mkListItem (Some " ") 1 0])
                 oneListSection)
              [Cache.mkListItem (Some " ") 0 (-1); Cache.mkListItem (Some " ") 1 0]
              (Cache.mkSection "list" 0 1) (fun _ => None)
              (fun i => match i with
                        | O => mkTask Todo "parent" "a.md" "" 0 0 0 (-1) None
                                      NoPriority None None None None None 0
                        | _ => mkTask Todo "child" "a.md" "  " 0 1 1 0 None
                                      NoPriority None None None None None 0
                        end)
              emptyIndex eq_refl eq_refl) as (c' & Hc' & _ & Hblocks).
  - intros [|[|i]] item; simpl; intros [= <-]; repeat split; try easy.
  - exists c'. split; [exact Hc'|]. rewrite Hblocks. split; reflexivity.
Qed.

(** C9. When the last list item of the document is not a task, the block
    that was accumulated is never stored: the test for the last item sits
    inside the branch of the items that are tasks. A document with one task
    followed by a plain list item leaves the index without a block. *)
Theorem trailing_item_loses_block `{Host} (taskA : Task) :
  Task_fromLine (Some "- [ ] task A") "a.md" 0 0 None 0 (-1) = Ok (Some taskA) ->
  Cache.indexFile trailingNoteFile emptyIndex
  = (Cache.Completed emptyIndex, [Cache.CacheUpdate [] Cache.Warm]).
Proof.
  intros HA. unfold Cache.indexFile. simpl.
  unfold Cache.scanItem, index. simpl. rewrite HA. reflexivity.
Qed.

Lemma trailing_item_loses_block_witness :
  Cache.indexFile (H := plainHost) trailingNoteFile emptyIndex
  = (Cache.Completed emptyIndex, [Cache.CacheUpdate [] Cache.Warm]).
Proof.
  apply (trailing_item_loses_block (H := plainHost)
           (mkTask Todo "task A" "a.md" "" 0 0 0 (-1) None NoPriority
                   None None None None None 0)).
  reflexivity.
Defined.

(** * Further properties of the ordering engine *)

(** X1. [compareByDate] is antisymmetric and answers -1, 0 or 1: swapping
    the two dates negates the answer, invalid moments included. *)
Theorem compareByDate_antisymmetric (a b : option Moment.t) :
  Sort.compareByDate a b = - Sort.compareByDate b a
  /\ -1 <= Sort.compareByDate a b <= 1.
Proof.
  destruct a as [[x|]|], b as [[y|]|]; simpl; try lia.
  rewrite !Z.gtb_ltb.
  destruct (Z.ltb_spec y x), (Z.ltb_spec x y); lia.
Qed.

(** The first element of a sorted array is one the comparator puts after
    none, when the comparator is total and transitive on the elements. *)
Lemma sortBy_head_least {A : Type} (cmp : A -> A -> Z) (P : A -> Prop)
    (l : list A) (h : A) :
  (forall a b, P a -> P b -> cmp a b > 0 -> cmp b a <= 0) ->
  (forall a b c, P a -> P b -> P c ->
                 cmp a b <= 0 -> cmp b c <= 0 -> cmp a c <= 0) ->
  (forall a, In a l -> P a) ->
  index (Sort.sortBy cmp l) 0 = Some h ->
  leastBy cmp h l.
Proof.
  intros Htotal Htrans. revert h.
  induction l as [|x l IH]; intros h HP Hh; [discriminate|].
  assert (P x) as HPx by (apply HP; now left).
  assert (cmp x x <= 0) as Hxx.
  { destruct (Z_le_gt_dec (cmp x x) 0) as [|Hgt]; [assumption|].
    now apply Htotal. }
  simpl in Hh. destruct (Sort.sortBy cmp l) as [|h0 t] eqn:Hsorted.
  - destruct l as [|y l]; [|now destruct (insertBy_not_nil cmp y (Sort.sortBy cmp l))].
    injection Hh as <-. split; [now left|].
    intros y [<-|[]]. exact Hxx.
  - destruct (IH h0 (fun a Ha => HP a (or_intror Ha)) eq_refl) as [Hin Hleast].
    assert (P h0) as HPh0 by (apply HP; now right).
    simpl in Hh. destruct (Z.leb_spec (cmp x h0) 0) as [Hle|Hgt];
      injection Hh as <-.
    + split; [now left|]. intros y [<-|Hy]; [exact Hxx|].
      apply (Htrans x h0 y); auto. apply HP. now right.
    + split; [now right|]. intros y [<-|Hy]; [|now apply Hleast].
      apply Htotal; auto. lia.
Qed.

Lemma highest_spec (key : Task -> Z) (t : Task) (l : list Task) :
  (forall y, In y (t :: l) -> key y <= highest key t l)
  /\ exists y, In y (t :: l) /\ key y = highest key t l.
Proof.
  revert t. induction l as [|t' l IH]; intros t; simpl.
  - split; [intros y [<-|[]]; lia|]. exists t. auto.
  - destruct (IH t') as [Hle (y & Hy & Hkey)]. split.
    + intros z [<-|Hz]; [lia|]. specialize (Hle z Hz). lia.
    + destruct (Z.max_spec (key t) (highest key t' l)) as [[_ ->]|[_ ->]].
      * exists y. auto.
      * exists t. auto.
Qed.

(** An element whose key no other exceeds has the highest key. *)
Lemma highest_attained (key : Task -> Z) (h t : Task) (l : list Task) :
  In h (t :: l) -> (forall y, In y (t :: l) -> key y <= key h) ->
  key h = highest key t l.
Proof.
  intros Hin Hmax. destruct (highest_spec key t l) as [Hle (y & Hy & Hkey)].
  specialize (Hle h Hin). specialize (Hmax y Hy). lia.
Qed.

(** X2. [compareByUrgency] puts an empty first block before any block, an
    empty second block after a non-empty first one, and orders two non-empty
    blocks by the highest urgency of their tasks, the more urgent first. *)
Theorem compareByUrgency_highest (a b : TaskBlock) :
  Sort.compareByUrgency a b
  = match tasks a, tasks b with
    | [], _ => Ok (-1)
    | _ :: _, [] => Ok 1
    | x :: l, y :: l' => Ok (highest urgency y l' - highest urgency x l)
    end.
Proof.
  unfold Sort.compareByUrgency.
  destruct (tasks a) as [|x l], (tasks b) as [|y l']; try reflexivity.
  set (cmp := fun at_ bt : Task => urgency bt - urgency at_).
  assert (forall (z : Task) (m : list Task) (h : Task),
             index (Sort.sortBy cmp (z :: m)) 0 = Some h ->
             urgency h = highest urgency z m) as Hhead.
  { intros z m h Hh.
    destruct (sortBy_head_least cmp (fun _ => True) (z :: m) h) as [Hin Hleast];
      auto; unfold cmp; try (intros; lia).
    apply highest_attained; [exact Hin|].
    intros w Hw. specialize (Hleast w Hw). unfold cmp in Hleast. lia. }
  simpl length. simpl Nat.ltb.
  destruct (insertBy_first cmp x (Sort.sortBy cmp l)) as [ha Ha].
  destruct (insertBy_first cmp y (Sort.sortBy cmp l')) as [hb Hb].
  change (Sort.insertBy cmp x (Sort.sortBy cmp l)) with (Sort.sortBy cmp (x :: l)) in Ha.
  change (Sort.insertBy cmp y (Sort.sortBy cmp l')) with (Sort.sortBy cmp (y :: l')) in Hb.
  cbv iota. fold cmp. rewrite Ha, Hb. unfold Sort.onTasks, cmp. simpl.
  rewrite (Hhead _ _ _ Ha), (Hhead _ _ _ Hb). reflexivity.
Qed.

Lemma countDone_bounds (arr : list Status) (acc : Z) :
  let count :=
    fold_left (fun acc s => acc + (if Status_eqb s Done then 1 else 0)) arr acc in
  acc <= count <= acc + Z.of_nat (length arr)
  /\ (count = acc + Z.of_nat (length arr)
      <-> forallb (fun s => Status_eqb s Done) arr = true).
Proof.
  revert acc. induction arr as [|s arr IH]; intros acc; simpl.
  - split; [lia|]. split; [reflexivity|lia].
  - specialize (IH (acc + (if Status_eqb s Done then 1 else 0))).
    simpl in IH. destruct IH as [Hb Hiff].
    destruct (Status_eqb s Done); simpl.
    + split; [lia|]. rewrite <- Hiff. lia.
    + split; [lia|]. split; [lia|discriminate].
Qed.

Lemma forallb_status (l : list Task) :
  forallb (fun s => Status_eqb s Done) (map status l)
  = forallb (fun t => Status_eqb (status t) Done) l.
Proof. induction l as [|t l IH]; simpl; [reflexivity|now rewrite IH]. Qed.

Lemma getScore_fullyDone (tb : TaskBlock) :
  Sort.getScore (map status (tasks tb)) = fullyDone tb.
Proof.
  unfold Sort.getScore, fullyDone.
  destruct (countDone_bounds (map status (tasks tb)) 0) as [_ Hiff].
  simpl in Hiff. rewrite forallb_status in Hiff.
  destruct (forallb _ (tasks tb)).
  - apply Z.eqb_eq. now apply Hiff.
  - apply Z.eqb_neq. intros Heq. apply Hiff in Heq. discriminate.
Qed.

(** X3. [compareByStatus] only tells the blocks whose tasks are all done
    from the others: such a block goes after a block with a task that is not
    done, and two blocks of the same kind compare equal. A block without
    tasks counts as all done. *)
Theorem compareByStatus_fully_done (a b : TaskBlock) :
  Sort.compareByStatus a b
  = Ok (Z.b2z (fullyDone a) - Z.b2z (fullyDone b))
  /\ fullyDone TaskBlock_new = true.
Proof.
  split; [|reflexivity].
  unfold Sort.compareByStatus. rewrite !getScore_fullyDone.
  destruct (fullyDone a), (fullyDone b); reflexivity.
Qed.

Lemma localeCompare_rank (s t : Task) :
  localeCompare (Priority_value (priority s)) (Priority_value (priority t))
  = Z.sgn (rankOf t - rankOf s).
Proof. unfold rankOf. destruct (priority s), (priority t); reflexivity. Qed.

(** X4. [compareByPriority] orders two non-empty blocks by the highest
    ranked priority among their tasks, the higher first; it raises when one
    of them has no task. *)
Theorem compareByPriority_highest (a b : TaskBlock) :
  Sort.compareByPriority a b
  = match tasks a, tasks b with
    | x :: l, y :: l' => Ok (Z.sgn (highest rankOf y l' - highest rankOf x l))
    | _, _ => Throw TypeError
    end.
Proof.
  unfold Sort.compareByPriority.
  set (cmp := fun at_ bt : Task =>
                localeCompare (Priority_value (priority at_))
                              (Priority_value (priority bt))).
  destruct (tasks a) as [|x l], (tasks b) as [|y l']; try reflexivity.
  - unfold Sort.onTasks. simpl. now destruct (index _ 0).
  - assert (forall (z : Task) (m : list Task) (h : Task),
               index (Sort.sortBy cmp (z :: m)) 0 = Some h ->
               rankOf h = highest rankOf z m) as Hhead.
    { intros z m h Hh.
      destruct (sortBy_head_least cmp (fun _ => True) (z :: m) h) as [Hin Hleast];
        auto; unfold cmp; try (intros; rewrite localeCompare_rank in *; lia).
      apply highest_attained; [exact Hin|].
      intros w Hw. specialize (Hleast w Hw). unfold cmp in Hleast.
      rewrite localeCompare_rank in Hleast. lia. }
    destruct (insertBy_first cmp x (Sort.sortBy cmp l)) as [ha Ha].
    destruct (insertBy_first cmp y (Sort.sortBy cmp l')) as [hb Hb].
    change (Sort.insertBy cmp x (Sort.sortBy cmp l))
      with (Sort.sortBy cmp (x :: l)) in Ha.
    change (Sort.insertBy cmp y (Sort.sortBy cmp l'))
      with (Sort.sortBy cmp (y :: l')) in Hb.
    rewrite Ha, Hb. unfold Sort.onTasks, cmp. simpl.
    rewrite localeCompare_rank, (Hhead _ _ _ Ha), (Hhead _ _ _ Hb). reflexivity.
Qed.

Lemma compareByDate_transitive (a b c : option Moment.t) :
  a <> Some Moment.Invalid -> b <> Some Moment.Invalid ->
  c <> Some Moment.Invalid ->
  Sort.compareByDate a b <= 0 -> Sort.compareByDate b c <= 0 ->
  Sort.compareByDate a c <= 0.
Proof.
  destruct a as [[x|]|], b as [[y|]|], c as [[z|]|]; simpl;
    try congruence; try lia.
  rewrite !Z.gtb_ltb.
  destruct (Z.ltb_spec y x), (Z.ltb_spec x y), (Z.ltb_spec z y),
    (Z.ltb_spec y z), (Z.ltb_spec z x), (Z.ltb_spec x z); lia.
Qed.

(** What the three comparators of start, scheduled and due date have in
    common: the first elements of the two arrays sorted by the date. *)
Lemma compare_earliest (date : Task -> option Moment.t) (a b : TaskBlock) :
  tasks a <> [] -> tasks b <> [] ->
  datesValid date a -> datesValid date b ->
  let cmp := fun s t : Task => Sort.compareByDate (date s) (date t) in
  exists ta tb,
    leastBy cmp ta (tasks a) /\ leastBy cmp tb (tasks b)
    /\ Sort.onTasks cmp (index (Sort.sortBy cmp (tasks a)) 0)
                        (index (Sort.sortBy cmp (tasks b)) 0)
       = Ok (Sort.compareByDate (date ta) (date tb)).
Proof.
  intros Ha Hb Hva Hvb cmp.
  assert (forall (tb : TaskBlock), tasks tb <> [] -> datesValid date tb ->
            exists h, index (Sort.sortBy cmp (tasks tb)) 0 = Some h
                      /\ leastBy cmp h (tasks tb)) as Hhead.
  { intros tb Hne Hvalid. destruct (tasks tb) as [|x l] eqn:Htb; [easy|].
    destruct (insertBy_first cmp x (Sort.sortBy cmp l)) as [h Hh].
    change (Sort.insertBy cmp x (Sort.sortBy cmp l))
      with (Sort.sortBy cmp (x :: l)) in Hh.
    exists h. split; [exact Hh|].
    apply (sortBy_head_least cmp (fun t => date t <> Some Moment.Invalid));
      try assumption.
    - intros s t _ _ Hgt. unfold cmp in *.
      destruct (compareByDate_antisymmetric (date s) (date t)) as [Heq _]. lia.
    - intros s t u Hs Ht Hu. unfold cmp. now apply compareByDate_transitive.
    - intros t Ht. apply Hvalid. now rewrite Htb. }
  destruct (Hhead a Ha Hva) as (ta & Hta & Hleast_a).
  destruct (Hhead b Hb Hvb) as (tb & Htb & Hleast_b).
  exists ta, tb. rewrite Hta, Htb. auto.
Qed.

(** X5. On two non-empty blocks whose dates are valid, the comparators of
    start, scheduled and due date compare, with [compareByDate], a task of
    the first block and a task of the second whose date of that kind is an
    earliest one of its block, a date that is there counting as earlier than
    one that is not. *)
Theorem compareByDates_earliest (a b : TaskBlock) :
  tasks a <> [] -> tasks b <> [] ->
  (forall date, In date [startDate; scheduledDate; dueDate] ->
                datesValid date a /\ datesValid date b) ->
  forall date comparator,
    In (date, comparator)
       [(startDate, Sort.compareByStartDate);
        (scheduledDate, Sort.compareByScheduledDate);
        (dueDate, Sort.compareByDueDate)] ->
    let cmp := fun s t : Task => Sort.compareByDate (date s) (date t) in
    exists ta tb,
      leastBy cmp ta (tasks a) /\ leastBy cmp tb (tasks b)
      /\ comparator a b = Ok (Sort.compareByDate (date ta) (date tb)).
Proof.
  intros Ha Hb Hvalid date comparator Hin.
  assert (datesValid date a /\ datesValid date b) as [Hva Hvb].
  { apply Hvalid. simpl in Hin. simpl.
    destruct Hin as [[= <- _]|[[= <- _]|[[= <- _]|[]]]]; auto. }
  pose proof (compare_earliest date a b Ha Hb Hva Hvb) as Hgen.
  simpl in Hin. destruct Hin as [[= <- <-]|[[= <- <-]|[[= <- <-]|[]]]];
    exact Hgen.
Qed.

Lemma compareByDates_earliest_witness :
  let a := mkTaskBlock [taskDue (Some 19730); taskDue (Some 19723)] in
  let b := mkTaskBlock [taskDue None; taskDue (Some 19725); taskDue (Some 19740)] in
  let cmp := fun s t : Task => Sort.compareByDate (dueDate s) (dueDate t) in
  exists ta tb,
    leastBy cmp ta (tasks a) /\ leastBy cmp tb (tasks b)
    /\ Sort.compareByDueDate a b = Ok (Sort.compareByDate (dueDate ta) (dueDate tb)).
Proof.
  apply (compareByDates_earliest
           (mkTaskBlock [taskDue (Some 19730); taskDue (Some 19723)])
           (mkTaskBlock [taskDue None; taskDue (Some 19725);
                         taskDue (Some 19740)])).
  - discriminate.
  - discriminate.
  - intros date Hin. split; intros t Ht; simpl in Hin, Ht;
      destruct Hin as [<-|[<-|[<-|[]]]];
      repeat (destruct Ht as [<-|Ht]; [cbv; discriminate|]); destruct Ht.
  - right. right. now left.
Defined.

(** There the earliest due dates are day 19723 and day 19725, the task
    without due date counting as later, and the first block goes first. *)
Example compareByDueDate_on_dated_blocks :
  Sort.compareByDueDate
    (mkTaskBlock [taskDue (Some 19730); taskDue (Some 19723)])
    (mkTaskBlock [taskDue None; taskDue (Some 19725); taskDue (Some 19740)])
  = Ok (-1).
Proof. reflexivity. Qed.

(** X6. [compareByPath] answers 0 as soon as one of the blocks has no task;
    otherwise it orders the blocks by the paths of their first tasks, code
    unit by code unit. Swapping the blocks negates the answer. *)
Theorem compareByPath_first_paths (a b : TaskBlock) :
  Sort.compareByPath a b
  = Ok (match tasks a, tasks b with
        | ta :: _, tb :: _ =>
            match String.compare (path ta) (path tb) with
            | Lt => -1
            | Eq => 0
            | Gt => 1
            end
        | _, _ => 0
        end)
  /\ exists r, Sort.compareByPath a b = Ok r /\ Sort.compareByPath b a = Ok (- r).
Proof.
  unfold Sort.compareByPath, str_lt, str_gt, String.ltb.
  destruct (tasks a) as [|ta la], (tasks b) as [|tb lb];
    try (split; [reflexivity|exists 0; split; reflexivity]).
  rewrite (String.compare_antisym (path tb) (path ta)).
  destruct (String.compare (path ta) (path tb)); simpl;
    (split; [reflexivity|eexists; split; reflexivity]).
Qed.

(** X7. A reversed comparator negates the answer of the comparator and
    raises when it raises; reversing twice gives the comparator back. *)
Theorem makeReversedComparator_involutive (comparator : Sort.Comparator)
    (a b : TaskBlock) :
  Sort.makeReversedComparator comparator a b
  = match comparator a b with
    | Ok r => Ok (- r)
    | Throw e => Throw e
    end
  /\ Sort.makeReversedComparator (Sort.makeReversedComparator comparator) a b
     = comparator a b.
Proof.
  unfold Sort.makeReversedComparator.
  destruct (comparator a b) as [r|e]; simpl; [|auto].
  split; f_equal; lia.
Qed.

Lemma makeCompositeComparator_append (first second : list Sort.Comparator)
    (a b : TaskBlock) :
  Sort.makeCompositeComparator (first ++ second) a b
  = match Sort.makeCompositeComparator first a b with
    | Ok r => if r =? 0 then Sort.makeCompositeComparator second a b else Ok r
    | Throw e => Throw e
    end.
Proof.
  induction first as [|comparator first IH]; simpl; [reflexivity|].
  destruct (comparator a b) as [r|e]; simpl; [|reflexivity].
  destruct (Z.eqb_spec r 0) as [->|Hr]; simpl; [exact IH|].
  destruct (Z.eqb_spec r 0); [contradiction|reflexivity].
Qed.

Lemma makeCompositeComparator_ties (comparators : list Sort.Comparator)
    (a b : TaskBlock) :
  Forall (fun comparator => comparator a b = Ok 0) comparators ->
  Sort.makeCompositeComparator comparators a b = Ok 0.
Proof.
  induction 1 as [|comparator rest Hc _ IH]; simpl; [reflexivity|].
  rewrite Hc. simpl. exact IH.
Qed.

Lemma makeCompositeComparator_decides (comparator : Sort.Comparator)
    (after : list Sort.Comparator) (a b : TaskBlock) :
  comparator a b <> Ok 0 ->
  Sort.makeCompositeComparator (comparator :: after) a b = comparator a b.
Proof.
  intros Hc. simpl. destruct (comparator a b) as [r|e]; simpl; [|reflexivity].
  destruct (Z.eqb_spec r 0) as [->|Hr]; [contradiction|reflexivity].
Qed.

(** X8. A composite comparator answers what the first of its comparators
    that does not answer 0 answers, a number or an exception, whatever the
    comparators after that one are; when all of them answer 0, so does the
    composite. In [Sort.by] the user's criteria come before the fallback
    chain: the first of them that does not answer 0 decides, and when all of
    them answer 0 the fallback chain decides. *)
Theorem makeCompositeComparator_first_answer `{Host}
    (before after : list Sort.Comparator) (comparator : Sort.Comparator)
    (a b : TaskBlock) :
  Forall (fun earlier => earlier a b = Ok 0) before ->
  comparator a b <> Ok 0 ->
  Sort.makeCompositeComparator before a b = Ok 0
  /\ Sort.makeCompositeComparator (before ++ comparator :: after) a b
     = comparator a b
  /\ (forall sorting,
        Sort.userComparators sorting = (before ++ comparator :: after)%list ->
        Sort.comparatorOf sorting a b = comparator a b)
  /\ (forall sorting,
        Sort.userComparators sorting = before ->
        Sort.comparatorOf sorting a b
        = Sort.makeCompositeComparator Sort.defaultComparators a b).
Proof.
  intros Hties Hdecides.
  pose proof (makeCompositeComparator_ties before a b Hties) as Hbefore.
  assert (forall rest,
             Sort.makeCompositeComparator (before ++ comparator :: rest) a b
             = comparator a b) as Hfirst.
  { intros rest. rewrite makeCompositeComparator_append, Hbefore.
    change (0 =? 0) with true. cbv iota.
    now apply makeCompositeComparator_decides. }
  split; [exact Hbefore|]. split; [apply Hfirst|]. split.
  - intros sorting Huser. unfold Sort.comparatorOf. rewrite Huser.
    rewrite <- app_assoc. apply Hfirst.
  - intros sorting Huser. unfold Sort.comparatorOf. rewrite Huser.
    rewrite makeCompositeComparator_append, Hbefore. reflexivity.
Qed.

Lemma makeCompositeComparator_first_answer_witness :
  let a := blockOfUrgency 1 in
  let b := blockOfUrgency 5 in
  let before := [Sort.compareByStatus; Sort.compareByPath] in
  let after := [Sort.compareByDoneDate] in
  Sort.makeCompositeComparator before a b = Ok 0
  /\ Sort.makeCompositeComparator (before ++ Sort.compareByUrgency :: after) a b
     = Sort.compareByUrgency a b
  /\ (forall sorting,
        Sort.userComparators (H := plainHost) sorting
        = (before ++ Sort.compareByUrgency :: after)%list ->
        Sort.comparatorOf (H := plainHost) sorting a b
        = Sort.compareByUrgency a b)
  /\ (forall sorting,
        Sort.userComparators (H := plainHost) sorting = before ->
        Sort.comparatorOf (H := plainHost) sorting a b
        = Sort.makeCompositeComparator Sort.defaultComparators a b).
Proof.
  apply (makeCompositeComparator_first_answer (H := plainHost)
           [Sort.compareByStatus; Sort.compareByPath] [Sort.compareByDoneDate]
           Sort.compareByUrgency (blockOfUrgency 1) (blockOfUrgency 5)).
  - repeat constructor.
  - vm_compute. discriminate.
Defined.

(** * Further properties of the query interpreter *)

Lemma processLine_comment `{Host} (q : Query.t) (r : string) :
  Query.processLine q ("#" ++ r) = q.
Proof.
  remember ("#" ++ r)%string as line eqn:Hline.
  unfold Query.processLine. do 23 dispatch_step. reflexivity.
Qed.

(** X9. Blank lines and lines that start with [#] leave the query as it is:
    a source of such lines only gives the query without filters, sorting,
    limit and error. *)
Theorem comments_and_blanks_are_ignored `{Host} (source : string) :
  (forall line, In line (splitLines source) ->
                trim line = "" \/ startsWith "#" (trim line) = true) ->
  Query.new source = Query.initial.
Proof.
  unfold Query.new. generalize (splitLines source) as lines.
  intros lines Hlines.
  assert (forall q, fold_left Query.processLine (map trim lines) q = q) as Hfold;
    [|apply Hfold].
  induction lines as [|line lines IH]; intros q; simpl; [reflexivity|].
  assert (Query.processLine q (trim line) = q) as ->.
  { destruct (Hlines line (or_introl eq_refl)) as [->|Hc]; [reflexivity|].
    unfold startsWith in Hc.
    destruct (stripPrefix "#" (trim line)) as [r|] eqn:Hp; [|discriminate].
    apply stripPrefix_Some in Hp. rewrite Hp. apply processLine_comment. }
  apply IH. intros l Hl. apply Hlines. now right.
Qed.

Lemma comments_and_blanks_are_ignored_witness :
  Query.new (H := plainHost) "# open tasks

   # another comment
  " = Query.initial.
Proof.
  apply (comments_and_blanks_are_ignored (H := plainHost)).
  simpl. intros line [<-|[<-|[<-|[<-|[]]]]]; auto.
Defined.

(** X10. Every line that starts with [short] turns the short mode on,
    whatever follows the word, and changes nothing else of the query. *)
Theorem short_prefix_sets_short_mode `{Host} (q : Query.t) (r : string) :
  let q' := Query.processLine q ("short" ++ r) in
  Query.shortMode (Query.layoutOptions q') = true
  /\ (forall o, hidden o (Query.layoutOptions q')
                = hidden o (Query.layoutOptions q))
  /\ Query.filters q' = Query.filters q
  /\ Query.error q' = Query.error q
  /\ Query.limit q' = Query.limit q
  /\ Query.sorting q' = Query.sorting q.
Proof.
  remember ("short" ++ r)%string as line eqn:Hline.
  unfold Query.processLine. do 10 dispatch_step.
  simpl. repeat split.
Qed.

(** X11. A [sort by] line with the word of a criterion, followed or not by
    [reverse], appends exactly that criterion with that direction, for each
    of the nine criteria. *)
Theorem sort_by_appends_criterion `{Host} (q : Query.t)
    (p : Sort.SortingProperty) (rev : bool) :
  Query.processLine q
    ("sort by " ++ wordOfProperty p ++ (if rev then " reverse" else ""))
  = Query.pushSorting (Sort.mkSorting p rev) q.
Proof. destruct p, rev; reflexivity. Qed.

(** X12. A [hide] line with the words of an option sets the flag of that
    option and no other, and adds no filter, error, limit or criterion. *)
Theorem hide_sets_one_flag `{Host} (q : Query.t) (o : HideOption) :
  let q' := Query.processLine q ("hide " ++ hideWord o) in
  (forall o', hidden o' (Query.layoutOptions q')
              = if decide (o' = o) then true
                else hidden o' (Query.layoutOptions q))
  /\ Query.shortMode (Query.layoutOptions q')
     = Query.shortMode (Query.layoutOptions q)
  /\ Query.filters q' = Query.filters q
  /\ Query.error q' = Query.error q
  /\ Query.limit q' = Query.limit q
  /\ Query.sorting q' = Query.sorting q.
Proof.
  destruct o; (split; [intros o'; destruct o'; reflexivity|]);
    repeat split.
Qed.

Lemma parseInt_uint (u : Decimal.uint) (acc : nat) :
  fold_left (fun acc c => 10 * acc + (Z.of_N (code c) - 48))
            (list_ascii_of_string (NilEmpty.string_of_uint u)) (Z.of_nat acc)
  = Z.of_nat (Nat.of_uint_acc u acc).
Proof.
  revert acc. induction u as [|u IH|u IH|u IH|u IH|u IH|u IH|u IH|u IH|u IH|u IH];
    intros acc; simpl; [reflexivity|..];
    rewrite <- IH; f_equal; rewrite Nat.tail_mul_spec;
    unfold code; simpl; lia.
Qed.

Lemma append_String (c : ascii) (s r : string) :
  (String c s ++ r)%string = String c (s ++ r).
Proof. reflexivity. Qed.

Lemma spanDigits_uint (u : Decimal.uint) (rest : string) :
  startsWithDigit rest = false ->
  spanDigits (NilEmpty.string_of_uint u ++ rest)
  = (NilEmpty.string_of_uint u, rest).
Proof.
  intros Hrest.
  induction u as [|u IH|u IH|u IH|u IH|u IH|u IH|u IH|u IH|u IH|u IH];
    cbn [NilEmpty.string_of_uint];
    [|rewrite append_String; cbn [spanDigits]; rewrite IH; reflexivity ..].
  change ("" ++ rest)%string with rest.
  destruct rest as [|c r]; [reflexivity|]. simpl in *. now rewrite Hrest.
Qed.

Lemma stripPrefix_app (p r : string) : stripPrefix p (p ++ r) = Some r.
Proof.
  induction p as [|c p IH]; [reflexivity|].
  rewrite append_String. simpl. now rewrite Ascii.eqb_refl.
Qed.

Lemma showNat_digit (n : nat) :
  exists c s, showNat n = String c s /\ isDigit c = true.
Proof.
  unfold showNat. destruct (Nat.to_uint n) as [|u|u|u|u|u|u|u|u|u|u] eqn:Hu;
    try (do 2 eexists; split; reflexivity).
  pose proof (DecimalNat.Unsigned.of_to n) as Hn. rewrite Hu in Hn.
  simpl in Hn. subst n. discriminate.
Qed.

Lemma parseInt_showNat (n : nat) : parseInt (showNat n) = Z.of_nat n.
Proof.
  unfold parseInt, showNat.
  pose proof (parseInt_uint (Nat.to_uint n) 0) as Hparse.
  change (Z.of_nat 0) with 0 in Hparse. rewrite Hparse.
  change (Nat.of_uint_acc (Nat.to_uint n) 0) with (Nat.of_uint (Nat.to_uint n)).
  now rewrite DecimalNat.Unsigned.of_to.
Qed.

Lemma limitRegexp_showNat (toWord : bool) (n : nat) (suffix : string) :
  startsWithDigit suffix = false ->
  Query.limitRegexp
    ("limit " ++ (if toWord then "to " else "") ++ showNat n ++ suffix)
  = Some (showNat n).
Proof.
  intros Hsuffix. unfold Query.limitRegexp. rewrite stripPrefix_app.
  assert ((let '(ds, _) := spanDigits (showNat n ++ suffix) in
           if (ds =? "")%string then None else Some ds) = Some (showNat n))
    as Hdigits.
  { unfold showNat. rewrite spanDigits_uint by exact Hsuffix.
    destruct (showNat_digit n) as (c & s & Hs & _). unfold showNat in Hs.
    rewrite Hs. reflexivity. }
  destruct toWord.
  - rewrite stripPrefix_app, Hdigits. reflexivity.
  - change ("" ++ showNat n ++ suffix)%string with (showNat n ++ suffix)%string.
    destruct (showNat_digit n) as (c & s & Hs & Hc).
    assert (stripPrefix "to " (showNat n ++ suffix) = None) as ->.
    { rewrite Hs, append_String. cbn [stripPrefix].
      destruct (Ascii.eqb_spec "t" c) as [<-|_]; [discriminate|reflexivity]. }
    simpl. exact Hdigits.
Qed.

(** X13. A [limit] line, with or without [to], sets the limit to the number
    its decimal digits write, whatever follows the digits (as [ tasks]
    does), and adds no filter and no error. This for the numbers up to 2^53,
    which a JavaScript number holds exactly. *)
Theorem limit_reads_the_number `{Host} (q : Query.t) (toWord : bool) (n : nat)
    (suffix : string) :
  Z.of_nat n <= 2 ^ 53 ->
  startsWithDigit suffix = false ->
  let q' := Query.processLine q
              ("limit " ++ (if toWord then "to " else "") ++ showNat n ++ suffix) in
  Query.limit q' = Some (Z.of_nat n)
  /\ Query.filters q' = Query.filters q
  /\ Query.error q' = Query.error q.
Proof.
  intros _ Hsuffix.
  pose proof (limitRegexp_showNat toWord n suffix Hsuffix) as Hlimit.
  remember ("limit " ++ (if toWord then "to " else "") ++ showNat n ++ suffix)%string
    as line eqn:Hline.
  unfold Query.processLine. do 19 dispatch_step.
  rewrite Hlimit. simpl. unfold Query.parseLimit. rewrite Hlimit. simpl.
  rewrite parseInt_showNat. auto.
Qed.

Lemma limit_reads_the_number_witness :
  let q' := Query.processLine (H := plainHost) Query.initial
              ("limit " ++ "to " ++ showNat 12 ++ " tasks") in
  Query.limit q' = Some (Z.of_nat 12)
  /\ Query.filters q' = Query.filters Query.initial
  /\ Query.error q' = Query.error Query.initial.
Proof.
  apply (limit_reads_the_number (H := plainHost) Query.initial true 12 " tasks").
  - vm_compute. discriminate.
  - reflexivity.
Defined.

(** X14. For a [done] line with a date that parses, the constructor appends
    one filter: a block matches iff every task of it has a done date that
    compares as the line says, so a task without done date makes the block
    fail and a block without tasks matches. *)
Theorem done_date_filter `{Host} (q : Query.t) (line : string)
    (mode : option string) (text : string) :
  Query.doneRegexp line = Some (mode, text) ->
  Moment.isValid (Query.parseDate text) = true ->
  appendsFilter q line
    (fun tb => forall task,
         In task (tasks tb) ->
         exists d, doneDate task = Some d
                   /\ compares mode d (Query.parseDate text)).
Proof.
  intros Hm Hvalid. pose proof (matchDate_mode _ _ _ _ Hm) as Hmode.
  unfold appendsFilter. rewrite (processLine_done q line _ Hm).
  unfold Query.parseDoneFilter. rewrite Hm, Hvalid. simpl.
  eexists. split; [reflexivity|]. intros tb. eexists. split; [reflexivity|].
  rewrite forallb_forall. split; intros Hall task Hin; specialize (Hall task Hin).
  - destruct (doneDate task) as [d|]; [|discriminate].
    exists d. split; [reflexivity|]. now apply dateTest_compares.
  - destruct Hall as (d & -> & Hd). now apply dateTest_compares.
Qed.

Lemma done_date_filter_witness :
  appendsFilter (H := plainHost) Query.initial "done after 2024-01-05"
    (fun tb => forall task,
         In task (tasks tb) ->
         exists d, doneDate task = Some d
                   /\ compares (Some "after") d
                        (Query.parseDate (H := plainHost) "2024-01-05")).
Proof.
  apply (done_date_filter (H := plainHost) Query.initial
           "done after 2024-01-05" (Some "after") "2024-01-05");
    reflexivity.
Defined.

(** X15. The line [done] appends a filter that takes the blocks all of
    whose tasks are done, and the line [not done] one that takes the blocks
    with a task that is not done: every block matches exactly one of the
    two, a block without tasks the first. *)
Theorem done_and_not_done_lines `{Host} (q : Query.t) :
  exists f g,
    Query.processLine q "done" = Query.pushFilter f q
    /\ Query.processLine q "not done" = Query.pushFilter g q
    /\ forall tb, exists matches,
         f tb = Ok matches /\ g tb = Ok (negb matches)
         /\ (matches = true <->
             forall task, In task (tasks tb) -> status task = Done).
Proof.
  exists Query.doneFilter, Query.notDoneFilter.
  split; [reflexivity|]. split; [reflexivity|].
  intros tb. exists (fullyDone tb). unfold Query.doneFilter, Query.notDoneFilter,
    fullyDone. split; [reflexivity|]. split.
  - f_equal. induction (tasks tb) as [|t l IH]; simpl; [reflexivity|].
    rewrite IH. now destruct (Status_eqb (status t) Done).
  - rewrite forallb_forall. unfold Status_eqb.
    split; intros Hall task Hin; specialize (Hall task Hin).
    + now apply bool_decide_eq_true in Hall.
    + now apply bool_decide_eq_true.
Qed.

(** X16. The lines [no start date], [no scheduled date] and [no due date]
    append a filter that takes the blocks all of whose tasks have that
    date: a task without the date makes its block fail. *)
Theorem no_date_lines_ask_for_the_date `{Host} (q : Query.t) :
  appendsFilter q "no start date"
    (fun tb => forall task, In task (tasks tb) -> startDate task <> None)
  /\ appendsFilter q "no scheduled date"
       (fun tb => forall task, In task (tasks tb) -> scheduledDate task <> None)
  /\ appendsFilter q "no due date"
       (fun tb => forall task, In task (tasks tb) -> dueDate task <> None).
Proof.
  unfold appendsFilter. repeat split.
  all: eexists; split; [reflexivity|]; intros tb; eexists;
    (split; [reflexivity|]); rewrite forallb_forall;
    split; intros Hall task Hin; specialize (Hall task Hin);
    unfold Query.hasDate in *.
  all: destruct (startDate task), (scheduledDate task), (dueDate task);
    congruence.
Qed.

(** X17. The lines [is recurring], [is not recurring] and [exclude
    sub-items] look at the first task of a block only: they take a block
    whose first task has a recurrence rule, has none, has no indentation;
    none of them takes a block without tasks. *)
Theorem first_task_lines `{Host} (q : Query.t) :
  appendsFilter q "is recurring"
    (fun tb => exists task rest,
         tasks tb = task :: rest /\ recurrence task <> None)
  /\ appendsFilter q "is not recurring"
       (fun tb => exists task rest,
            tasks tb = task :: rest /\ recurrence task = None)
  /\ appendsFilter q "exclude sub-items"
       (fun tb => exists task rest,
            tasks tb = task :: rest /\ indentation task = "").
Proof.
  unfold appendsFilter. repeat split.
  all: eexists; split; [reflexivity|]; intros tb; eexists;
    (split; [reflexivity|]); destruct (tasks tb) as [|task rest];
    [split; [discriminate|intros (? & ? & ? & _); discriminate]|].
  - destruct (recurrence task) eqn:Hr; split.
    + intros _. exists task, rest. split; [reflexivity|congruence].
    + reflexivity.
    + discriminate.
    + intros (? & ? & [= <- <-] & Hne). congruence.
  - destruct (recurrence task) eqn:Hr; split.
    + discriminate.
    + intros (? & ? & [= <- <-] & Hne). congruence.
    + intros _. exists task, rest. auto.
    + reflexivity.
  - rewrite String.eqb_eq. split.
    + intros Hi. exists task, rest. auto.
    + intros (? & ? & [= <- <-] & Hi). exact Hi.
Qed.

Lemma lowerChar_idempotent (c : ascii) : lowerChar (lowerChar c) = lowerChar c.
Proof. destruct c as [[] [] [] [] [] [] [] []]; reflexivity. Qed.

Lemma toLocaleLowerCase_idempotent (s : string) :
  toLocaleLowerCase (toLocaleLowerCase s) = toLocaleLowerCase s.
Proof.
  induction s as [|c s IH]; simpl; [reflexivity|].
  now rewrite lowerChar_idempotent, IH.
Qed.

(** X18. The [path] lines look at the path of the first task of a block
    only, and on a block with a task [does not include] is the negation of
    [includes]. The comparison ignores the case of both texts. *)
Theorem path_lines `{Host} (q : Query.t) (text : string) :
  exists f g,
    Query.processLine q ("path includes " ++ text) = Query.pushFilter f q
    /\ Query.processLine q ("path does not include " ++ text)
       = Query.pushFilter g q
    /\ forall tb task rest,
         tasks tb = task :: rest ->
         let found :=
           includes (toLocaleLowerCase (path task))
                    (toLocaleLowerCase (dotStar text)) in
         f tb = Ok found /\ g tb = Ok (negb found)
         /\ found = Query.stringIncludesCaseInsensitive
                      (toLocaleLowerCase (path task)) (dotStar text)
         /\ found = Query.stringIncludesCaseInsensitive
                      (path task) (toLocaleLowerCase (dotStar text)).
Proof.
  exists (Query.pathIncludesFilter (dotStar text)),
         (Query.pathDoesNotIncludeFilter (dotStar text)).
  split; [|split].
  - assert (Query.pathRegexp ("path includes " ++ text)
            = Some ("includes", dotStar text)) as Hm by reflexivity.
    remember ("path includes " ++ text)%string as line eqn:Hline.
    unfold Query.processLine. do 16 dispatch_step.
    rewrite Hm. simpl. unfold Query.parsePathFilter. rewrite Hm. reflexivity.
  - assert (Query.pathRegexp ("path does not include " ++ text)
            = Some ("does not include", dotStar text)) as Hm by reflexivity.
    remember ("path does not include " ++ text)%string as line eqn:Hline.
    unfold Query.processLine. do 16 dispatch_step.
    rewrite Hm. simpl. unfold Query.parsePathFilter. rewrite Hm. reflexivity.
  - intros tb task rest Htasks found.
    unfold Query.pathIncludesFilter, Query.pathDoesNotIncludeFilter,
      Query.stringIncludesCaseInsensitive, index. rewrite Htasks. simpl.
    rewrite !toLocaleLowerCase_idempotent. auto.
Qed.

(** X19. The [heading] and [description] lines return on every block, and
    [does not include] is the negation of [includes]: [includes] takes the
    blocks with a task whose heading (a task under no heading has none), or
    whose description without the global filter, contains the text. *)
Theorem heading_and_description_lines `{Host} (q : Query.t) (text : string) :
  (exists f g,
      Query.processLine q ("heading includes " ++ text) = Query.pushFilter f q
      /\ Query.processLine q ("heading does not include " ++ text)
         = Query.pushFilter g q
      /\ forall tb, exists matches,
           f tb = Ok matches /\ g tb = Ok (negb matches)
           /\ (matches = true <->
               exists task header,
                 In task (tasks tb) /\ precedingHeader task = Some header
                 /\ Query.stringIncludesCaseInsensitive header (dotStar text)
                    = true))
  /\ (exists f g,
         Query.processLine q ("description includes " ++ text)
         = Query.pushFilter f q
         /\ Query.processLine q ("description does not include " ++ text)
            = Query.pushFilter g q
         /\ forall tb, exists matches,
              f tb = Ok matches /\ g tb = Ok (negb matches)
              /\ (matches = true <->
                  exists task,
                    In task (tasks tb)
                    /\ Query.stringIncludesCaseInsensitive
                         (trim (replaceFirst globalFilter "" (description task)))
                         (dotStar text) = true)).
Proof.
  split.
  - exists (Query.headingIncludesFilter (dotStar text)),
           (Query.headingDoesNotIncludeFilter (dotStar text)).
    split; [|split].
    + assert (Query.headingRegexp ("heading includes " ++ text)
              = Some ("includes", dotStar text)) as Hm by reflexivity.
      remember ("heading includes " ++ text)%string as line eqn:Hline.
      unfold Query.processLine. do 18 dispatch_step.
      rewrite Hm. simpl. unfold Query.parseHeadingFilter. rewrite Hm. reflexivity.
    + assert (Query.headingRegexp ("heading does not include " ++ text)
              = Some ("does not include", dotStar text)) as Hm by reflexivity.
      remember ("heading does not include " ++ text)%string as line eqn:Hline.
      unfold Query.processLine. do 18 dispatch_step.
      rewrite Hm. simpl. unfold Query.parseHeadingFilter. rewrite Hm. reflexivity.
    + intros tb. eexists. split; [reflexivity|]. split; [reflexivity|].
      rewrite existsb_exists. unfold Query.headingMatches. split.
      * intros (task & Hin & Ht). destruct (precedingHeader task) as [h|] eqn:Hh;
          [|discriminate]. eauto.
      * intros (task & h & Hin & Hh & Ht). exists task. now rewrite Hh.
  - exists (Query.descriptionIncludesFilter (dotStar text)),
           (Query.descriptionDoesNotIncludeFilter (dotStar text)).
    split; [|split].
    + assert (Query.descriptionRegexp ("description includes " ++ text)
              = Some ("includes", dotStar text)) as Hm by reflexivity.
      remember ("description includes " ++ text)%string as line eqn:Hline.
      unfold Query.processLine. do 17 dispatch_step.
      rewrite Hm. simpl. unfold Query.parseDescriptionFilter. rewrite Hm.
      reflexivity.
    + assert (Query.descriptionRegexp ("description does not include " ++ text)
              = Some ("does not include", dotStar text)) as Hm by reflexivity.
      remember ("description does not include " ++ text)%string as line eqn:Hline.
      unfold Query.processLine. do 17 dispatch_step.
      rewrite Hm. simpl. unfold Query.parseDescriptionFilter. rewrite Hm.
      reflexivity.
    + intros tb. eexists. split; [reflexivity|]. split; [reflexivity|].
      rewrite existsb_exists. reflexivity.
Qed.

Lemma processLine_unrecognised `{Host} (q : Query.t) (line : string) :
  recognised line = false ->
  Query.processLine q line = Query.setError "do not understand query" q.
Proof.
  unfold recognised. intros Hr.
  repeat (apply orb_false_elim in Hr as [Hr ?]).
  unfold Query.processLine.
  repeat match goal with
         | Hb : ?b = false |- context [if ?b then _ else _] => rewrite Hb
         end.
  reflexivity.
Qed.

(** X20. A line that is none of the productions of the language makes the
    query an erroneous one, wherever it stands: the error is set, and when
    the line is the last one the error is [do not understand query] and the
    filters are those of the lines before it. *)
Theorem unrecognised_line_is_an_error `{Host} (source : string)
    (before after : list string) (line : string) :
  splitLines source = (before ++ line :: after)%list ->
  recognised (trim line) = false ->
  Query.error (Query.new source) <> None
  /\ match after with
     | [] =>
         Query.error (Query.new source) = Some "do not understand query"
         /\ Query.filters (Query.new source)
            = Query.filters
                (fold_left Query.processLine (map trim before) Query.initial)
     | _ :: _ => True
     end.
Proof.
  intros Hlines Hr. unfold Query.new.
  rewrite Hlines, map_app, fold_left_app. simpl.
  rewrite (processLine_unrecognised _ _ Hr). split.
  - now apply processLines_grow.
  - destruct after; simpl; auto.
Qed.

Lemma unrecognised_line_is_an_error_witness :
  Query.error (Query.new (H := plainHost) "not done
tomorrow") <> None
  /\ Query.error (Query.new (H := plainHost) "not done
tomorrow") = Some "do not understand query"
  /\ Query.filters (Query.new (H := plainHost) "not done
tomorrow")
     = Query.filters
         (fold_left (Query.processLine (H := plainHost))
                    (map trim ["not done"]) Query.initial).
Proof.
  apply (unrecognised_line_is_an_error (H := plainHost) _ ["not done"] []
           "tomorrow"); reflexivity.
Defined.

(** * Further properties of the indexer *)

Lemma removeFile_idempotent (p : string) (l : list TaskBlock) :
  Cache.removeFile p (Cache.removeFile p l) = Cache.removeFile p l.
Proof.
  unfold Cache.removeFile. induction l as [|tb l IH]; simpl; [reflexivity|].
  destruct (Cache.keepsBlock p tb) eqn:Hk; simpl; [|exact IH].
  now rewrite Hk, IH.
Qed.

Lemma removeFile_comm (p p' : string) (l : list TaskBlock) :
  Cache.removeFile p (Cache.removeFile p' l)
  = Cache.removeFile p' (Cache.removeFile p l).
Proof.
  unfold Cache.removeFile. induction l as [|tb l IH]; simpl; [reflexivity|].
  destruct (Cache.keepsBlock p' tb) eqn:Hk', (Cache.keepsBlock p tb) eqn:Hk;
    simpl; rewrite ?Hk, ?Hk', IH; reflexivity.
Qed.

(** X21. Deleting a document leaves no block whose first task is in it;
    deleting it again changes nothing, and the deletions of two documents
    give the same index in either order. *)
Theorem delete_composes `{Host} (c : Cache.t) (file file' : Cache.TFile) :
  let deleted f c := fst (Cache.handle c (Cache.delete (Cache.File f))) in
  (forall tb task rest,
      In tb (Cache.taskblocks (deleted file c)) ->
      tasks tb = task :: rest -> path task <> Cache.file_path file)
  /\ deleted file (deleted file c) = deleted file c
  /\ deleted file (deleted file' c) = deleted file' (deleted file c).
Proof.
  simpl. split; [|split].
  - intros tb task rest Hin Htasks.
    apply removeFile_spec in Hin as (_ & t0 & r0 & Ht0 & Hne).
    rewrite Htasks in Ht0. now injection Ht0 as <- _.
  - now rewrite removeFile_idempotent.
  - now rewrite removeFile_comm.
Qed.

(** The scan does not look at the blocks that were in the index before it:
    it does to a state with blocks stored in front what it does to the state
    without them. *)
Lemma prepend_enterSection kept metadata listItem s :
  Cache.enterSection metadata listItem (prepend kept s)
  = prepend kept (Cache.enterSection metadata listItem s).
Proof.
  unfold Cache.enterSection. simpl.
  now destruct (match Cache.currentSection s with Some _ => _ | None => _ end).
Qed.

Lemma prepend_pushCurrent kept s :
  Cache.pushCurrent (prepend kept s) = prepend kept (Cache.pushCurrent s).
Proof. unfold Cache.pushCurrent, prepend. simpl. now rewrite app_assoc. Qed.

Lemma prepend_renewBlock kept s :
  Cache.renewBlock (prepend kept s) = prepend kept (Cache.renewBlock s).
Proof.
  unfold Cache.renewBlock, prepend. simpl. now rewrite map_app, map_map.
Qed.

Lemma prepend_groupTask kept listItem isLast task s :
  Cache.groupTask listItem isLast task (prepend kept s)
  = prepend kept (Cache.groupTask listItem isLast task s).
Proof.
  unfold Cache.groupTask. simpl.
  change (Cache.mkScan (Cache.currentSection s) (Cache.scan_sectionIndex s + 1)
            (Cache.currentID s) (Cache.newTaskBlock s) (Cache.first s)
            (map Cache.Settled kept ++ Cache.entries s))
    with (prepend kept
            (Cache.mkScan (Cache.currentSection s) (Cache.scan_sectionIndex s + 1)
               (Cache.currentID s) (Cache.newTaskBlock s) (Cache.first s)
               (Cache.entries s))).
  set (s1 := Cache.mkScan _ _ _ _ _ (Cache.entries s)).
  destruct ((Cache.item_parent listItem =? -1) && negb (Cache.first s)), isLast;
    rewrite ?prepend_pushCurrent, ?prepend_renewBlock, ?prepend_pushCurrent;
    try reflexivity.
  - change (Cache.pushTask task (prepend kept (Cache.renewBlock (Cache.pushCurrent s1))))
      with (prepend kept (Cache.pushTask task (Cache.renewBlock (Cache.pushCurrent s1)))).
    now rewrite prepend_pushCurrent.
  - change (Cache.pushTask task (prepend kept s1))
      with (prepend kept (Cache.pushTask task s1)).
    now rewrite prepend_pushCurrent.
Qed.

Lemma prepend_scanItem `{Host} kept file metadata fileLines s listItem isLast :
  Cache.scanItem file metadata fileLines (prepend kept s) listItem isLast
  = match Cache.scanItem file metadata fileLines s listItem isLast with
    | Ok s' => Ok (prepend kept s')
    | Throw e => Throw e
    end.
Proof.
  unfold Cache.scanItem.
  destruct (Cache.item_task listItem); [|reflexivity].
  rewrite prepend_enterSection.
  set (s1 := Cache.enterSection metadata listItem s).
  change (Cache.currentSection (prepend kept s1)) with (Cache.currentSection s1).
  destruct (Cache.currentSection s1); [|now rewrite prepend_pushCurrent].
  destruct (Cache.getPrecedingHeader _ _ _) as [header|e]; [|reflexivity].
  simpl. destruct (Task_fromLine _ _ _ _ _ _ _) as [[task|]|e]; simpl;
    try reflexivity.
  now rewrite prepend_groupTask.
Qed.

Lemma prepend_scanItems `{Host} kept file metadata fileLines items s :
  Cache.scanItems file metadata fileLines items (prepend kept s)
  = match Cache.scanItems file metadata fileLines items s with
    | Cache.Completed s' => Cache.Completed (prepend kept s')
    | Cache.Aborted s' e => Cache.Aborted (prepend kept s') e
    end.
Proof.
  revert s. induction items as [|listItem rest IH]; intros s; simpl;
    [reflexivity|].
  rewrite prepend_scanItem.
  destruct (Cache.scanItem file metadata fileLines s listItem _);
    [apply IH|reflexivity].
Qed.

Lemma scanned_prepend kept s :
  Cache.scanned (prepend kept s) = (kept ++ Cache.scanned s)%list.
Proof.
  unfold Cache.scanned, prepend. simpl.
  rewrite map_app, map_map. simpl. now rewrite map_id.
Qed.

(** What [indexFile] makes of the index: the blocks the removal keeps,
    followed by the blocks of the scan of the document, which are the same
    whatever the index was. *)
Lemma indexFile_appends `{Host} (file : Cache.TFile)
    (metadata : Cache.CachedMetadata) (c : Cache.t) :
  Cache.file_cache file = Some metadata ->
  let o := Cache.scanItems file metadata (splitLines (Cache.file_content file))
             (match Cache.listItems metadata with
              | Some items => items
              | None => []
              end) (Cache.startScan []) in
  let c' := Cache.mk (Cache.state c)
              (Cache.removeFile (Cache.file_path file) (Cache.taskblocks c)
               ++ Cache.scanned (Cache.outcome_state o))
              (Cache.loadedAfterFirstResolve c) in
  Cache.indexFile file c
  = match o with
    | Cache.Completed _ => (Cache.Completed c', Cache.notifySubscribers c')
    | Cache.Aborted _ e => (Cache.Aborted c' e, [])
    end.
Proof.
  intros Hmd o c'. unfold Cache.indexFile. rewrite Hmd.
  set (kept := Cache.removeFile _ _) in *.
  assert (Cache.startScan kept = prepend kept (Cache.startScan [])) as ->.
  { unfold Cache.startScan, prepend. simpl. now rewrite app_nil_r. }
  rewrite prepend_scanItems. fold o. subst c'.
  destruct o as [s|s e]; simpl; now rewrite scanned_prepend.
Qed.

Lemma scansOf_pushCurrent p s : scansOf p s -> scansOf p (Cache.pushCurrent s).
Proof.
  intros [Hnew Hentries]. split; [exact Hnew|]. simpl.
  intros block Hin. apply in_app_or in Hin as [Hin|[Hin|[]]]; [auto|discriminate].
Qed.

Lemma scansOf_renewBlock p s : scansOf p s -> scansOf p (Cache.renewBlock s).
Proof.
  intros [Hnew Hentries]. split; [intros t []|]. simpl.
  intros block Hin. apply in_map_iff in Hin as (e & [= <-] & He).
  destruct e as [b|]; simpl; auto.
Qed.

Lemma scansOf_pushTask p task s :
  path task = p -> scansOf p s -> scansOf p (Cache.pushTask task s).
Proof.
  intros Hp [Hnew Hentries]. split; [|exact Hentries]. simpl.
  intros t Hin. apply in_app_or in Hin as [Hin|[<-|[]]]; auto.
Qed.

Lemma scansOf_groupTask p listItem isLast task s :
  path task = p -> scansOf p s ->
  scansOf p (Cache.groupTask listItem isLast task s).
Proof.
  intros Hp Hs. unfold Cache.groupTask.
  set (s1 := Cache.mkScan _ _ _ _ _ _).
  assert (scansOf p s1) as H1 by exact Hs.
  destruct isLast, ((Cache.item_parent listItem =? -1) && negb (Cache.first s1));
    auto using scansOf_pushCurrent, scansOf_renewBlock, scansOf_pushTask.
Qed.

Lemma scansOf_scanItem `{Host} file metadata fileLines s listItem isLast s' :
  parserKeepsPath ->
  Cache.scanItem file metadata fileLines s listItem isLast = Ok s' ->
  scansOf (Cache.file_path file) s -> scansOf (Cache.file_path file) s'.
Proof.
  intros Hparser. unfold Cache.scanItem. intros Hs Hof.
  destruct (Cache.item_task listItem); [|injection Hs as <-; exact Hof].
  assert (scansOf (Cache.file_path file) (Cache.enterSection metadata listItem s))
    as Hof'.
  { unfold Cache.enterSection.
    destruct (match Cache.currentSection s with Some _ => _ | None => _ end);
      exact Hof. }
  destruct (Cache.currentSection (Cache.enterSection metadata listItem s)).
  - apply bind_Ok in Hs as (header & _ & Hs).
    apply bind_Ok in Hs as (task & Htask & Hs). injection Hs as <-.
    destruct task as [task|]; [|exact Hof'].
    apply Hparser in Htask.
    assert (scansOf (Cache.file_path file)
              (Cache.groupTask listItem isLast task
                 (Cache.enterSection metadata listItem s))) as Hg
      by now apply scansOf_groupTask.
    exact Hg.
  - injection Hs as <-. now apply scansOf_pushCurrent.
Qed.

Lemma scansOf_scanItems `{Host} file metadata fileLines items s :
  parserKeepsPath ->
  scansOf (Cache.file_path file) s ->
  scansOf (Cache.file_path file)
    (Cache.outcome_state (Cache.scanItems file metadata fileLines items s)).
Proof.
  intros Hparser. revert s.
  induction items as [|listItem rest IH]; intros s Hof; simpl; [exact Hof|].
  destruct (Cache.scanItem _ _ _ _ _ _) eqn:Hstep; simpl; [|exact Hof].
  apply IH. eapply scansOf_scanItem; eauto.
Qed.

Lemma scanned_tasksOf p s block :
  scansOf p s -> In block (Cache.scanned s) -> tasksOf p block.
Proof.
  intros [Hnew Hentries] Hin. unfold Cache.scanned in Hin.
  apply in_map_iff in Hin as (e & <- & He). destruct e as [b|]; simpl; auto.
Qed.

Lemma removeFile_own (p : string) (l : list TaskBlock) :
  (forall block, In block l -> tasksOf p block) -> Cache.removeFile p l = [].
Proof.
  unfold Cache.removeFile. induction l as [|tb l IH]; intros Hown; simpl;
    [reflexivity|].
  assert (Cache.keepsBlock p tb = false) as ->.
  { unfold Cache.keepsBlock. destruct (tasks tb) as [|t rest] eqn:Htb;
      [reflexivity|].
    rewrite (Hown tb (or_introl eq_refl) t) by (rewrite Htb; now left).
    now rewrite String.eqb_refl. }
  apply IH. intros block Hin. apply Hown. now right.
Qed.

Lemma removeFile_app (p : string) (l l' : list TaskBlock) :
  Cache.removeFile p (l ++ l')
  = (Cache.removeFile p l ++ Cache.removeFile p l')%list.
Proof. unfold Cache.removeFile. apply List.filter_app. Qed.

(** X22. Indexing a document twice in a row, with the same metadata and
    content, leaves what indexing it once leaves, and publishes the same,
    when the line parser gives every task the path of the document. *)
Theorem indexFile_idempotent `{Host} (file : Cache.TFile) (c : Cache.t) :
  parserKeepsPath ->
  Cache.indexFile file (Cache.outcome_state (fst (Cache.indexFile file c)))
  = Cache.indexFile file c.
Proof.
  intros Hparser.
  destruct (Cache.file_cache file) as [metadata|] eqn:Hmd;
    [|unfold Cache.indexFile; rewrite Hmd; reflexivity].
  pose proof (indexFile_appends file metadata c Hmd) as Hfirst.
  set (c1 := Cache.outcome_state (fst (Cache.indexFile file c))).
  pose proof (indexFile_appends file metadata c1 Hmd) as Hsecond.
  simpl in Hfirst, Hsecond.
  set (o := Cache.scanItems _ _ _ _ (Cache.startScan [])) in *.
  assert (Cache.removeFile (Cache.file_path file) (Cache.taskblocks c1)
          = Cache.removeFile (Cache.file_path file) (Cache.taskblocks c)
          /\ Cache.state c1 = Cache.state c
          /\ Cache.loadedAfterFirstResolve c1 = Cache.loadedAfterFirstResolve c)
    as (Hkept & Hstate & Hflag).
  { assert (Cache.taskblocks c1
            = (Cache.removeFile (Cache.file_path file) (Cache.taskblocks c)
               ++ Cache.scanned (Cache.outcome_state o))%list
            /\ Cache.state c1 = Cache.state c
            /\ Cache.loadedAfterFirstResolve c1 = Cache.loadedAfterFirstResolve c)
      as (Hblocks & ? & ?).
    { subst c1. rewrite Hfirst. destruct o; simpl; auto. }
    split; [|auto]. rewrite Hblocks, removeFile_app, removeFile_idempotent.
    rewrite (removeFile_own _ (Cache.scanned (Cache.outcome_state o)));
      [now rewrite app_nil_r|].
    intros block Hin. eapply scanned_tasksOf; [|exact Hin].
    apply scansOf_scanItems; [exact Hparser|].
    split; [intros t []|intros b []]. }
  rewrite Hsecond, Hfirst, Hkept, Hstate, Hflag. reflexivity.
Qed.

Lemma plainHost_keeps_path : parserKeepsPath (H := plainHost).
Proof.
  intros line p sectionStart sectionIndex header id parent task. simpl.
  destruct line as [l|]; simpl; [|discriminate].
  destruct (checkboxLine l) as [[[indent st] body]|]; [|discriminate].
  intros [= <-]. reflexivity.
Qed.

Lemma indexFile_idempotent_witness :
  Cache.indexFile (H := plainHost) parentChildFile
    (Cache.outcome_state
       (fst (Cache.indexFile (H := plainHost) parentChildFile emptyIndex)))
  = Cache.indexFile (H := plainHost) parentChildFile emptyIndex.
Proof.
  apply (indexFile_idempotent (H := plainHost) parentChildFile emptyIndex).
  exact plainHost_keeps_path.
Defined.

Lemma tasksOf_uniform (p : string) (tb : TaskBlock) : tasksOf p tb -> uniform tb.
Proof. intros Hof t t' Ht Ht'. now rewrite (Hof t Ht), (Hof t' Ht'). Qed.

Lemma indexFile_uniform `{Host} (file : Cache.TFile) (c : Cache.t) :
  parserKeepsPath -> allUniform c ->
  allUniform (Cache.outcome_state (fst (Cache.indexFile file c))).
Proof.
  intros Hparser Hc.
  destruct (Cache.file_cache file) as [metadata|] eqn:Hmd;
    [|unfold Cache.indexFile; rewrite Hmd; exact Hc].
  pose proof (indexFile_appends file metadata c Hmd) as Hshape.
  simpl in Hshape. rewrite Hshape.
  set (o := Cache.scanItems _ _ _ _ (Cache.startScan [])).
  assert (forall tb,
             In tb (Cache.removeFile (Cache.file_path file) (Cache.taskblocks c)
                    ++ Cache.scanned (Cache.outcome_state o))%list ->
             uniform tb) as Hall.
  { intros tb Hin. apply in_app_or in Hin as [Hin|Hin].
    - apply removeFile_spec in Hin as [Hin _]. now apply Hc.
    - apply (tasksOf_uniform (Cache.file_path file)).
      eapply scanned_tasksOf; [|exact Hin].
      apply scansOf_scanItems; [exact Hparser|].
      split; [intros t []|intros b []]. }
  destruct o; exact Hall.
Qed.

Lemma indexFiles_uniform `{Host} (files : list Cache.TFile) (c : Cache.t) :
  parserKeepsPath -> allUniform c ->
  allUniform (fst (fst (Cache.indexFiles files c))).
Proof.
  intros Hparser. revert c.
  induction files as [|file files IH]; intros c Hc; simpl; [exact Hc|].
  pose proof (indexFile_uniform file c Hparser Hc) as Hstep.
  destruct (Cache.indexFile file c) as [o seen]. simpl in Hstep.
  specialize (IH _ Hstep).
  now destruct (Cache.indexFiles files (Cache.outcome_state o)) as [[c' seen'] all].
Qed.

Lemma loadVault_uniform `{Host} (files : list Cache.TFile) (c : Cache.t) :
  parserKeepsPath -> allUniform c -> allUniform (fst (Cache.loadVault files c)).
Proof.
  intros Hparser Hc. unfold Cache.loadVault.
  pose proof (indexFiles_uniform files
                (Cache.mk Cache.Initializing (Cache.taskblocks c)
                          (Cache.loadedAfterFirstResolve c)) Hparser Hc) as Hall.
  destruct (Cache.indexFiles files _) as [[c' seen] all]. simpl in Hall.
  now destruct all.
Qed.

Lemma handle_uniform `{Host} (c : Cache.t) (ev : Cache.Event) :
  parserKeepsPath -> allUniform c -> allUniform (fst (Cache.handle c ev)).
Proof.
  intros Hparser Hc.
  destruct ev as [files|file|[file|]|[file|]|[file|] oldPath|]; simpl;
    try exact Hc.
  - destruct (Cache.loadedAfterFirstResolve c); simpl; [exact Hc|].
    now apply loadVault_uniform.
  - pose proof (indexFile_uniform file c Hparser Hc) as Hstep.
    now destruct (Cache.indexFile file c).
  - pose proof (indexFile_uniform file c Hparser Hc) as Hstep.
    now destruct (Cache.indexFile file c).
  - intros tb Hin. simpl in Hin.
    apply removeFile_spec in Hin as [Hin _]. now apply Hc.
  - intros tb Hin. simpl in Hin.
    rewrite renameFile_returns_argument in Hin. now apply Hc.
Qed.

(** X23. "All tasks in a task block will have the same file path": from the
    construction of the indexer on, whatever notifications arrive, every
    block of the index holds tasks of one document only, when the line
    parser gives every task the path of the document it is read from. *)
Theorem blocks_hold_one_document `{Host} (markdownFiles : list Cache.TFile)
    (events : list Cache.Event) (tb : TaskBlock) :
  parserKeepsPath ->
  In tb (Cache.taskblocks (fst (Cache.life markdownFiles events))) ->
  uniform tb.
Proof.
  intros Hparser. unfold Cache.life, Cache.new.
  assert (allUniform (Cache.mk Cache.Cold [] false)) as H0 by (intros b []).
  pose proof (loadVault_uniform markdownFiles _ Hparser H0) as H1.
  destruct (Cache.loadVault markdownFiles _) as [c seen]. simpl in H1.
  assert (forall c, allUniform c -> allUniform (fst (Cache.run c events))) as Hrun.
  { induction events as [|ev events IH]; intros c0 Hc; simpl; [exact Hc|].
    pose proof (handle_uniform c0 ev Hparser Hc) as Hstep.
    destruct (Cache.handle c0 ev) as [c' seen']. simpl in Hstep.
    specialize (IH c' Hstep).
    now destruct (Cache.run c' events) as [c'' seen'']. }
  specialize (Hrun c H1).
  destruct (Cache.run c events) as [c' seen']. simpl in *. apply Hrun.
Qed.

Lemma blocks_hold_one_document_witness :
  uniform
    (mkTaskBlock
       [mkTask Todo "parent" "a.md" "" 0 0 0 (-1) None NoPriority
               None None None None None 0;
        mkTask Todo "child" "a.md" "  " 0 1 1 0 None NoPriority
               None None None None None 0]).
Proof.
  apply (blocks_hold_one_document (H := plainHost) [parentChildFile] [] _
           plainHost_keeps_path).
  simpl. left. reflexivity.
Defined.

Lemma find_first {A : Type} (test : A -> bool) (l : list A) :
  match List.find test l with
  | Some x =>
      exists l1 l2, l = (l1 ++ x :: l2)%list /\ test x = true
                    /\ forall y, In y l1 -> test y = false
  | None => forall y, In y l -> test y = false
  end.
Proof.
  induction l as [|x l IH]; simpl; [intros y []|].
  destruct (test x) eqn:Hx.
  - exists [], l. split; [reflexivity|]. split; [exact Hx|]. intros y [].
  - destruct (List.find test l) as [z|].
    + destruct IH as (l1 & l2 & -> & Hz & Hl1).
      exists (x :: l1), l2. split; [reflexivity|]. split; [exact Hz|].
      intros y [<-|Hy]; auto.
    + intros y [<-|Hy]; auto.
Qed.

Lemma coversLine_test (line : Z) (s : Cache.SectionCache) :
  ((Cache.section_type s =? "list")%string
   && (Cache.section_start s <=? line) && (Cache.section_end s >=? line)) = true
  <-> coversLine line s.
Proof.
  unfold coversLine.
  rewrite !andb_true_iff, String.eqb_eq, Z.leb_le, Z.geb_le. tauto.
Qed.

(** X24. [getSection] returns the first section, in the order of the
    metadata, that is a list section and contains the line of the task; it
    returns [null] when the document has no sections or none of them is
    such a section. A section of another type is never returned. *)
Theorem getSection_first_list_section (line : Z)
    (sections : option (list Cache.SectionCache)) :
  match Cache.getSection line sections with
  | Some s =>
      exists before after,
        sections = Some (before ++ s :: after)%list
        /\ coversLine line s
        /\ forall s', In s' before -> ~ coversLine line s'
  | None =>
      forall all, sections = Some all ->
                  forall s, In s all -> ~ coversLine line s
  end.
Proof.
  unfold Cache.getSection. destruct sections as [all|]; [|discriminate].
  pose proof (find_first
                (fun section =>
                   (Cache.section_type section =? "list")%string
                   && (Cache.section_start section <=? line)
                   && (Cache.section_end section >=? line)) all) as Hfind.
  destruct (List.find _ all) as [s|].
  - destruct Hfind as (before & after & -> & Hs & Hbefore).
    exists before, after. split; [reflexivity|].
    split; [now apply coversLine_test|].
    intros s' Hin Hc. apply coversLine_test in Hc.
    rewrite (Hbefore s' Hin) in Hc. discriminate.
  - intros all' [= <-] s Hin Hc. apply coversLine_test in Hc.
    rewrite (Hfind s Hin) in Hc. discriminate.
Qed.

Lemma precedingHeaderSection_spec (line : Z) (sections : list Cache.SectionCache)
    (found : option Cache.SectionCache) (s : Cache.SectionCache) :
  Cache.precedingHeaderSection line sections found = Some s ->
  found = Some s
  \/ (In s sections /\ Cache.section_type s = "heading"
      /\ Cache.section_start s <= line).
Proof.
  revert found. induction sections as [|x rest IH]; intros found; simpl;
    [auto|].
  destruct (Cache.section_type x =? "heading")%string eqn:Htype.
  - destruct (Z.gtb_spec (Cache.section_start x) line) as [Hgt|Hle]; [auto|].
    intros Hs. apply IH in Hs as [[= <-]|(Hin & Ht & Hstart)].
    + right. apply String.eqb_eq in Htype. auto with zarith.
    + right. auto.
  - intros Hs. apply IH in Hs as [Hs|(Hin & Ht & Hstart)]; auto.
Qed.

Lemma precedingHeaderSection_none (line : Z) (sections : list Cache.SectionCache) :
  (forall s, In s sections -> Cache.section_type s = "heading" ->
             Cache.section_start s > line) ->
  Cache.precedingHeaderSection line sections None = None.
Proof.
  induction sections as [|x rest IH]; intros Hall; simpl; [reflexivity|].
  destruct (Cache.section_type x =? "heading")%string eqn:Htype.
  - apply String.eqb_eq in Htype.
    pose proof (Hall x (or_introl eq_refl) Htype) as Hgt.
    destruct (Z.gtb_spec (Cache.section_start x) line); [reflexivity|lia].
  - apply IH. intros s Hin. apply Hall. now right.
Qed.

(** X25. The heading [getPrecedingHeader] returns is read from the line of
    a heading section that starts at or above the line of the task; when the
    document has no sections, or every heading section starts below the
    task, it returns [null]. *)
Theorem getPrecedingHeader_heading_above (line : Z)
    (sections : option (list Cache.SectionCache)) (fileLines : list string) :
  (forall header,
      Cache.getPrecedingHeader line sections fileLines = Ok (Some header) ->
      exists all s text,
        sections = Some all /\ In s all
        /\ Cache.section_type s = "heading" /\ Cache.section_start s <= line
        /\ index fileLines (Cache.section_start s) = Some text
        /\ Cache.headerRegex text = Some header)
  /\ ((forall all s, sections = Some all -> In s all ->
                     Cache.section_type s = "heading" ->
                     Cache.section_start s > line) ->
      Cache.getPrecedingHeader line sections fileLines = Ok None).
Proof.
  unfold Cache.getPrecedingHeader. destruct sections as [all|]; [|split; easy].
  split.
  - intros header Hh.
    destruct (Cache.precedingHeaderSection line all None) as [s|] eqn:Hs;
      [|discriminate].
    apply precedingHeaderSection_spec in Hs as [|(Hin & Ht & Hstart)];
      [discriminate|].
    destruct (index fileLines (Cache.section_start s)) as [text|] eqn:Htext;
      [|discriminate].
    simpl in Hh. injection Hh as Hh. exists all, s, text.
    repeat split; assumption.
  - intros Hall. rewrite precedingHeaderSection_none; [reflexivity|].
    intros s Hin. now apply (Hall all s).
Qed.

Lemma spanChar_replicate (c : ascii) (n : nat) (rest : string) :
  startsWith (String c "") rest = false ->
  Cache.spanChar c (replicateChar n c ++ rest) = (replicateChar n c, rest).
Proof.
  intros Hrest. induction n as [|n IH].
  - change (replicateChar 0 c ++ rest) with rest.
    destruct rest as [|d rest]; [reflexivity|].
    unfold startsWith in Hrest. cbn [stripPrefix] in Hrest.
    cbn [Cache.spanChar replicateChar].
    destruct (Ascii.eqb c d); [discriminate|reflexivity].
  - change (replicateChar (S n) c ++ rest)
      with (String c (replicateChar n c ++ rest)).
    cbn [Cache.spanChar]. rewrite Ascii.eqb_refl, IH. reflexivity.
Qed.

Lemma startsWith_replicate (c d : ascii) (n : nat) (rest : string) :
  Ascii.eqb c d = false ->
  startsWith (String c "") (replicateChar (S n) d ++ rest) = false.
Proof.
  intros Hcd.
  change (replicateChar (S n) d ++ rest)
    with (String d (replicateChar n d ++ rest)).
  unfold startsWith. cbn [stripPrefix]. rewrite Hcd. reflexivity.
Qed.

(** X26. A line made of [n] number signs, [m] blanks and a title is a
    heading exactly when it has at least one number sign and at least one
    blank after them; the heading text is then the title up to the end of
    its line, with all the blanks before it dropped. A line such as [#tag]
    or one that starts with text is no heading. *)
Theorem headerRegex_reads_title (n m : nat) (title : string) :
  startsWith " " title = false ->
  (m = 0%nat -> startsWith "#" title = false) ->
  Cache.headerRegex (replicateChar n "#" ++ replicateChar m " " ++ title)
  = if ((n =? 0)%nat || (m =? 0)%nat)%bool then None
    else Some (dotStar title).
Proof.
  intros Hblank Hhash. unfold Cache.headerRegex.
  rewrite spanChar_replicate.
  2:{ destruct m as [|m]; [apply Hhash; reflexivity|].
      apply startsWith_replicate. reflexivity. }
  rewrite spanChar_replicate by exact Hblank.
  destruct n as [|n], m as [|m]; reflexivity.
Qed.

Lemma headerRegex_reads_title_witness :
  Cache.headerRegex "##  Shopping list" = Some "Shopping list".
Proof.
  apply (headerRegex_reads_title 2 2 "Shopping list");
    [reflexivity | discriminate].
Defined.

Lemma append_assoc (a b c : string) : (a ++ b) ++ c = a ++ (b ++ c).
Proof.
  induction a as [|d a IH]; [reflexivity|].
  rewrite !append_String, IH. reflexivity.
Qed.

Lemma length_append (a b : string) :
  String.length (a ++ b) = (String.length a + String.length b)%nat.
Proof.
  induction a as [|d a IH]; [reflexivity|].
  rewrite append_String. cbn [String.length]. rewrite IH. reflexivity.
Qed.

Lemma lacks_app (c : ascii) (a b : string) :
  lacks c (a ++ b) = lacks c a && lacks c b.
Proof.
  induction a as [|d a IH]; [reflexivity|].
  change (String d a ++ b) with (String d (a ++ b)).
  cbn [lacks]. rewrite IH, andb_assoc. reflexivity.
Qed.

Lemma spanNot_lacks (c : ascii) (s rest : string) :
  lacks c s = true ->
  spanNot c (s ++ String c rest) = (s, String c rest).
Proof.
  induction s as [|d s IH]; intros Hs.
  - change ("" ++ String c rest) with (String c rest).
    cbn [spanNot]. rewrite Ascii.eqb_refl. reflexivity.
  - cbn [lacks] in Hs. apply andb_true_iff in Hs as [Hd Hs].
    apply negb_true_iff in Hd.
    change (String d s ++ String c rest) with (String d (s ++ String c rest)).
    cbn [spanNot]. rewrite Hd, (IH Hs). reflexivity.
Qed.

Lemma indexOfChar_lacks (c : ascii) (s rest : string) :
  lacks c s = true ->
  indexOfChar c (s ++ String c rest) = Z.of_nat (String.length s).
Proof.
  induction s as [|d s IH]; intros Hs.
  - change ("" ++ String c rest) with (String c rest).
    cbn [indexOfChar]. rewrite Ascii.eqb_refl. reflexivity.
  - cbn [lacks] in Hs. apply andb_true_iff in Hs as [Hd Hs].
    apply negb_true_iff in Hd.
    change (String d s ++ String c rest) with (String d (s ++ String c rest)).
    cbn [indexOfChar String.length]. rewrite Hd, (IH Hs).
    destruct (Z.ltb_spec (Z.of_nat (String.length s)) 0); lia.
Qed.

Lemma dropChars_app (s rest : string) :
  dropChars (String.length s) (s ++ rest) = rest.
Proof.
  induction s as [|d s IH]; [reflexivity|].
  change (String d s ++ rest) with (String d (s ++ rest)).
  cbn [String.length dropChars]. exact IH.
Qed.

Lemma matchDecoration_None (open : ascii) (c : ascii) (close s : string) :
  startsWith (String open "") s = false ->
  matchDecoration (String open "") c close s = None.
Proof.
  unfold startsWith, matchDecoration.
  destruct (stripPrefix (String open "") s); [discriminate|reflexivity].
Qed.

Lemma matchDecoration_Some (open : ascii) (c : ascii) (close s : string)
    (found : string * string) :
  matchDecoration (String open "") c close s = Some found ->
  exists rest, s = String open rest.
Proof.
  unfold matchDecoration. destruct s as [|d s]; [discriminate|].
  cbn [stripPrefix]. destruct (Ascii.eqb open d) eqn:Hd; [|discriminate].
  apply Ascii.eqb_eq in Hd. subst d. intros _. now exists s.
Qed.

Lemma startsWith_app (c : ascii) (a b : string) :
  startsWith (String c "") a = false ->
  startsWith (String c "") b = false ->
  startsWith (String c "") (a ++ b) = false.
Proof.
  intros Ha Hb. destruct a as [|d a]; [exact Hb|].
  change (String d a ++ b) with (String d (a ++ b)).
  unfold startsWith in *. cbn [stripPrefix] in *.
  destruct (Ascii.eqb c d); [discriminate|reflexivity].
Qed.

(** X27. A description that starts with a wiki link with a display name,
    [[[target|shown]]], is compared by the display name; the pattern stops
    at the first closing bracket, so the second one stays in front of the
    rest of the description. *)
Theorem cleanDescription_link_alias `{Host}
    (description target shown after : string) :
  trim (replaceFirst globalFilter "" description)
  = "[[" ++ target ++ "|" ++ shown ++ "]]" ++ after ->
  lacks "|" target = true ->
  lacks "]" target = true ->
  lacks "]" shown = true ->
  startsWith "*" shown = false ->
  startsWith "=" shown = false ->
  Sort.cleanDescription description = shown ++ "]" ++ after.
Proof.
  intros Hd Hpipe Htarget Hshown Hstar Hequal.
  unfold Sort.cleanDescription. rewrite Hd.
  assert (Hlink : matchDecoration "[" "]"%char "]"
                    ("[[" ++ target ++ "|" ++ shown ++ "]]" ++ after)
                  = Some (target ++ "|" ++ shown, "]" ++ after)).
  { unfold matchDecoration.
    change ("[[" ++ target ++ "|" ++ shown ++ "]]" ++ after)
      with (String "[" (String "[" (target ++ "|" ++ shown ++ "]]" ++ after))).
    cbn [stripPrefix]. rewrite !Ascii.eqb_refl.
    unfold classThen.
    replace (target ++ "|" ++ shown ++ "]]" ++ after)
      with ((target ++ "|" ++ shown) ++ String "]" ("]" ++ after)).
    2:{ rewrite !append_assoc. reflexivity. }
    rewrite spanNot_lacks.
    2:{ rewrite !lacks_app, Htarget, Hshown. reflexivity. }
    cbn [stripPrefix]. rewrite Ascii.eqb_refl. reflexivity. }
  rewrite Hlink.
  change (target ++ "|" ++ shown) with (target ++ String "|" shown).
  rewrite (indexOfChar_lacks _ _ _ Hpipe).
  unfold substringFrom.
  replace (Z.to_nat (Z.of_nat (String.length target) + 1))
    with (String.length (target ++ "|")).
  2:{ rewrite length_append. simpl. lia. }
  replace (target ++ String "|" shown) with ((target ++ "|") ++ shown).
  2:{ rewrite append_assoc. reflexivity. }
  rewrite dropChars_app.
  rewrite (matchDecoration_None "*")
    by (apply startsWith_app; [exact Hstar|reflexivity]).
  rewrite (matchDecoration_None "=")
    by (apply startsWith_app; [exact Hequal|reflexivity]).
  reflexivity.
Qed.

Lemma cleanDescription_link_alias_witness :
  Sort.cleanDescription (H := plainHost) "[[notes/milk|Buy milk]] today"
  = "Buy milk] today".
Proof.
  apply (cleanDescription_link_alias (H := plainHost)
           "[[notes/milk|Buy milk]] today" "notes/milk" "Buy milk" " today");
    reflexivity.
Defined.

(** X28. A description that starts with emphasised text, [*text*] or
    [**text**], keeps its markers: the text between them is put in front of
    the whole description, because the replacement uses the pattern of the
    links. *)
Theorem cleanDescription_keeps_emphasis `{Host}
    (description inner rest : string) :
  matchDecoration "*" "*"%char "*"
    (trim (replaceFirst globalFilter "" description)) = Some (inner, rest) ->
  startsWith "=" inner = false ->
  Sort.cleanDescription description
  = inner ++ trim (replaceFirst globalFilter "" description).
Proof.
  intros Hmatch Hequal.
  unfold Sort.cleanDescription, Sort.removeLeadingLink.
  destruct (matchDecoration_Some _ _ _ _ _ Hmatch) as [tail Hd].
  assert (Hlink : matchDecoration "[" "]"%char "]"
                    (trim (replaceFirst globalFilter "" description)) = None).
  { rewrite Hd. apply matchDecoration_None. reflexivity. }
  rewrite Hlink, Hmatch, Hlink.
  rewrite matchDecoration_None; [reflexivity|].
  apply startsWith_app; [exact Hequal|]. rewrite Hd. reflexivity.
Qed.

Lemma cleanDescription_keeps_emphasis_witness :
  Sort.cleanDescription (H := plainHost) "**Buy** milk" = "Buy**Buy** milk".
Proof.
  apply (cleanDescription_keeps_emphasis (H := plainHost)
           "**Buy** milk" "Buy" "* milk"); reflexivity.
Defined.

(** ** Further properties of the editing form *)

Lemma startsWith_prefix (p s : string) : startsWith p (p ++ s) = true.
Proof.
  unfold startsWith. induction p as [|c p IH]; [reflexivity|].
  rewrite append_String. cbn [stripPrefix]. rewrite Ascii.eqb_refl.
  exact IH.
Qed.

Lemma includes_prefix (p s : string) : includes (p ++ s) p = true.
Proof.
  destruct (p ++ s) eqn:Hps; cbn [includes]; rewrite <- Hps;
    rewrite startsWith_prefix; reflexivity.
Qed.

(** X29. Opening the form on a task and submitting it untouched gives the
    task's priority and status back. Its done date does not come back: a
    done task gets the present moment as its done date, whatever the date
    it had, and a task in another status gets none. *)
Theorem edit_round_trip `{Host} `{EditTask.Form} (task : Task) :
  let updated := EditTask._onSubmit (EditTask.onMount task) in
  EditTask.Updated.priority updated = priority task
  /\ EditTask.Updated.status updated = status task
  /\ EditTask.Updated.doneDate updated
     = match status task with
       | Done => Some (Moment.Valid EditTask.now)
       | _ => None
       end.
Proof.
  unfold EditTask._onSubmit, EditTask.onMount.
  destruct (priority task), (status task); cbn; repeat split; reflexivity.
Qed.

(** X30. The description of every submitted task contains the global
    filter: what was typed, without the blanks around it, is submitted as it
    is when it contains the filter, and with the filter and a blank in front
    of it when it does not. *)
Theorem submitted_description_has_filter `{Host} `{EditTask.Form}
    (editableTask : EditTask.Editable.t) :
  let typed := trim (EditTask.Editable.description editableTask) in
  let submitted :=
    EditTask.Updated.description (EditTask._onSubmit editableTask) in
  includes submitted globalFilter = true
  /\ submitted = if includes typed globalFilter then typed
                 else globalFilter ++ " " ++ typed.
Proof.
  unfold EditTask._onSubmit.
  destruct (if (EditTask.Editable.status editableTask =? "to do")%string
            then _ else _) as [parsedStatus newDoneDate].
  cbn [EditTask.Updated.description].
  destruct (includes (trim (EditTask.Editable.description editableTask))
                     globalFilter) eqn:Hincludes; cbn [negb].
  - split; [exact Hincludes|reflexivity].
  - split; [apply includes_prefix|reflexivity].
Qed.
